(** * MediClinic scoring and decision engine: a shallow embedding

    The development embeds the Python sources of the risk engine
    ([ml_models/clinic_risk_model.py], [ml_models/simple_api.py],
    [ml_models/api_integration.py]) and of the behaviour classifier
    ([src/ml/mock_inference.py], [src/ml/behavior_inference.py]) and
    proves the properties stated in the specification, followed by
    further properties of feature engineering, inference, the endpoints
    and the model files.

    Modelling conventions.
    - Python numbers are exact rationals ([Q]); decimal literals such as
      [0.3] denote the rational 3/10.  NaN is a separate value.  Where
      the rounding of double-precision arithmetic decides the outcome
      (the running score of the heuristic classifier, the mean of the
      cross-validation scores, [float(n)] of a large integer) the
      arithmetic is IEEE 754 binary64 ([Float64]), and a number stands
      for the exact value of the double.
    - Text is UTF-8: a string is its sequence of bytes, and its length
      is the number of code points.
    - A dict with string keys is a [gmap string pyval]; a one-row pandas
      frame is the same map read as "column -> cell", an ordered frame of
      engineered features is an association list.
    - Code that may raise returns [res A]; a [try ... except Exception]
      block is a [match] on that result.
    - scikit-learn objects (scaler, classifier, pipeline) are records of
      fallible functions supplied by the caller.
    - The model files on disk are a map from paths to the pickled
      dictionaries; [os.environ] is a map from names to strings. *)

From Stdlib Require Import ZArith QArith Qabs Qminmax Lia Lqa String Ascii List Bool.
From Stdlib Require PrimFloat SpecFloat FloatOps.
From stdpp Require Import base option list gmap strings.

(* A decimal literal of a double is rounded to the nearest double, as in
   Python. *)
Set Warnings "-inexact-float".

Open Scope string_scope.
Open Scope Q_scope.

(** ** Python values and exceptions *)

Module Py.

(** The scalars a JSON request or a data-frame cell can hold. *)
Inductive pyval : Type :=
| VNone
| VNaN
| VNum (q : Q)
| VStr (s : string)
| VTime (hour dayofweek : Z).

Inductive exn : Type :=
| KeyError (msg : string)
| TypeError (msg : string)
| ValueError (msg : string)
| AttributeError (msg : string)
| OverflowError (msg : string)
| LibraryError (msg : string).

Definition str_exn (e : exn) : string :=
  match e with
  | KeyError m => "'" ++ m ++ "'"
  | TypeError m | ValueError m | AttributeError m | OverflowError m
  | LibraryError m => m
  end.

Inductive res (A : Type) : Type :=
| Ok (a : A)
| Raise (e : exn).
Arguments Ok {A} a.
Arguments Raise {A} e.

#[global] Instance res_ret : MRet res := fun _ a => Ok a.
#[global] Instance res_bind : MBind res := fun _ _ f m =>
  match m with
  | Ok a => f a
  | Raise e => Raise e
  end.

(** Strict order on rationals as a boolean. *)
Definition Qltb (x y : Q) : bool := negb (Qle_bool y x).

Definition type_name (v : pyval) : string :=
  match v with
  | VNone => "NoneType"
  | VNaN | VNum _ => "float"
  | VStr _ => "str"
  | VTime _ _ => "Timestamp"
  end.

Definition not_supported (op : string) (v : pyval) (rhs : string) : exn :=
  TypeError ("'" ++ op ++ "' not supported between instances of '"
             ++ type_name v ++ "' and '" ++ rhs ++ "'").

(** [v < c] and [v > c] for a number literal [c] (of Python type [ty]):
    numbers compare, NaN compares false, anything else raises. *)
Definition py_lt (v : pyval) (c : Q) (ty : string) : res bool :=
  match v with
  | VNum q => Ok (Qltb q c)
  | VNaN => Ok false
  | _ => Raise (not_supported "<" v ty)
  end.

Definition py_gt (v : pyval) (c : Q) (ty : string) : res bool :=
  match v with
  | VNum q => Ok (Qltb c q)
  | VNaN => Ok false
  | _ => Raise (not_supported ">" v ty)
  end.

(** [a and b] on comparison results: [b] is evaluated only when [a]
    holds. *)
Definition py_and (a b : res bool) : res bool :=
  x ← a; if x : bool then b else Ok false.

(** Built-in [min(a, b)] and [max(a, b)]: the first argument wins ties. *)
Definition py_min (a b : Q) : Q := if Qltb b a then b else a.
Definition py_max (a b : Q) : Q := if Qltb a b then b else a.

(** [d.get(key, default)]. *)
Definition get (d : gmap string pyval) (key : string) (dflt : pyval) : pyval :=
  default dflt (d !! key).

(** A decoded JSON item as the endpoints meet it: an object with
    scalar members, or a bare scalar. *)
Inductive json : Type :=
| JObject (d : gmap string pyval)
| JScalar (v : pyval).

(** [item.get(key, default)]: only a dict has the method. *)
Definition json_get (item : json) (key : string) (dflt : pyval) : res pyval :=
  match item with
  | JObject d => Ok (get d key dflt)
  | JScalar v =>
      Raise (AttributeError ("'" ++ type_name v ++ "' object has no attribute 'get'"))
  end.

(** Truth value of a cell, as [if x:] / [not x] see it. *)
Definition truthy (v : pyval) : bool :=
  match v with
  | VNone => false
  | VNaN => true
  | VNum q => negb (Qeq_bool q 0)
  | VStr s => negb (String.eqb s "")
  | VTime _ _ => true
  end.

(** A [for] loop whose body may raise, threading an accumulator. *)
Fixpoint foldlM {A B} (f : A → B → res A) (a : A) (l : list B) : res A :=
  match l with
  | [] => Ok a
  | x :: rest => a' ← f a x; foldlM f a' rest
  end.

(** [', '.join(xs)]. *)
Definition join (sep : string) (xs : list string) : string :=
  String.concat sep xs.

End Py.
Import Py.

(** ** IEEE 754 binary64, the arithmetic of a Python [float]

    Doubles are the primitive floats; a literal such as [0.1] is the
    double nearest to the decimal, as in Python. *)

Module Float64.
Import PrimFloat SpecFloat FloatOps.

(** The exact value of a finite double.  Infinities and NaN read 0; they
    do not arise where a value is read. *)
Definition value (x : float) : Q :=
  match Prim2SF x with
  | S754_finite s m e =>
      let magnitude : Q :=
        if (0 <=? e)%Z then inject_Z (Z.pos m * 2 ^ e)
        else Z.pos m # (2 ^ Z.to_pos (- e)) in
      Qred (if s then - magnitude else magnitude)
  | _ => 0
  end.

(** The double nearest to a rational, ties to even, an infinity beyond
    the range: the quotient of numerator and denominator, rounded once.
    It is the double itself when the rational is the value of one, the
    double of the literal when the rational is a decimal, and the double
    Python compares or converts an integer to. *)
Definition of_Q (q : Q) : float :=
  match Qnum q with
  | Z0 => 0%float
  | Zpos n =>
      SF2Prim (SFdiv prec emax (S754_finite false n 0)
                     (S754_finite false (Qden q) 0))
  | Zneg n =>
      SF2Prim (SFdiv prec emax (S754_finite true n 0)
                     (S754_finite false (Qden q) 0))
  end.

Definition of_Z (z : Z) : float := of_Q (inject_Z z).

(** [float(n)] of a Python integer. *)
Definition of_int (n : Z) : res Q :=
  let x := of_Z n in
  if is_infinity x
  then Raise (OverflowError "int too large to convert to float")
  else Ok (value x).

(** Built-in [min(a, b)] and [max(a, b)] on doubles: the first argument
    wins ties. *)
Definition min (a b : float) : float := if (b <? a)%float then b else a.
Definition max (a b : float) : float := if (a <? b)%float then b else a.

End Float64.

(** ** Behaviour verdicts (shared by both classifiers) *)

Record verdict : Type := {
  isHuman : bool;
  confidence : Q;
  modelVersion : string;
  reason : string;
  prob_human : Q;
  prob_bot : Q
}.

(** ** [src/ml/mock_inference.py] *)

Module MockInference.

(** [predict_human_mock(snapshot)] with the running score in exact
    arithmetic.  The two indicator lists and the running [confidence]
    are threaded through the seven rules in source order.  The
    embedding in double precision is [Binary64.predict_human_mock]
    below. *)
Definition predict_human_mock (snapshot : gmap string pyval) : res verdict :=
  let time_on_page := get snapshot "timeOnPageSeconds" (VNum 0) in
  let mouse_rate := get snapshot "mouseMoveRate" (VNum 0) in
  let key_rate := get snapshot "keyPressRate" (VNum 0) in
  let idle_ratio := get snapshot "idleRatio" (VNum 0) in
  let interaction_score := get snapshot "interactionScore" (VNum 0) in
  let bot_indicators : list string := [] in
  let confidence : Q := 0.5 in
  c ← py_lt time_on_page 5 "int";
  let '(bot_indicators, confidence) :=
    if c : bool
    then ((bot_indicators ++ ["very short time on page"])%list, confidence + 0.3)
    else (bot_indicators, confidence) in
  c ← py_and (py_lt mouse_rate 0.1 "float") (py_lt key_rate 0.1 "float");
  let '(bot_indicators, confidence) :=
    if c : bool
    then ((bot_indicators ++ ["minimal interaction"])%list, confidence + 0.2)
    else (bot_indicators, confidence) in
  c ← py_gt idle_ratio 0.7 "float";
  let '(bot_indicators, confidence) :=
    if c : bool
    then ((bot_indicators ++ ["high idle ratio"])%list, confidence + 0.2)
    else (bot_indicators, confidence) in
  c ← py_lt interaction_score 0.1 "float";
  let '(bot_indicators, confidence) :=
    if c : bool
    then ((bot_indicators ++ ["low interaction score"])%list, confidence + 0.1)
    else (bot_indicators, confidence) in
  let human_indicators : list string := [] in
  c ← py_and (py_gt time_on_page 30 "int") (py_lt time_on_page 300 "int");
  let '(human_indicators, confidence) :=
    if c : bool
    then ((human_indicators ++ ["reasonable time on page"])%list, confidence - 0.2)
    else (human_indicators, confidence) in
  c ← py_and (py_gt mouse_rate 0.5 "float") (py_gt key_rate 0.1 "float");
  let '(human_indicators, confidence) :=
    if c : bool
    then ((human_indicators ++ ["active interaction"])%list, confidence - 0.2)
    else (human_indicators, confidence) in
  c ← py_lt idle_ratio 0.5 "float";
  let '(human_indicators, confidence) :=
    if c : bool
    then ((human_indicators ++ ["low idle ratio"])%list, confidence - 0.1)
    else (human_indicators, confidence) in
  let is_human := Qltb confidence 0.6 in
  let final_confidence := Qabs (confidence - 0.5) * 2 in
  let reason :=
    if is_human
    then "Human indicators: " ++
         match human_indicators with
         | [] => "normal behavior patterns"
         | _ => join ", " human_indicators
         end
    else "Bot indicators: " ++
         match bot_indicators with
         | [] => "suspicious behavior patterns"
         | _ => join ", " bot_indicators
         end in
  Ok {| isHuman := is_human;
        confidence := py_min 1 (py_max 0 final_confidence);
        modelVersion := "mock-1.0.0";
        reason := reason;
        prob_human := if is_human then 1 - final_confidence else 0.1;
        prob_bot := if negb is_human then final_confidence else 0.1 |}.

(** A telemetry field, read with default 0. *)
Definition field (snapshot : gmap string pyval) (key : string) : Q :=
  match snapshot !! key with
  | Some (VNum q) => q
  | _ => 0
  end.



(** The extreme snapshot of the specification's dual-path scenario. *)
Definition bot_snapshot : gmap string pyval :=
  <["timeOnPageSeconds" := VNum 2]>
  (<["mouseMoveRate" := VNum 0]>
  (<["keyPressRate" := VNum 0]>
  (<["idleRatio" := VNum 0.9]>
  (<["interactionScore" := VNum 0]> ∅)))).

(** *** The classifier in double precision *)

Module Binary64.
Import PrimFloat.

(** [v < c] and [v > c] for a literal [c] (of Python type [ty]): a
    number is compared as a double, NaN compares false, anything else
    raises.  An integer that is not a double compares as the double
    nearest to it, which lies on the same side of each of the literals
    below. *)
Definition num_lt (v : pyval) (c : float) (ty : string) : res bool :=
  match v with
  | VNum q => Ok (Float64.of_Q q <? c)%float
  | VNaN => Ok false
  | _ => Raise (not_supported "<" v ty)
  end.

Definition num_gt (v : pyval) (c : float) (ty : string) : res bool :=
  match v with
  | VNum q => Ok (c <? Float64.of_Q q)%float
  | VNaN => Ok false
  | _ => Raise (not_supported ">" v ty)
  end.

(** [predict_human_mock(snapshot)]: the telemetry, the thresholds and
    the running [confidence] are doubles, and the verdict holds the
    exact values of the doubles returned. *)
Definition predict_human_mock (snapshot : gmap string pyval) : res verdict :=
  let time_on_page := get snapshot "timeOnPageSeconds" (VNum 0) in
  let mouse_rate := get snapshot "mouseMoveRate" (VNum 0) in
  let key_rate := get snapshot "keyPressRate" (VNum 0) in
  let idle_ratio := get snapshot "idleRatio" (VNum 0) in
  let interaction_score := get snapshot "interactionScore" (VNum 0) in
  let bot_indicators : list string := [] in
  let confidence : float := 0.5%float in
  c ← num_lt time_on_page 5 "int";
  let '(bot_indicators, confidence) :=
    if c : bool
    then ((bot_indicators ++ ["very short time on page"])%list,
          (confidence + 0.3)%float)
    else (bot_indicators, confidence) in
  c ← py_and (num_lt mouse_rate 0.1 "float") (num_lt key_rate 0.1 "float");
  let '(bot_indicators, confidence) :=
    if c : bool
    then ((bot_indicators ++ ["minimal interaction"])%list,
          (confidence + 0.2)%float)
    else (bot_indicators, confidence) in
  c ← num_gt idle_ratio 0.7 "float";
  let '(bot_indicators, confidence) :=
    if c : bool
    then ((bot_indicators ++ ["high idle ratio"])%list,
          (confidence + 0.2)%float)
    else (bot_indicators, confidence) in
  c ← num_lt interaction_score 0.1 "float";
  let '(bot_indicators, confidence) :=
    if c : bool
    then ((bot_indicators ++ ["low interaction score"])%list,
          (confidence + 0.1)%float)
    else (bot_indicators, confidence) in
  let human_indicators : list string := [] in
  c ← py_and (num_gt time_on_page 30 "int") (num_lt time_on_page 300 "int");
  let '(human_indicators, confidence) :=
    if c : bool
    then ((human_indicators ++ ["reasonable time on page"])%list,
          (confidence - 0.2)%float)
    else (human_indicators, confidence) in
  c ← py_and (num_gt mouse_rate 0.5 "float") (num_gt key_rate 0.1 "float");
  let '(human_indicators, confidence) :=
    if c : bool
    then ((human_indicators ++ ["active interaction"])%list,
          (confidence - 0.2)%float)
    else (human_indicators, confidence) in
  c ← num_lt idle_ratio 0.5 "float";
  let '(human_indicators, confidence) :=
    if c : bool
    then ((human_indicators ++ ["low idle ratio"])%list,
          (confidence - 0.1)%float)
    else (human_indicators, confidence) in
  let is_human := (confidence <? 0.6)%float in
  let final_confidence := (abs (confidence - 0.5) * 2)%float in
  let reason :=
    if is_human
    then "Human indicators: " ++
         match human_indicators with
         | [] => "normal behavior patterns"
         | _ => join ", " human_indicators
         end
    else "Bot indicators: " ++
         match bot_indicators with
         | [] => "suspicious behavior patterns"
         | _ => join ", " bot_indicators
         end in
  Ok {| isHuman := is_human;
        confidence := Float64.value (Float64.min 1 (Float64.max 0 final_confidence));
        modelVersion := "mock-1.0.0";
        reason := reason;
        prob_human :=
          Float64.value (if is_human then 1 - final_confidence else 0.1)%float;
        prob_bot :=
          Float64.value (if negb is_human then final_confidence else 0.1)%float |}.

(** The seven rules of the specification and the telemetry that fires
    them.  A field that is absent reads 0; NaN fires no rule; the
    thresholds are the doubles of the literals. *)
Record rules : Type := {
  short_visit : bool;
  minimal_interaction : bool;
  high_idle : bool;
  low_interaction : bool;
  reasonable_time : bool;
  active_interaction : bool;
  low_idle : bool
}.

Definition below (v : pyval) (c : float) : bool :=
  match v with
  | VNum q => (Float64.of_Q q <? c)%float
  | _ => false
  end.

Definition above (v : pyval) (c : float) : bool :=
  match v with
  | VNum q => (c <? Float64.of_Q q)%float
  | _ => false
  end.

Definition fired (snapshot : gmap string pyval) : rules :=
  let t := get snapshot "timeOnPageSeconds" (VNum 0) in
  let m := get snapshot "mouseMoveRate" (VNum 0) in
  let k := get snapshot "keyPressRate" (VNum 0) in
  let i := get snapshot "idleRatio" (VNum 0) in
  let s := get snapshot "interactionScore" (VNum 0) in
  {| short_visit := below t 5;
     minimal_interaction := below m 0.1 && below k 0.1;
     high_idle := above i 0.7;
     low_interaction := below s 0.1;
     reasonable_time := above t 30 && below t 300;
     active_interaction := above m 0.5 && above k 0.1;
     low_idle := below i 0.5 |}.


(** The same score accumulated in doubles, rule by rule in the order of
    the list. *)
Definition accumulated_score (r : rules) : float :=
  let score := 0.5%float in
  let score := if short_visit r then (score + 0.3)%float else score in
  let score := if minimal_interaction r then (score + 0.2)%float else score in
  let score := if high_idle r then (score + 0.2)%float else score in
  let score := if low_interaction r then (score + 0.1)%float else score in
  let score := if reasonable_time r then (score - 0.2)%float else score in
  let score := if active_interaction r then (score - 0.2)%float else score in
  let score := if low_idle r then (score - 0.1)%float else score in
  score.

(** The scaled confidence, before it is clamped. *)
Definition scaled_confidence (r : rules) : float :=
  (abs (accumulated_score r - 0.5) * 2)%float.


(** The values the comparisons of the classifier accept. *)
Definition measurement (v : pyval) : Prop :=
  match v with
  | VNum _ | VNaN => True
  | _ => False
  end.

(** A snapshot whose five telemetry fields are numbers or NaN where
    present. *)
Definition measured_at (snapshot : gmap string pyval) (key : string) : Prop :=
  measurement (get snapshot key (VNum 0)).

Definition measured (snapshot : gmap string pyval) : Prop :=
  measured_at snapshot "timeOnPageSeconds" ∧
  measured_at snapshot "mouseMoveRate" ∧
  measured_at snapshot "keyPressRate" ∧
  measured_at snapshot "idleRatio" ∧
  measured_at snapshot "interactionScore".

(** Telemetry that sits on the thresholds fires no rule. *)
Definition threshold_snapshot : gmap string pyval :=
  <["timeOnPageSeconds" := VNum 5]>
  (<["mouseMoveRate" := VNum 0.1]>
  (<["keyPressRate" := VNum 0.1]>
  (<["idleRatio" := VNum 0.7]>
  (<["interactionScore" := VNum 0.1]> ∅)))).


End Binary64.

(** [main()], from the decoded request on: the [snapshot] entry of the
    input (absent, or empty, raises [ValueError]); every exception ends
    in the error verdict and exit status 1. *)
Definition main (input_data : gmap string (gmap string pyval))
  : verdict * Z :=
  let run : res verdict :=
    match input_data !! "snapshot" with
    | None => Raise (ValueError "No snapshot provided in input")
    | Some snapshot =>
        if decide (snapshot = ∅)
        then Raise (ValueError "No snapshot provided in input")
        else Binary64.predict_human_mock snapshot
    end in
  match run with
  | Ok result => (result, 0%Z)
  | Raise e =>
      ({| isHuman := false;
          confidence := 0;
          modelVersion := "mock-error";
          reason := "Mock inference failed: " ++ str_exn e;
          prob_human := 0;
          prob_bot := 1 |}, 1%Z)
  end.

End MockInference.

(** ** Strings: the operations the feature engineer applies to text

    A string is the UTF-8 encoding of the Python text.  [len] counts
    code points; [lower] and the character classes of the regular
    expressions act on the ASCII letters and digits. *)

Module Str.

Definition chars (s : string) : list ascii := list_ascii_of_string s.

Definition code (c : ascii) : nat := nat_of_ascii c.

Definition in_range (lo hi : nat) (c : ascii) : bool :=
  (lo <=? code c)%nat && (code c <=? hi)%nat.

(** The bytes 10xxxxxx continue a code point, every other byte starts
    one. *)
Definition is_continuation : ascii → bool := in_range 128 191.

(** [len(s)] *)
Definition len (s : string) : nat :=
  length (List.filter (fun c => negb (is_continuation c)) (chars s)).

Definition is_digit : ascii → bool := in_range 48 57.
Definition is_nonzero_digit : ascii → bool := in_range 49 57.
Definition is_upper : ascii → bool := in_range 65 90.

Definition lower_char (c : ascii) : ascii :=
  if is_upper c then ascii_of_nat (code c + 32) else c.

(** [s.lower()] *)
Definition lower (s : string) : string :=
  string_of_list_ascii (map lower_char (chars s)).

(** [sub in s] *)
Definition contains (sub s : string) : bool :=
  match String.index 0 sub s with
  | Some _ => true
  | None => false
  end.

(** [s.split(c)] for a one-character separator. *)
Fixpoint split (c : ascii) (s : string) : list string :=
  match s with
  | EmptyString => [EmptyString]
  | String a s' =>
      let r := split c s' in
      if Ascii.eqb a c then EmptyString :: r
      else match r with
           | p :: ps => String a p :: ps
           | [] => [String a EmptyString]
           end
  end.

(** Between [lo] and [hi] characters, all of class [p]: [[p]{lo,hi}]. *)
Definition repeat_class (p : ascii → bool) (lo hi : nat) (cs : list ascii)
  : bool :=
  forallb p cs && (lo <=? length cs)%nat && (length cs <=? hi)%nat.

(** A pattern ending in [$] accepts the whole text, or the text without
    its final newline. *)
Definition upto_dollar (body : list ascii → bool) (cs : list ascii) : bool :=
  body cs ||
  match rev cs with
  | c :: r => Ascii.eqb c "010"%char && body (rev r)
  | [] => false
  end.

(** [re.search(r'\d', s)] *)
Definition search_digit (s : string) : bool := existsb is_digit (chars s).

(** [re.match(r'^[\+]?[1-9][\d]{0,15}$', s)] *)
Definition match_phone (s : string) : bool :=
  upto_dollar
    (fun cs =>
       let cs := match cs with
                 | c :: r => if Ascii.eqb c "+"%char then r else cs
                 | [] => cs
                 end in
       match cs with
       | d :: r => is_nonzero_digit d && repeat_class is_digit 0 15 r
       | [] => false
       end)
    (chars s).

(** [re.match(r'^[A-Z0-9]{6,20}$', s)] *)
Definition match_license (s : string) : bool :=
  upto_dollar (repeat_class (fun c => is_upper c || is_digit c) 6 20)
              (chars s).

(** [re.match(r'^\d{9,12}$', s)] *)
Definition match_tax_id (s : string) : bool :=
  upto_dollar (repeat_class is_digit 9 12) (chars s).

(** [s.replace(c, '')] for a one-character [c]. *)
Definition remove (c : ascii) (s : string) : string :=
  string_of_list_ascii (List.filter (fun a => negb (Ascii.eqb a c)) (chars s)).

(** [s.isdigit()]: at least one character, all of them digits. *)
Definition isdigit (s : string) : bool :=
  match chars s with
  | [] => false
  | cs => forallb is_digit cs
  end.

End Str.

(** ** One-row pandas columns

    A column of a one-row frame is its single cell.  The column is of
    [object] dtype when the cell is [None] or a string, of a numeric dtype
    when it is a number or NaN. *)

Module Pandas.

Definition VInt (z : Z) : pyval := VNum (inject_Z z).
Definition VNat (n : nat) : pyval := VInt (Z.of_nat n).

(** [.astype(int)] of a boolean column. *)
Definition astype_int (b : bool) : pyval := VNum (if b then 1 else 0).

Definition notna (v : pyval) : bool :=
  match v with
  | VNone | VNaN => false
  | _ => true
  end.

Definition fillna (v dflt : pyval) : pyval := if notna v then v else dflt.

Definition is_object (v : pyval) : bool :=
  match v with
  | VNone | VStr _ => true
  | _ => false
  end.

(** [col.fillna('').str]: only string columns have the accessor. *)
Definition str_of_filled (v : pyval) : res string :=
  match fillna v (VStr "") with
  | VStr s => Ok s
  | _ => Raise (AttributeError "Can only use .str accessor with string values!")
  end.

(** [col.fillna('').str.len()] *)
Definition str_len (v : pyval) : res pyval :=
  s ← str_of_filled v; Ok (VNat (Str.len s)).

(** [col.fillna('').str.contains(r'\d').astype(int)] and the three
    [str.match(...)] columns. *)
Definition str_test (p : string → bool) (v : pyval) : res pyval :=
  s ← str_of_filled v; Ok (astype_int (p s)).

Definition invalid_comparison (op : string) (v : pyval) : exn :=
  not_supported op v "int".

(** [col > c], [col < c], [col >= c]: a missing cell compares false, a
    string or a timestamp raises. *)
Definition series_cmp (op : string) (test : Q → bool) (v : pyval) : res bool :=
  match v with
  | VNum q => Ok (test q)
  | VNaN | VNone => Ok false
  | _ => Raise (invalid_comparison op v)
  end.

Definition series_gt (v : pyval) (c : Q) : res bool :=
  series_cmp ">" (fun q => Qltb c q) v.
Definition series_lt (v : pyval) (c : Q) : res bool :=
  series_cmp "<" (fun q => Qltb q c) v.
Definition series_ge (v : pyval) (c : Q) : res bool :=
  series_cmp ">=" (fun q => Qle_bool c q) v.

(** [col == c] never raises. *)
Definition series_eq (v : pyval) (c : Q) : bool :=
  match v with
  | VNum q => Qeq_bool q c
  | _ => false
  end.

(** [col.between(lo, hi)] and [col.isin(xs)] on a numeric column. *)
Definition between (v : pyval) (lo hi : Q) : bool :=
  match v with
  | VNum q => Qle_bool lo q && Qle_bool q hi
  | _ => false
  end.

Definition isin (v : pyval) (xs : list Q) : bool :=
  match v with
  | VNum q => existsb (Qeq_bool q) xs
  | _ => false
  end.

Definition unsupported_operand (op : string) (a b : string) : exn :=
  TypeError ("unsupported operand type(s) for " ++ op ++ ": '" ++ a
             ++ "' and '" ++ b ++ "'").

(** [c - col] for an integer [c]. *)
Definition rsub (c : Z) (v : pyval) : res pyval :=
  match v with
  | VNum q => Ok (VNum (inject_Z c - q))
  | VNaN | VNone => Ok VNaN
  | _ => Raise (unsupported_operand "-" "int" (type_name v))
  end.

(** [col.replace(0, 1)] *)
Definition replace_0_1 (v : pyval) : pyval :=
  match v with
  | VNum q => if Qeq_bool q 0 then VNum 1 else v
  | _ => v
  end.

(** [a / b] on two columns of a numeric dtype (int64 or float64):
    missing cells give NaN, strings and timestamps raise.  The divisor
    is never 0 where the source divides. *)
Definition div (a b : pyval) : res pyval :=
  match a, b with
  | VNum x, VNum y => Ok (VNum (x / y))
  | (VStr _ | VTime _ _), _ | _, (VStr _ | VTime _ _) =>
      Raise (unsupported_operand "/" (type_name a) (type_name b))
  | _, _ => Ok VNaN
  end.

End Pandas.

(** ** scikit-learn objects

    Fitted estimators are supplied by the caller; each call may raise. *)

Module Sklearn.

Record classifier (L : Type) : Type := {
  predict : list pyval → res L;
  predict_proba : list pyval → res (list Q)
}.
Arguments predict {L} _ _.
Arguments predict_proba {L} _ _.

Record scaler : Type := {
  transform : list pyval → res (list pyval)
}.

(** [np.max(xs)]: raises on an empty array. *)
Definition np_max (xs : list Q) : res Q :=
  match xs with
  | [] => Raise (ValueError "zero-size array to reduction operation maximum which has no identity")
  | x :: rest => Ok (fold_left Qmax rest x)
  end.

(** [LabelEncoder.transform] of one label against the fitted classes. *)
Fixpoint index_of (s : string) (classes : list string) : option nat :=
  match classes with
  | [] => None
  | c :: rest => if String.eqb c s then Some 0%nat else S <$> index_of s rest
  end.

(** [np.unique(y)]: the distinct labels in increasing order.  It is the
    [classes_] attribute of a classifier fitted on the labels [y], and
    the order of the columns of its [predict_proba]. *)
Fixpoint insert_label (label : string) (classes : list string) : list string :=
  match classes with
  | [] => [label]
  | c :: rest =>
      match String.compare label c with
      | Lt => label :: c :: rest
      | Eq => c :: rest
      | Gt => c :: insert_label label rest
      end
  end.

Definition np_unique (y : list string) : list string :=
  fold_right insert_label [] y.

(** [classes_[np.argmax(p)]]: the first class of highest probability. *)
Fixpoint argmax (classes : list string) (p : list Q) : option (string * Q) :=
  match classes, p with
  | c :: classes, x :: p =>
      match argmax classes p with
      | Some (c', x') => if Qltb x x' then Some (c', x') else Some (c, x)
      | None => Some (c, x)
      end
  | _, _ => None
  end.

(** A classifier fitted on the labels [y], whatever it has learnt:
    [proba row c] is the probability it gives class [c] on [row]. *)
Definition fitted_on (y : list string) (proba : list pyval → string → Q)
  : classifier string :=
  let classes_ := np_unique y in
  {| predict := fun row =>
       match argmax classes_ (map (proba row) classes_) with
       | Some (c, _) => Ok c
       | None => Raise (LibraryError "This classifier has no classes")
       end;
     predict_proba := fun row => Ok (map (proba row) classes_) |}.

(** The column of [predict_proba] that belongs to a class. *)
Definition class_probability (classes : list string) (p : list Q) (c : string)
  : Q :=
  match index_of c classes with
  | Some i => nth i p 0
  | None => 0
  end.

End Sklearn.

(** ** [ml_models/clinic_risk_model.py] *)

Module ClinicRiskModel.
Import Pandas Sklearn.

(** What the engine reads from its surroundings: the clock, pandas'
    timestamp parser ([None] is [NaT], otherwise hour and day of week)
    and [len(json.loads(s))]. *)
Record environment : Type := {
  current_year : Z;
  now_isoformat : string;
  to_datetime : pyval → res (option (Z * Z));
  json_loads_len : string → res nat
}.

(** The ordered frame of engineered features (one row). *)
Definition features_t : Type := list (string * pyval).

Definition column_names (X : features_t) : list string := map fst X.

Fixpoint cell (X : features_t) (name : string) : option pyval :=
  match X with
  | [] => None
  | (c, v) :: rest => if String.eqb c name then Some v else cell rest name
  end.

(** ['c' in df.columns] and [df['c']] on the raw one-row frame. *)
Definition has_col (df : gmap string pyval) (c : string) : bool :=
  bool_decide (is_Some (df !! c)).

Definition col (df : gmap string pyval) (c : string) : pyval :=
  default VNaN (df !! c).

(** [if cond: features[...] = ...]: every feature name is assigned once,
    so an assignment appends a column. *)
Definition when_ (cond : bool) (features : features_t) (new : res features_t)
  : res features_t :=
  if cond then cols ← new; Ok (features ++ cols)%list else Ok features.

Definition _classify_email_domain (email : pyval) : string :=
  match email with
  | VStr email =>
      if negb (Str.contains "@" email) then "unknown"
      else
        let domain := Str.lower (nth 1 (Str.split "@"%char email) "") in
        if existsb (fun provider => Str.contains provider domain)
                   ["gmail"; "yahoo"; "hotmail"; "outlook"]
        then "personal"
        else if existsb (fun provider => Str.contains provider domain)
                        ["clinic"; "medical"; "health"]
        then "professional"
        else "business"
  | _ => "unknown"
  end.

Definition _calculate_text_quality (text : pyval) : Q :=
  match text with
  | VStr text =>
      let n := Str.len text in
      if (n =? 0)%nat then 0
      else
        let score : Q := 0 in
        let score := if (50 <? n)%nat then score + 0.3 else score in
        let score := if (150 <? n)%nat then score + 0.2 else score in
        let score := if (300 <? n)%nat then score + 0.2 else score in
        let medical_terms :=
          ["medical"; "healthcare"; "patients"; "treatment"; "care";
           "professional"] in
        let found_terms :=
          length (List.filter
                    (fun term => Str.contains (Str.lower term) (Str.lower text))
                    medical_terms) in
        let score :=
          score + py_min 0.3 (inject_Z (Z.of_nat found_terms) * 0.1) in
        py_min 1 score
  | _ => 0
  end.

Section WithEnvironment.
Context (E : environment).

Definition _count_array_items (array_str : pyval) : nat :=
  match array_str with
  | VStr s =>
      if String.eqb s "" then 0%nat
      else match json_loads_len E s with
           | Ok n => n
           | Raise _ => 0%nat
           end
  | _ => 0%nat
  end.

(** Section 1 of [engineer_features]: the submission pattern.  The
    derived columns are written to [df] first and copied from there. *)
Definition submission_features (df : gmap string pyval) (features : features_t)
  : res (gmap string pyval * features_t) :=
  if has_col df "submission_timestamp" then
    t ← to_datetime E (col df "submission_timestamp");
    let stamp := match t with Some (h, d) => VTime h d | None => VNaN end in
    let hour := match t with Some (h, _) => VInt h | None => VNaN end in
    let dow := match t with Some (_, d) => VInt d | None => VNaN end in
    let df := <["submission_timestamp" := stamp]> df in
    let df := <["submission_hour" := hour]> df in
    let df := <["submission_day_of_week" := dow]> df in
    let df := <["is_weekend_submission" :=
                  astype_int (isin (col df "submission_day_of_week") [5; 6])]> df in
    let df := <["is_business_hours" :=
                  astype_int (between (col df "submission_hour") 9 17)]> df in
    let df := <["is_late_night" :=
                  astype_int (between (col df "submission_hour") 22 6)]> df in
    Ok (df,
        (features ++
         [("submission_hour", col df "submission_hour");
          ("submission_day_of_week", col df "submission_day_of_week");
          ("is_weekend_submission", col df "is_weekend_submission");
          ("is_business_hours", col df "is_business_hours");
          ("is_late_night", col df "is_late_night")])%list)
  else Ok (df, features).

(** Section 5 of [engineer_features]: business maturity, computed
    from the [years_in_business] column it adds to [df]. *)
Definition maturity_features (df : gmap string pyval) (features : features_t)
  : res (gmap string pyval * features_t) :=
  if has_col df "year_established" then
    y ← rsub (current_year E)
             (fillna (col df "year_established") (VInt (current_year E)));
    let df := <["years_in_business" := y]> df in
    new ← series_lt (col df "years_in_business") 1;
    est ← series_ge (col df "years_in_business") 5;
    Ok (df,
        (features ++
         [("years_in_business", col df "years_in_business");
          ("is_new_business", astype_int new);
          ("is_established", astype_int est)])%list)
  else Ok (df, features).

(** One round of the loop over [location_cols]. *)
Definition location_features (df : gmap string pyval) (features : features_t)
           (c : string) : res features_t :=
  when_ (has_col df c) features
    (n ← str_len (col df c);
     Ok [("has_" ++ c, astype_int (notna (col df c)));
         (c ++ "_length", n)]).

(** One round of the loop over [service_cols]. *)
Definition service_features (df : gmap string pyval) (features : features_t)
           (c : string) : res features_t :=
  when_ (has_col df c) features
    (Ok [(c ++ "_count",
          VNat (_count_array_items (fillna (col df c) (VStr "[]"))))]).

Definition location_cols : list string :=
  ["address"; "city"; "state"; "zip_code"].

Definition service_cols : list string :=
  ["specialties"; "custom_specialties"; "services"; "custom_services"].

(** Sum of two count columns. *)
Definition add_cells (a b : option pyval) : pyval :=
  match a, b with
  | Some (VNum x), Some (VNum y) => VNum (x + y)
  | _, _ => VNaN
  end.

Definition engineer_features (df : gmap string pyval)
  : res (gmap string pyval * features_t) :=
  let features : features_t := [] in
  (* 1. Submission Pattern Features *)
  '(df, features) ← submission_features df features;
  (* 2. Clinic Information Features *)
  features ← when_ (has_col df "clinic_name") features
    (n ← str_len (col df "clinic_name");
     d ← str_test Str.search_digit (col df "clinic_name");
     Ok [("clinic_name_length", n); ("has_numbers_in_name", d)]);
  features ← when_ (has_col df "website") features
    (n ← str_len (col df "website");
     Ok [("has_website", astype_int (notna (col df "website")));
         ("website_length", n)]);
  features ← when_ (has_col df "phone") features
    (n ← str_len (col df "phone");
     v ← str_test Str.match_phone (col df "phone");
     Ok [("has_phone", astype_int (notna (col df "phone")));
         ("phone_length", n);
         ("phone_is_valid", v)]);
  features ← when_ (has_col df "email") features
    (n ← str_len (col df "email");
     Ok [("email_length", n);
         ("email_domain_type",
          VStr (_classify_email_domain (fillna (col df "email") (VStr ""))))]);
  (* 3. License and Accreditation Features *)
  features ← when_ (has_col df "license_number") features
    (n ← str_len (col df "license_number");
     v ← str_test Str.match_license (col df "license_number");
     Ok [("has_license", astype_int (notna (col df "license_number")));
         ("license_length", n);
         ("license_format_valid", v)]);
  features ← when_ (has_col df "accreditation") features
    (n ← str_len (col df "accreditation");
     Ok [("has_accreditation", astype_int (notna (col df "accreditation")));
         ("accreditation_length", n)]);
  features ← when_ (has_col df "tax_id") features
    (v ← str_test Str.match_tax_id (col df "tax_id");
     Ok [("has_tax_id", astype_int (notna (col df "tax_id")));
         ("tax_id_format_valid", v)]);
  (* 4. Location Features *)
  features ← foldlM (location_features df) features location_cols;
  features ← when_ (forallb (has_col df) location_cols) features
    (Ok [("address_completeness",
          VNum (inject_Z (Z.of_nat
                  (length (List.filter (fun c => notna (col df c))
                                       location_cols))) / 4))]);
  features ← when_ (has_col df "latitude" && has_col df "longitude") features
    (Ok [("has_coordinates",
          astype_int (notna (col df "latitude") && notna (col df "longitude")))]);
  (* 5. Business Maturity Features *)
  '(df, features) ← maturity_features df features;
  (* 6. Scale Features *)
  features ← when_ (has_col df "number_of_doctors") features
    (large ← series_gt (col df "number_of_doctors") 10;
     Ok [("number_of_doctors", fillna (col df "number_of_doctors") (VNum 1));
         ("is_solo_practice",
          astype_int (series_eq (col df "number_of_doctors") 1));
         ("is_large_clinic", astype_int large)]);
  features ← when_ (has_col df "number_of_staff") features
    (if has_col df "number_of_doctors" then
       r ← div (col df "number_of_staff")
               (replace_0_1 (col df "number_of_doctors"));
       Ok [("number_of_staff", fillna (col df "number_of_staff") (VNum 0));
           ("doctor_to_staff_ratio", r)]
     else
       Ok [("number_of_staff", fillna (col df "number_of_staff") (VNum 0))]);
  (* 7. Service Features *)
  features ← foldlM (service_features df) features service_cols;
  features ← when_ (has_col df "specialties" && has_col df "custom_specialties")
    features
    (custom ←
       series_gt (default VNaN (cell features "custom_specialties_count")) 0;
     Ok [("total_specialties",
          add_cells (cell features "specialties_count")
                    (cell features "custom_specialties_count"));
         ("has_custom_specialties", astype_int custom)]);
  (* 8. Behavioral Metrics (if available) *)
  features ← when_ (has_col df "login_frequency") features
    (b ← series_gt (col df "login_frequency") 5;
     Ok [("login_frequency", col df "login_frequency");
         ("is_active_user", astype_int b)]);
  features ← when_ (has_col df "profile_completion_time") features
    (b ← series_lt (col df "profile_completion_time") 300;
     Ok [("profile_completion_time", col df "profile_completion_time");
         ("completed_profile_quickly", astype_int b)]);
  features ← when_ (has_col df "data_modification_count") features
    (b ← series_gt (col df "data_modification_count") 10;
     Ok [("data_modification_count", col df "data_modification_count");
         ("frequent_modifications", astype_int b)]);
  features ← when_ (has_col df "session_duration_avg") features
    (b ← series_gt (col df "session_duration_avg") 1800;
     Ok [("session_duration_avg", col df "session_duration_avg");
         ("long_sessions", astype_int b)]);
  (* 9. Text Quality Features *)
  features ← when_ (has_col df "description") features
    (n ← str_len (col df "description");
     s ← str_of_filled (col df "description");
     Ok [("description_length", n);
         ("has_description", astype_int (0 <? Str.len s)%nat);
         ("description_quality",
          VNum (_calculate_text_quality
                  (fillna (col df "description") (VStr ""))))]);
  Ok (df, features).

(** The engineered frame alone, when there is one. *)
Definition engineered (df : gmap string pyval) : option features_t :=
  match engineer_features df with
  | Ok (_, features) => Some features
  | Raise _ => None
  end.

End WithEnvironment.

(** The columns [engineer_features] emits, listed by the raw column
    that triggers them. *)
Definition group (present : bool) (names : list string) : list string :=
  if present then names else [].

Definition engineered_columns (df : gmap string pyval) : list string :=
  concat
    [ group (has_col df "submission_timestamp")
            ["submission_hour"; "submission_day_of_week";
             "is_weekend_submission"; "is_business_hours"; "is_late_night"];
      group (has_col df "clinic_name")
            ["clinic_name_length"; "has_numbers_in_name"];
      group (has_col df "website") ["has_website"; "website_length"];
      group (has_col df "phone") ["has_phone"; "phone_length"; "phone_is_valid"];
      group (has_col df "email") ["email_length"; "email_domain_type"];
      group (has_col df "license_number")
            ["has_license"; "license_length"; "license_format_valid"];
      group (has_col df "accreditation")
            ["has_accreditation"; "accreditation_length"];
      group (has_col df "tax_id") ["has_tax_id"; "tax_id_format_valid"];
      group (has_col df "address") ["has_address"; "address_length"];
      group (has_col df "city") ["has_city"; "city_length"];
      group (has_col df "state") ["has_state"; "state_length"];
      group (has_col df "zip_code") ["has_zip_code"; "zip_code_length"];
      group (forallb (has_col df) location_cols) ["address_completeness"];
      group (has_col df "latitude" && has_col df "longitude") ["has_coordinates"];
      group (has_col df "year_established")
            ["years_in_business"; "is_new_business"; "is_established"];
      group (has_col df "number_of_doctors")
            ["number_of_doctors"; "is_solo_practice"; "is_large_clinic"];
      group (has_col df "number_of_staff") ["number_of_staff"];
      group (has_col df "number_of_staff" && has_col df "number_of_doctors")
            ["doctor_to_staff_ratio"];
      group (has_col df "specialties") ["specialties_count"];
      group (has_col df "custom_specialties") ["custom_specialties_count"];
      group (has_col df "services") ["services_count"];
      group (has_col df "custom_services") ["custom_services_count"];
      group (has_col df "specialties" && has_col df "custom_specialties")
            ["total_specialties"; "has_custom_specialties"];
      group (has_col df "login_frequency") ["login_frequency"; "is_active_user"];
      group (has_col df "profile_completion_time")
            ["profile_completion_time"; "completed_profile_quickly"];
      group (has_col df "data_modification_count")
            ["data_modification_count"; "frequent_modifications"];
      group (has_col df "session_duration_avg")
            ["session_duration_avg"; "long_sessions"];
      group (has_col df "description")
            ["description_length"; "has_description"; "description_quality"] ].

(** The columns [engineer_features] adds to the raw frame itself. *)
Definition derived_columns : list string :=
  ["submission_timestamp"; "submission_hour"; "submission_day_of_week";
   "is_weekend_submission"; "is_business_hours"; "is_late_night";
   "years_in_business"].

(** A training frame: several rows under shared columns. *)
Record dataframe : Type := {
  columns : list string;
  rows : list (gmap string pyval)
}.

(** [score <= c] on a cell of the score column. *)
Definition py_le (v : pyval) (c : Q) : res bool :=
  match v with
  | VNum q => Ok (Qle_bool q c)
  | VNaN => Ok false
  | _ => Raise (not_supported "<=" v "float")
  end.

(** The body of the loop that turns a score into a level. *)
Definition risk_level_of_score (score : pyval) : res string :=
  low ← py_le score 0.3;
  if low : bool then Ok "LOW"
  else
    medium ← py_le score 0.7;
    if medium : bool then Ok "MEDIUM" else Ok "HIGH".

Definition _create_synthetic_risk_scores (df : dataframe) : res (list pyval) :=
  mapM (fun row : gmap string pyval =>
          let score : Q := 0.5 in
          let score := if negb (truthy (get row "has_license" (VNum 1)))
                       then score + 0.2 else score in
          let score := if negb (truthy (get row "has_website" (VNum 1)))
                       then score + 0.1 else score in
          let score := if truthy (get row "is_new_business" (VNum 0))
                       then score + 0.15 else score in
          let score := if truthy (get row "is_solo_practice" (VNum 0))
                       then score + 0.1 else score in
          let score := if negb (truthy (get row "has_accreditation" (VNum 1)))
                       then score + 0.1 else score in
          mature ← py_gt (get row "years_in_business" (VNum 0)) 5 "int";
          let score := if mature : bool then score - 0.1 else score in
          let score := if truthy (get row "has_accreditation" (VNum 0))
                       then score - 0.1 else score in
          let score := if truthy (get row "license_format_valid" (VNum 0))
                       then score - 0.15 else score in
          Ok (VNum (py_max 0 (py_min 1 score))))
       (rows df).

Definition prepare_labels (df : dataframe) : res (list string * list pyval) :=
  risk_scores ←
    (if bool_decide ("risk_score" ∈ columns df)
     then Ok (map (fun row => fillna (col row "risk_score") (VNum 0.5)) (rows df))
     else _create_synthetic_risk_scores df);
  risk_levels ← mapM risk_level_of_score risk_scores;
  Ok (risk_levels, risk_scores).

(** Frames on which [prepare_labels] meets no ill-typed cell: a score
    column of numbers (or gaps) when there is one, otherwise a numeric
    [years_in_business] wherever the row has it. *)
Definition labelable_row (has_scores : bool) (row : gmap string pyval) : Prop :=
  if has_scores then
    match col row "risk_score" with
    | VStr _ | VTime _ _ => False
    | _ => True
    end
  else
    match get row "years_in_business" (VNum 0) with
    | VNum _ | VNaN => True
    | _ => False
    end.

Definition labelable (df : dataframe) : Prop :=
  Forall (labelable_row (bool_decide ("risk_score" ∈ columns df))) (rows df).

(** *** Model selection in [train_model] *)

Inductive candidate : Type :=
| RandomForest
| GradientBoosting
| LogisticRegression.

(** The [models] dictionary, in insertion order. *)
Definition models : list candidate :=
  [RandomForest; GradientBoosting; LogisticRegression].

(** [cv_scores.mean()] in double precision: the fold scores (five of
    them, cv=5) are added from left to right and the sum is divided by
    their number; the result is the exact value of the double. *)
Definition mean (cv_scores : list Q) : Q :=
  let total :=
    fold_left PrimFloat.add (map Float64.of_Q cv_scores) PrimFloat.zero in
  Float64.value
    (PrimFloat.div total (Float64.of_Z (Z.of_nat (length cv_scores)))).

(** The selection loop of [train_model]: [cross_val_score] gives the
    fold scores (cv=5, weighted F1) of each candidate pipeline. *)
Definition select_best (cross_val_score : candidate → list Q)
  : option candidate * Q :=
  fold_left
    (fun '(best_model, best_score) name =>
       let avg_score := mean (cross_val_score name) in
       if Qltb best_score avg_score
       then (Some name, avg_score)
       else (best_model, best_score))
    models (None, 0).

(** [train_model] from the candidate loop to the refit
    [best_model.fit(X_train, y_train)]. *)
Definition train_model (cross_val_score : candidate → list Q) : res candidate :=
  match fst (select_best cross_val_score) with
  | Some best_model => Ok best_model
  | None => Raise (AttributeError "'NoneType' object has no attribute 'fit'")
  end.

(** The order of declaration in [models]. *)
Definition declared_before (a b : candidate) : bool :=
  match a, b with
  | RandomForest, (GradientBoosting | LogisticRegression) => true
  | GradientBoosting, LogisticRegression => true
  | _, _ => false
  end.

(** *** Inference *)

(** The fields of a [ClinicRiskModel] object that inference reads or
    writes. *)
Record t : Type := {
  model : option (classifier string);
  label_encoders : gmap string (list string);
  feature_columns : list string;
  model_version : string
}.

Record risk_assessment : Type := {
  risk_score : Q;
  risk_level : string;
  account_status : string;
  risk_flags : list string;
  confidence : Q;
  result_model_version : string;
  prediction_timestamp : string
}.

(** [_encode_categorical_features]: the object columns are label-encoded
    in column order; a column without an encoder gets a new one, fitted
    on the cell at hand and kept in [self.label_encoders]; the remaining
    missing cells become 0.  The encoders fitted before an exception
    stay. *)
Fixpoint _encode_categorical_features
         (label_encoders : gmap string (list string)) (X : features_t)
  : gmap string (list string) * res features_t :=
  match X with
  | [] => (label_encoders, Ok [])
  | (c, v) :: rest =>
      if is_object v then
        let label := match fillna v (VStr "unknown") with
                     | VStr s => s
                     | _ => "unknown"
                     end in
        match label_encoders !! c with
        | None =>
            let '(label_encoders, rest) :=
              _encode_categorical_features (<[c := [label]]> label_encoders) rest in
            (label_encoders, rest ← rest; Ok ((c, VNum 0) :: rest))
        | Some classes =>
            match index_of label classes with
            | Some i =>
                let '(label_encoders, rest) :=
                  _encode_categorical_features label_encoders rest in
                (label_encoders, rest ← rest; Ok ((c, VNat i) :: rest))
            | None =>
                (label_encoders,
                 Raise (ValueError ("y contains previously unseen labels: " ++ label)))
            end
        end
      else
        let '(label_encoders, rest) :=
          _encode_categorical_features label_encoders rest in
        (label_encoders, rest ← rest; Ok ((c, fillna v (VNum 0)) :: rest))
  end.

Definition _generate_risk_flags (clinic_data : gmap string pyval) : list string :=
  let flags : list string := [] in
  let flags := if negb (truthy (get clinic_data "has_website" (VNum 1)))
               then (flags ++ ["NO_WEBSITE"])%list else flags in
  let flags := if negb (truthy (get clinic_data "has_license" (VNum 1)))
               then (flags ++ ["NO_LICENSE"])%list else flags in
  let flags := if negb (truthy (get clinic_data "license_format_valid" (VNum 1)))
               then (flags ++ ["INVALID_LICENSE_FORMAT"])%list else flags in
  let flags := if negb (truthy (get clinic_data "has_accreditation" (VNum 1)))
               then (flags ++ ["NO_ACCREDITATION"])%list else flags in
  let flags := if truthy (get clinic_data "is_new_business" (VNum 0))
               then (flags ++ ["NEW_BUSINESS"])%list else flags in
  let flags := if truthy (get clinic_data "is_solo_practice" (VNum 0))
               then (flags ++ ["SOLO_PRACTICE"])%list else flags in
  flags.

Definition _recommend_account_status (risk_score : Q) (risk_level : string)
           (clinic_data : gmap string pyval) : string :=
  if String.eqb risk_level "HIGH" then "RESTRICTED"
  else if String.eqb risk_level "LOW"
          && truthy (get clinic_data "has_license" (VNum 0))
  then "ACTIVE_LIMITED"
  else "VERIFICATION_REQUIRED".

(** The columns handed to the pipeline, for a frame that has its row:
    every training column, 0 where the engineered frame lacks it. *)
Definition align (feature_columns : list string) (X : features_t) : features_t :=
  map (fun c => (c, default (VNum 0) (cell X c))) feature_columns.

(** The weighted score computed from the class probabilities. *)
Definition weighted_score (risk_proba : list Q) : Q :=
  let high_prob := if (2 <? length risk_proba)%nat then nth 2 risk_proba 0 else 0 in
  let medium_prob := if (1 <? length risk_proba)%nat then nth 1 risk_proba 0 else 0 in
  high_prob * 0.7 + medium_prob * 0.3.

Section Inference.
Context (E : environment).

(** The [try] block of [predict_risk] once the frame [df] is built.
    The engineered frame gets its row with the first feature assigned to
    it; when no feature was assigned, [X[col] = 0] only adds empty
    columns, and the pipeline rejects an array without samples. *)
Definition predict_risk_frame (self : t) (pipeline : classifier string)
           (df : gmap string pyval) : t * res risk_assessment :=
  match engineer_features E df with
  | Raise e => (self, Raise e)
  | Ok (df, []) =>
      (self,
       Raise (ValueError
                "Found array with 0 sample(s) while a minimum of 1 is required."))
  | Ok (df, (_ :: _) as X) =>
      let X := align (feature_columns self) X in
      let '(encoders, X_encoded) :=
        _encode_categorical_features (label_encoders self) X in
      let self := {| model := model self;
                     label_encoders := encoders;
                     feature_columns := feature_columns self;
                     model_version := model_version self |} in
      (self,
       X_encoded ← X_encoded;
       let row := map snd X_encoded in
       risk_level ← predict pipeline row;
       risk_proba ← predict_proba pipeline row;
       let risk_score := weighted_score risk_proba in
       let risk_flags := _generate_risk_flags df in
       let account_status :=
         _recommend_account_status risk_score risk_level df in
       confidence ← np_max risk_proba;
       Ok {| risk_score := risk_score;
             risk_level := risk_level;
             account_status := account_status;
             risk_flags := risk_flags;
             confidence := confidence;
             result_model_version := model_version self;
             prediction_timestamp := now_isoformat E |})
  end.

(** The [try] block: a dict becomes a one-row frame; any other JSON
    scalar has no [copy] method. *)
Definition predict_risk_try (self : t) (pipeline : classifier string)
           (clinic_data : json) : t * res risk_assessment :=
  match clinic_data with
  | JObject d => predict_risk_frame self pipeline d
  | JScalar v =>
      (self,
       Raise (AttributeError
                ("'" ++ type_name v ++ "' object has no attribute 'copy'")))
  end.

(** [predict_risk(clinic_data)]: [None] without a model and on any
    exception. *)
Definition predict_risk (self : t) (clinic_data : json)
  : t * option risk_assessment :=
  match model self with
  | None => (self, None)
  | Some pipeline =>
      match predict_risk_try self pipeline clinic_data with
      | (self, Ok result) => (self, Some result)
      | (self, Raise _) => (self, None)
      end
  end.

End Inference.

(** *** Well-typed records

    The records on which no statement of [engineer_features] meets a
    value of the wrong type: the timestamp parses, the text fields hold
    strings, the counts and measurements hold numbers of a numeric
    dtype; any of them may be missing.  A number is of a numeric dtype
    when it fits 64 bits; pandas keeps a larger integer as an object, on
    which the division of section 6 can overflow. *)
Definition textual (v : pyval) : Prop :=
  match v with
  | VNone | VNaN | VStr _ => True
  | _ => False
  end.

Definition countable (v : pyval) : Prop :=
  match v with
  | VNone | VNaN | VNum _ => True
  | _ => False
  end.

Definition int64_sized (v : pyval) : Prop :=
  match v with
  | VNum q => - inject_Z (2 ^ 63) <= q ∧ q < inject_Z (2 ^ 63)
  | _ => True
  end.

Definition text_columns : list string :=
  ["clinic_name"; "website"; "phone"; "email"; "license_number";
   "accreditation"; "tax_id"; "address"; "city"; "state"; "zip_code";
   "description"].

Definition number_columns : list string :=
  ["year_established"; "number_of_doctors"; "number_of_staff";
   "login_frequency"; "profile_completion_time"; "data_modification_count";
   "session_duration_avg"].

Definition well_typed (E : environment) (clinic_data : gmap string pyval)
  : Prop :=
  (∀ v, clinic_data !! "submission_timestamp" = Some v →
        ∃ t, to_datetime E v = Ok t)
  ∧ (∀ c v, c ∈ text_columns → clinic_data !! c = Some v → textual v)
  ∧ (∀ c v, c ∈ number_columns → clinic_data !! c = Some v →
            countable v ∧ int64_sized v).

(** *** Persistence *)

(** The object as [save_model] and [load_model] see it: the fields
    above and the scaler. *)
Record instance : Type := {
  self_fields : t;
  self_scaler : Sklearn.scaler
}.

(** The dictionary pickled in a model file.  A key may be missing; an
    entry that is there has the type [save_model] gives it. *)
Record model_file : Type := {
  file_model : option (classifier string);
  file_scaler : option Sklearn.scaler;
  file_label_encoders : option (gmap string (list string));
  file_feature_columns : option (list string);
  file_model_version : option string;
  file_training_date : option string
}.

(** The model files on disk, by path. *)
Definition filesystem : Type := gmap string model_file.

(** [joblib.load(filepath)] raises when there is no such file;
    [joblib.dump(data, filepath)] replaces the file. *)
Definition joblib_load (fs : filesystem) (filepath : string) : res model_file :=
  match fs !! filepath with
  | Some model_data => Ok model_data
  | None =>
      Raise (LibraryError ("[Errno 2] No such file or directory: '"
                           ++ filepath ++ "'"))
  end.

Definition joblib_dump (model_data : model_file) (filepath : string)
           (fs : filesystem) : res filesystem :=
  Ok (<[filepath := model_data]> fs).

Definition with_model (self : instance) (m : option (classifier string))
  : instance :=
  {| self_fields := {| model := m;
                       label_encoders := label_encoders (self_fields self);
                       feature_columns := feature_columns (self_fields self);
                       model_version := model_version (self_fields self) |};
     self_scaler := self_scaler self |}.

Definition with_scaler (self : instance) (s : Sklearn.scaler) : instance :=
  {| self_fields := self_fields self; self_scaler := s |}.

Definition with_label_encoders (self : instance)
           (encoders : gmap string (list string)) : instance :=
  {| self_fields := {| model := model (self_fields self);
                       label_encoders := encoders;
                       feature_columns := feature_columns (self_fields self);
                       model_version := model_version (self_fields self) |};
     self_scaler := self_scaler self |}.

Definition with_feature_columns (self : instance) (cols : list string)
  : instance :=
  {| self_fields := {| model := model (self_fields self);
                       label_encoders := label_encoders (self_fields self);
                       feature_columns := cols;
                       model_version := model_version (self_fields self) |};
     self_scaler := self_scaler self |}.

Definition with_model_version (self : instance) (version : string)
  : instance :=
  {| self_fields := {| model := model (self_fields self);
                       label_encoders := label_encoders (self_fields self);
                       feature_columns := feature_columns (self_fields self);
                       model_version := version |};
     self_scaler := self_scaler self |}.

(** [save_model(filepath)]: [False] without a model and when the dump
    raises. *)
Definition save_model (E : environment) (self : instance) (filepath : string)
           (fs : filesystem) : bool * filesystem :=
  match model (self_fields self) with
  | None => (false, fs)
  | Some m =>
      let model_data :=
        {| file_model := Some m;
           file_scaler := Some (self_scaler self);
           file_label_encoders := Some (label_encoders (self_fields self));
           file_feature_columns := Some (feature_columns (self_fields self));
           file_model_version := Some (model_version (self_fields self));
           file_training_date := Some (now_isoformat E) |} in
      match joblib_dump model_data filepath fs with
      | Ok fs => (true, fs)
      | Raise _ => (false, fs)
      end
  end.

(** [load_model(filepath)]: the attributes are assigned one after the
    other, so a [KeyError] leaves the earlier assignments in place. *)
Definition load_model (self : instance) (filepath : string) (fs : filesystem)
  : instance * bool :=
  match joblib_load fs filepath with
  | Raise _ => (self, false)
  | Ok model_data =>
      match file_model model_data with
      | None => (self, false)
      | Some m =>
          let self := with_model self (Some m) in
          match file_scaler model_data with
          | None => (self, false)
          | Some s =>
              let self := with_scaler self s in
              match file_label_encoders model_data with
              | None => (self, false)
              | Some encoders =>
                  let self := with_label_encoders self encoders in
                  match file_feature_columns model_data with
                  | None => (self, false)
                  | Some cols =>
                      let self := with_feature_columns self cols in
                      let self :=
                        with_model_version self
                          (default "1.0" (file_model_version model_data)) in
                      (self, true)
                  end
              end
          end
      end
  end.

End ClinicRiskModel.

(** ** [ml_models/api_integration.py] *)

Module ApiIntegration.
Import ClinicRiskModel.

Record batch_result : Type := {
  result : risk_assessment;
  result_batch_index : nat
}.

Record batch_error : Type := {
  error_batch_index : nat;
  error : string;
  clinic_name : pyval
}.

Record batch_summary : Type := {
  total_processed : nat;
  successful : nat;
  failed : nat
}.

(** The JSON bodies the two endpoints answer with. *)
Inductive body : Type :=
| Failure (error message : string)
| MissingFields (missing_fields : list string)
| Assessed (data : risk_assessment) (api_version : string)
| Batch (results : list batch_result) (errors : list batch_error)
        (summary : batch_summary).

Definition response : Type := body * Z.

Section Endpoints.
Context (E : environment).

(** [POST /assess-risk] for a request body that decoded to a dict. *)
Definition assess_risk (model : t) (model_loaded : bool)
           (clinic_data : gmap string pyval) : t * response :=
  if negb model_loaded then
    (model, (Failure "Model not loaded"
                     "Risk assessment service is currently unavailable", 503%Z))
  else if bool_decide (clinic_data = ∅) then
    (model, (Failure "No data provided" "Clinic data is required", 400%Z))
  else
    let required_fields := ["clinic_name"; "email"] in
    let missing_fields :=
      List.filter (fun field => negb (has_col clinic_data field))
                  required_fields in
    match missing_fields with
    | _ :: _ => (model, (MissingFields missing_fields, 400%Z))
    | [] =>
        match predict_risk E model (JObject clinic_data) with
        | (model, None) =>
            (model, (Failure "Prediction failed"
                             "Unable to complete risk assessment", 500%Z))
        | (model, Some result) => (model, (Assessed result "1.0", 200%Z))
        end
    end.

(** The [for i, clinic_data in enumerate(clinics)] loop.  The inner
    [try] guards the prediction and the construction of the entry; its
    handler builds the error entry itself, so an exception raised
    there leaves the loop. *)
Fixpoint batch_loop (model : t) (i : nat) (clinics : list json)
         (results : list batch_result) (errors : list batch_error)
  : t * res (list batch_result * list batch_error) :=
  match clinics with
  | [] => (model, Ok (results, errors))
  | clinic_data :: rest =>
      let '(model, result) := predict_risk E model clinic_data in
      let attempt : res (list batch_result * list batch_error) :=
        match result with
        | Some result =>
            Ok ((results ++ [{| result := result;
                                result_batch_index := i |}])%list, errors)
        | None =>
            name ← json_get clinic_data "clinic_name" (VStr "Unknown");
            Ok (results,
                (errors ++ [{| error_batch_index := i;
                               error := "Prediction failed";
                               clinic_name := name |}])%list)
        end in
      let handled : res (list batch_result * list batch_error) :=
        match attempt with
        | Ok lists => Ok lists
        | Raise e =>
            name ← json_get clinic_data "clinic_name" (VStr "Unknown");
            Ok (results,
                (errors ++ [{| error_batch_index := i;
                               error := str_exn e;
                               clinic_name := name |}])%list)
        end in
      match handled with
      | Ok (results, errors) => batch_loop model (S i) rest results errors
      | Raise e => (model, Raise e)
      end
  end.

(** [POST /batch-assess]; [clinics] is [data.get('clinics', [])]. *)
Definition batch_assess_risk (model : t) (model_loaded : bool)
           (clinics : list json) : t * response :=
  if negb model_loaded then
    (model, (Failure "Model not loaded"
                     "Risk assessment service is currently unavailable", 503%Z))
  else
    match clinics with
    | [] => (model, (Failure "No clinics provided" "Clinics array is required",
                     400%Z))
    | _ :: _ =>
        if (100 <? length clinics)%nat then
          (model, (Failure "Too many clinics" "Maximum 100 clinics per batch",
                   400%Z))
        else
          match batch_loop model 0 clinics [] [] with
          | (model, Ok (results, errors)) =>
              (model,
               (Batch results errors
                      {| total_processed := length clinics;
                         successful := length results;
                         failed := length errors |}, 200%Z))
          | (model, Raise e) =>
              (model, (Failure "Internal server error" (str_exn e), 500%Z))
          end
    end.

(** The entries a batch of JSON objects gives rise to, item by item from
    index [i] on, the model object threaded through the predictions. *)
Fixpoint entries (model : t) (i : nat) (clinics : list (gmap string pyval))
  : list batch_result * list batch_error :=
  match clinics with
  | [] => ([], [])
  | d :: rest =>
      let '(model, outcome) := predict_risk E model (JObject d) in
      let '(results, errors) := entries model (S i) rest in
      match outcome with
      | Some r => ({| result := r; result_batch_index := i |} :: results, errors)
      | None =>
          (results,
           {| error_batch_index := i;
              error := "Prediction failed";
              clinic_name := get d "clinic_name" (VStr "Unknown") |} :: errors)
      end
  end.

(** *** [POST /validate-clinic-data] *)

(** ['@' not in email]: only a string can be searched. *)
Definition not_in (sub : string) (v : pyval) : res bool :=
  match v with
  | VStr s => Ok (negb (Str.contains sub s))
  | _ =>
      Raise (TypeError ("argument of type '" ++ type_name v
                        ++ "' is not iterable"))
  end.

(** [phone.replace('+', '').replace('-', '').replace(' ', '').isdigit()] *)
Definition phone_digits (phone : pyval) : res bool :=
  match phone with
  | VStr s =>
      Ok (Str.isdigit (Str.remove " " (Str.remove "-" (Str.remove "+" s))))
  | _ =>
      Raise (AttributeError ("'" ++ type_name phone
                             ++ "' object has no attribute 'replace'"))
  end.

(** [a or b] on comparison results: [b] is evaluated only when [a]
    fails. *)
Definition py_or (a b : res bool) : res bool :=
  x ← a; if x : bool then Ok true else b.

Definition is_not_None (v : pyval) : bool :=
  match v with
  | VNone => false
  | _ => true
  end.

(** The answer of the validation endpoint; [warnings] and [field_count]
    are only there when the checks ran to the end. *)
Record validation : Type := {
  valid : bool;
  errors : list string;
  warnings : option (list string);
  field_count : option nat
}.

Definition validate_clinic_data (clinic_data : gmap string pyval) : validation :=
  if bool_decide (clinic_data = ∅) then
    {| valid := false;
       errors := ["No data provided"];
       warnings := None;
       field_count := None |}
  else
    let attempt : res validation :=
      let validation_errors : list string := [] in
      let warnings : list string := [] in
      let required_fields := ["clinic_name"; "email"] in
      let validation_errors :=
        fold_left
          (fun validation_errors field =>
             if negb (truthy (get clinic_data field VNone))
             then (validation_errors
                   ++ [("Missing required field: " ++ field)%string])%list
             else validation_errors)
          required_fields validation_errors in
      let email := get clinic_data "email" (VStr "") in
      c ← not_in "@" email;
      let validation_errors :=
        if c : bool
        then (validation_errors ++ ["Invalid email format"])%list
        else validation_errors in
      let phone := get clinic_data "phone" (VStr "") in
      c ← (if truthy phone
           then digits ← phone_digits phone; Ok (negb digits)
           else Ok false);
      let warnings :=
        if c : bool
        then (warnings ++ ["Phone format may be invalid"])%list
        else warnings in
      let year := get clinic_data "year_established" VNone in
      c ← (if truthy year
           then py_or (py_lt year 1900 "int")
                      (py_gt year (inject_Z (current_year E)) "int")
           else Ok false);
      let validation_errors :=
        if c : bool
        then (validation_errors
              ++ ["Year established must be between 1900 and current year"])%list
        else validation_errors in
      Ok {| valid := (length validation_errors =? 0)%nat;
            errors := validation_errors;
            warnings := Some warnings;
            field_count :=
              Some (length (List.filter (fun kv => is_not_None kv.2)
                                        (map_to_list clinic_data))) |} in
    match attempt with
    | Ok answer => answer
    | Raise e =>
        {| valid := false;
           errors := [str_exn e];
           warnings := None;
           field_count := None |}
    end.

End Endpoints.

(** *** Loading and reloading the model *)

Section Lifecycle.
(** [os.environ]. *)
Context (environ : gmap string string).

(** [load_model()]: the module-level [model] and [model_loaded] are
    updated; the function has no [return], so the caller gets [None].
    [ClinicRiskModel.load_model] catches every exception itself. *)
Definition load_model (fs : filesystem) (model : instance) (model_loaded : bool)
  : instance * bool * pyval :=
  let model_path :=
    default "clinic_risk_model.joblib" (environ !! "MODEL_PATH") in
  let '(model, loaded) := ClinicRiskModel.load_model model model_path fs in
  let model_loaded := if loaded then true else model_loaded in
  (model, model_loaded, VNone).

Inductive reload_body : Type :=
| Reloaded (message : string) (old_version : option string)
           (new_version : string)
| ReloadFailed (message : string).

(** [POST /reload-model] *)
Definition reload_model (fs : filesystem) (model : instance)
           (model_loaded : bool) : instance * bool * (reload_body * Z) :=
  let old_version :=
    if model_loaded then Some (model_version (self_fields model)) else None in
  let '(model, model_loaded, loaded) := load_model fs model model_loaded in
  if truthy loaded then
    (model, model_loaded,
     (Reloaded "Model reloaded successfully" old_version
               (model_version (self_fields model)), 200%Z))
  else
    (model, model_loaded, (ReloadFailed "Failed to reload model", 500%Z)).

End Lifecycle.

End ApiIntegration.

(** ** [ml_models/simple_api.py] *)

Module SimpleApi.
Import Pandas Sklearn.

(** The loaded bundle: classifier over encoded labels, label encoder,
    training columns, optional version. *)
Record model_data : Type := {
  model : classifier Z;
  inverse_transform : Z → res string;
  feature_columns : list string;
  model_version : option string
}.

Record risk_assessment : Type := {
  risk_score : Q;
  risk_level : string;
  account_status : string;
  risk_flags : list string;
  confidence : Q;
  result_model_version : string;
  prediction_timestamp : string;
  api_version : string;
  request_id : string
}.

Inductive body : Type :=
| Failure (error message : string)
| Assessed (data : risk_assessment).

(** [2024 - x] on a request value. *)
Definition py_rsub (c : Z) (v : pyval) : res pyval :=
  match v with
  | VNum q => Ok (VNum (inject_Z c - q))
  | VNaN => Ok VNaN
  | _ => Raise (unsupported_operand "-" "int" (type_name v))
  end.

(** [1 if clinic_data.get(key) else 0] *)
Definition present (clinic_data : gmap string pyval) (key : string) : pyval :=
  VNum (if truthy (get clinic_data key VNone) then 1 else 0).

Section Endpoint.
(** [request_id] is built from the clock. *)
Context (request_id_now : string).

Definition assess_risk (loaded : option model_data)
           (clinic_data : gmap string pyval) : body * Z :=
  match loaded with
  | None =>
      (Failure "Model not loaded"
               "Risk assessment service is currently unavailable", 503%Z)
  | Some md =>
      if bool_decide (clinic_data = ∅) then
        (Failure "No data provided" "Clinic data is required", 400%Z)
      else
        let attempt : res risk_assessment :=
          years ← py_rsub 2024 (get clinic_data "year_established" (VNum 2024));
          let features : list (string * pyval) :=
            [("has_website", present clinic_data "website");
             ("has_phone", present clinic_data "phone");
             ("has_license", present clinic_data "license_number");
             ("has_accreditation", present clinic_data "accreditation");
             ("years_in_business", years);
             ("number_of_doctors", get clinic_data "number_of_doctors" (VNum 1));
             ("number_of_staff", get clinic_data "number_of_staff" (VNum 0));
             ("mouseMoveCount", get clinic_data "mouseMoveCount" (VNum 0));
             ("keyPressCount", get clinic_data "keyPressCount" (VNum 0));
             ("timeOnPageSeconds", get clinic_data "timeOnPageSeconds" (VNum 0));
             ("mouseMoveRate", get clinic_data "mouseMoveRate" (VNum 0));
             ("keyPressRate", get clinic_data "keyPressRate" (VNum 0));
             ("interactionBalance", get clinic_data "interactionBalance" (VNum 0));
             ("interactionScore", get clinic_data "interactionScore" (VNum 0));
             ("idleRatio", get clinic_data "idleRatio" (VNum 0))] in
          let df := ClinicRiskModel.align (feature_columns md) features in
          let row := map snd df in
          prediction_encoded ← predict (model md) row;
          prediction_proba ← predict_proba (model md) row;
          risk_level ← inverse_transform md prediction_encoded;
          confidence ← np_max prediction_proba;
          let risk_score : Q :=
            if String.eqb risk_level "HIGH" then 0.8 + (confidence - 0.5) * 0.4
            else if String.eqb risk_level "MEDIUM"
            then 0.4 + (confidence - 0.5) * 0.4
            else 0.2 + (confidence - 0.5) * 0.4 in
          let risk_score := py_max 0 (py_min 1 risk_score) in
          let account_status :=
            if String.eqb risk_level "HIGH" then "RESTRICTED"
            else if String.eqb risk_level "LOW" then "ACTIVE_LIMITED"
            else "VERIFICATION_REQUIRED" in
          let risk_flags : list string := [] in
          let risk_flags :=
            if negb (truthy (get clinic_data "website" VNone))
            then (risk_flags ++ ["NO_WEBSITE"])%list else risk_flags in
          let risk_flags :=
            if negb (truthy (get clinic_data "license_number" VNone))
            then (risk_flags ++ ["NO_LICENSE"])%list else risk_flags in
          let risk_flags :=
            if negb (truthy (get clinic_data "accreditation" VNone))
            then (risk_flags ++ ["NO_ACCREDITATION"])%list else risk_flags in
          recent ← py_gt (get clinic_data "year_established" (VNum 2024)) 2020 "int";
          let risk_flags :=
            if recent : bool
            then (risk_flags ++ ["NEW_BUSINESS"])%list else risk_flags in
          Ok {| risk_score := risk_score;
                risk_level := risk_level;
                account_status := account_status;
                risk_flags := risk_flags;
                confidence := confidence;
                result_model_version := default "1.0" (model_version md);
                prediction_timestamp := "2026-02-11T00:00:00Z";
                api_version := "1.0";
                request_id := request_id_now |} in
        match attempt with
        | Ok result => (Assessed result, 200%Z)
        | Raise e => (Failure "Internal server error" (str_exn e), 500%Z)
        end
  end.

End Endpoint.

End SimpleApi.

(** ** [src/ml/behavior_inference.py] *)

Module BehaviorInference.
Import Sklearn.

Definition FEATURE_COLUMNS : list string :=
  ["mouseMoveCount"; "keyPressCount"; "timeOnPageSeconds"; "mouseMoveRate";
   "keyPressRate"; "interactionBalance"; "interactionScore"; "idleRatio"].

(** The [model_data] dict loaded from the artifact; [model] and [scaler]
    are read with [[]], [version] with [get]. *)
Record model_data : Type := {
  model : option (classifier Z);
  scaler : option Sklearn.scaler;
  version : option string
}.

(** [float(value)]: an integer is rounded to the nearest double and
    raises when it is beyond the range of the doubles; a double is
    returned as it is. *)
Definition py_float (value : pyval) : res pyval :=
  match value with
  | VNum q =>
      if (Qnum q mod Z.pos (Qden q) =? 0)%Z
      then x ← Float64.of_int (Qnum q / Z.pos (Qden q)); Ok (VNum x)
      else Ok (VNum q)
  | VNaN => Ok VNaN
  | _ => Raise (TypeError ("float() argument must be a string or a real number, not '"
                           ++ type_name value ++ "'"))
  end.

Definition prepare_features (snapshot : gmap string pyval)
  : res (list pyval) :=
  mapM (fun feature =>
          let value := get snapshot feature (VNum 0) in
          let value := match value with
                       | VNum _ | VNaN => value
                       | _ => VNum 0
                       end in
          py_float value)
       FEATURE_COLUMNS.

Definition item (A : Type) (key : string) (entry : option A) : res A :=
  match entry with
  | Some a => Ok a
  | None => Raise (KeyError key)
  end.

(** The [try] block of [predict_human]. *)
Definition predict_human_try (md : model_data) (snapshot : gmap string pyval)
  : res verdict :=
  model ← item _ "model" (model md);
  scaler ← item _ "scaler" (scaler md);
  let version := default "unknown" (version md) in
  features ← prepare_features snapshot;
  features_scaled ← transform scaler features;
  prediction ← predict model features_scaled;
  probabilities ← predict_proba model features_scaled;
  let human_prob := if (1 <? length probabilities)%nat
                    then nth 1 probabilities 0 else 0 in
  let bot_prob := if (0 <? length probabilities)%nat
                  then nth 0 probabilities 0 else 0 in
  let is_human := (prediction =? 1)%Z in
  let confidence := py_max human_prob bot_prob in
  reason ←
    (if negb is_human then
       let time_on_page := get snapshot "timeOnPageSeconds" (VNum 0) in
       let mouse_rate := get snapshot "mouseMoveRate" (VNum 0) in
       let key_rate := get snapshot "keyPressRate" (VNum 0) in
       let idle_ratio := get snapshot "idleRatio" (VNum 0) in
       let reasons : list string := [] in
       c ← py_lt time_on_page 5 "int";
       let reasons := if c : bool
                      then (reasons ++ ["very short time on page"])%list
                      else reasons in
       c ← py_and (py_lt mouse_rate 0.1 "float") (py_lt key_rate 0.1 "float");
       let reasons := if c : bool
                      then (reasons ++ ["minimal interaction"])%list
                      else reasons in
       c ← py_gt idle_ratio 0.7 "float";
       let reasons := if c : bool
                      then (reasons ++ ["high idle ratio"])%list
                      else reasons in
       Ok match reasons with
          | [] => "Behavioral patterns match human interaction"
          | _ => "Bot indicators: " ++ join ", " reasons
          end
     else Ok "Behavioral patterns match human interaction");
  Ok {| isHuman := is_human;
        confidence := confidence;
        modelVersion := version;
        reason := reason;
        prob_human := human_prob;
        prob_bot := bot_prob |}.

(** The verdict returned from the [except] branch. *)
Definition safe_default (e : exn) : verdict :=
  {| isHuman := false;
     confidence := 0;
     modelVersion := "error";
     reason := "Prediction error: " ++ str_exn e;
     prob_human := 0;
     prob_bot := 1 |}.

Definition predict_human (md : model_data) (snapshot : gmap string pyval)
  : verdict :=
  match predict_human_try md snapshot with
  | Ok result => result
  | Raise e => safe_default e
  end.

(** [load_model(model_path)]: what [joblib.load] raises is wrapped in a
    [RuntimeError], of which only the message is read. *)
Definition load_model (artifact : res model_data) : res model_data :=
  match artifact with
  | Ok md => Ok md
  | Raise e => Raise (LibraryError ("Failed to load model: " ++ str_exn e))
  end.

(** [main()], from the decoded request on: [artifact] is what
    [joblib.load] makes of the model file. *)
Definition main (artifact : res model_data)
           (input_data : gmap string (gmap string pyval)) : verdict * Z :=
  let run : res verdict :=
    md ← load_model artifact;
    match input_data !! "snapshot" with
    | None => Raise (ValueError "No snapshot provided in input")
    | Some snapshot =>
        if decide (snapshot = ∅)
        then Raise (ValueError "No snapshot provided in input")
        else Ok (predict_human md snapshot)
    end in
  match run with
  | Ok result => (result, 0%Z)
  | Raise e =>
      ({| isHuman := false;
          confidence := 0;
          modelVersion := "error";
          reason := "Inference failed: " ++ str_exn e;
          prob_human := 0;
          prob_bot := 1 |}, 1%Z)
  end.

End BehaviorInference.

(** ** The laws of the specification, in its own words *)

Module Spec.

(** The threshold law between a score and a level. *)
Definition threshold_law (score : Q) (level : string) : Prop :=
  (score <= 0.3 → level = "LOW") ∧
  (0.3 < score ∧ score <= 0.7 → level = "MEDIUM") ∧
  (0.7 < score → level = "HIGH").

(** The decision table of the account status. *)
Definition decision_table (level : string) (has_license : bool) : string :=
  if String.eqb level "HIGH" then "RESTRICTED"
  else if String.eqb level "LOW" && has_license then "ACTIVE_LIMITED"
  else "VERIFICATION_REQUIRED".

End Spec.

(** ** Concrete requests and fitted models used as test points *)

Module Scenarios.
Import Pandas Sklearn.

Definition env : ClinicRiskModel.environment :=
  {| ClinicRiskModel.current_year := 2024;
     ClinicRiskModel.now_isoformat := "2024-06-01T12:00:00";
     ClinicRiskModel.to_datetime := fun _ => Ok None;
     ClinicRiskModel.json_loads_len := fun _ => Ok 0%nat |}.

(** A pipeline that answers every row with one label and one
    probability vector, the probabilities in the order of the classes
    HIGH, LOW, MEDIUM. *)
Definition constant_pipeline (label : string) (proba : list Q)
  : classifier string :=
  {| predict := fun _ => Ok label; predict_proba := fun _ => Ok proba |}.

Definition fitted (pipeline : classifier string) (cols : list string)
  : ClinicRiskModel.t :=
  {| ClinicRiskModel.model := Some pipeline;
     ClinicRiskModel.label_encoders := ∅;
     ClinicRiskModel.feature_columns := cols;
     ClinicRiskModel.model_version := "2.0" |}.

Definition training_columns : list string :=
  ["has_website"; "website_length"; "has_license"; "license_length";
   "license_format_valid"; "number_of_doctors"; "is_solo_practice";
   "is_large_clinic"].

(** Sure of HIGH. *)
Definition high_model : ClinicRiskModel.t :=
  fitted (constant_pipeline "HIGH" [1; 0; 0]) training_columns.

(** LOW with probability 0.8. *)
Definition low_model : ClinicRiskModel.t :=
  fitted (constant_pipeline "LOW" [0.1; 0.8; 0.1]) training_columns.

(** A pipeline whose classifier fails. *)
Definition broken_model : ClinicRiskModel.t :=
  fitted {| predict := fun _ => Raise (LibraryError "X has 8 features, but StandardScaler is expecting 12 features as input.");
            predict_proba := fun _ => Ok [1] |}
         training_columns.

(** A labelled training frame: three scores and a gap. *)
Definition scored_frame : ClinicRiskModel.dataframe :=
  {| ClinicRiskModel.columns := ["clinic_name"; "risk_score"];
     ClinicRiskModel.rows :=
       [ <["risk_score" := VNum 0.2]> ∅;
         <["risk_score" := VNum 0.5]> ∅;
         <["risk_score" := VNum 0.9]> ∅;
         <["risk_score" := VNaN]> ∅ ] |}.

(** A one-doctor clinic with a website and a licence number. *)
Definition solo_clinic : gmap string pyval :=
  <["clinic_name" := VStr "Solo Practice"]>
  (<["email" := VStr "dr@clinic.org"]>
  (<["website" := VStr "https://solo.example"]>
  (<["license_number" := VStr "LIC123456"]>
  (<["number_of_doctors" := VNum 1]> ∅)))).

(** A one-doctor clinic that left website and licence number empty
    (JSON null). *)
Definition unlisted_solo_clinic : gmap string pyval :=
  <["clinic_name" := VStr "Dr. Reyes Clinic"]>
  (<["email" := VStr "reyes@gmail.com"]>
  (<["website" := VNone]>
  (<["license_number" := VNone]>
  (<["number_of_doctors" := VNum 1]> ∅)))).

(** A clinic that submitted neither licence nor accreditation. *)
Definition unlicensed_clinic : gmap string pyval :=
  <["clinic_name" := VStr "New Clinic"]>
  (<["email" := VStr "owner@gmail.com"]>
  (<["website" := VStr "https://new.example"]> ∅)).

Definition bare_clinic : gmap string pyval :=
  <["clinic_name" := VStr "Bare"]> (<["email" := VStr "a@b.c"]> ∅).

(** The bundle of the simple API: labels encoded 0, 1, 2 for HIGH, LOW,
    MEDIUM; this classifier answers LOW. *)
Definition simple_low_bundle : SimpleApi.model_data :=
  {| SimpleApi.model :=
       {| predict := fun _ => Ok 1%Z;
          predict_proba := fun _ => Ok [0.1; 0.8; 0.1] |};
     SimpleApi.inverse_transform := fun z =>
       match nth_error ["HIGH"; "LOW"; "MEDIUM"] (Z.to_nat z) with
       | Some l => Ok l
       | None => Raise (ValueError "y contains previously unseen labels")
       end;
     SimpleApi.feature_columns :=
       ["has_website"; "has_phone"; "has_license"; "has_accreditation";
        "years_in_business"; "number_of_doctors"; "number_of_staff"];
     SimpleApi.model_version := Some "1.0" |}.

(** A behaviour bundle whose classifier would answer "human" but whose
    scaler rejects the feature row. *)
Definition failing_scaler_bundle : BehaviorInference.model_data :=
  {| BehaviorInference.model :=
       Some {| predict := fun _ => Ok 1%Z;
               predict_proba := fun _ => Ok [0.1; 0.9] |};
     BehaviorInference.scaler :=
       Some {| transform := fun _ =>
                 Raise (ValueError "X has 8 features, but StandardScaler is expecting 6 features as input.") |};
     BehaviorInference.version := Some "1.0.0" |}.

(** An attentive visitor. *)
Definition human_snapshot : gmap string pyval :=
  <["timeOnPageSeconds" := VNum 120]>
  (<["mouseMoveRate" := VNum 0.9]>
  (<["keyPressRate" := VNum 0.4]>
  (<["idleRatio" := VNum 0.1]>
  (<["interactionScore" := VNum 0.9]> ∅)))).

(** Cross-validation in which every candidate scores 0 on every fold. *)
Definition zero_scores (name : ClinicRiskModel.candidate) : list Q :=
  [0; 0; 0; 0; 0].

(** Cross-validation with a tie for the best mean between the second and
    the third candidate. *)
Definition tied_scores (name : ClinicRiskModel.candidate) : list Q :=
  match name with
  | ClinicRiskModel.RandomForest => [0.5; 0.5; 0.5; 0.5; 0.5]
  | _ => [0.7; 0.6; 0.8; 0.7; 0.7]
  end.

(** A batch of three items, the second a JSON null. *)
Definition batch_with_null : list json :=
  [JObject solo_clinic; JScalar VNone; JObject bare_clinic].

(** A clock and parser for a submission late in the evening: 23 h on a
    Wednesday. *)
Definition night_env : ClinicRiskModel.environment :=
  {| ClinicRiskModel.current_year := 2024;
     ClinicRiskModel.now_isoformat := "2024-06-05T23:31:00";
     ClinicRiskModel.to_datetime := fun _ => Ok (Some (23%Z, 2%Z));
     ClinicRiskModel.json_loads_len := fun _ => Ok 0%nat |}.

Definition late_submission : gmap string pyval :=
  <["clinic_name" := VStr "Night Owl Clinic"]>
  (<["email" := VStr "owl@clinic.org"]>
  (<["submission_timestamp" := VStr "2024-06-05T23:30:00"]> ∅)).

(** A registration form left mostly blank: an empty licence number, no
    founding year, no doctor count. *)
Definition sparse_clinic : gmap string pyval :=
  <["clinic_name" := VStr "Sparse Clinic"]>
  (<["email" := VStr "info@sparse.example"]>
  (<["license_number" := VStr ""]>
  (<["year_established" := VNone]>
  (<["number_of_doctors" := VNone]> ∅)))).

(** A clinic that reports six staff and no doctor, with a description
    and an address without zip code. *)
Definition staffed_clinic : gmap string pyval :=
  <["clinic_name" := VStr "Staffed Clinic"]>
  (<["email" := VStr "desk@staffed.example"]>
  (<["number_of_staff" := VNum 6]>
  (<["number_of_doctors" := VNum 0]>
  (<["description" := VStr "Medical care for patients."]>
  (<["address" := VStr "12 Main St"]>
  (<["city" := VStr "Cebu"]>
  (<["state" := VStr "Cebu"]>
  (<["zip_code" := VNone]> ∅)))))))).

(** A record whose phone number was sent as a JSON number. *)
Definition numeric_phone_clinic : gmap string pyval :=
  <["clinic_name" := VStr "Numeric Phone"]>
  (<["email" := VStr "a@b.c"]>
  (<["phone" := VNum 5550123]> ∅)).

(** A model trained with the e-mail domain class among its columns,
    once with the encoder fitted on two classes, once without an
    encoder. *)
Definition encoded_model : ClinicRiskModel.t :=
  {| ClinicRiskModel.model := Some (constant_pipeline "LOW" [0.1; 0.8; 0.1]);
     ClinicRiskModel.label_encoders :=
       <["email_domain_type" := ["business"; "personal"]]> ∅;
     ClinicRiskModel.feature_columns := ["email_domain_type"; "has_website"];
     ClinicRiskModel.model_version := "2.0" |}.

Definition fresh_model : ClinicRiskModel.t :=
  fitted (constant_pipeline "LOW" [0.1; 0.8; 0.1])
         ["email_domain_type"; "has_website"].

(** A trained object with its scaler, and a model file that lacks the
    training columns. *)
Definition trained_instance : ClinicRiskModel.instance :=
  {| ClinicRiskModel.self_fields := low_model;
     ClinicRiskModel.self_scaler := {| transform := fun row => Ok row |} |}.

Definition columnless_file : ClinicRiskModel.model_file :=
  {| ClinicRiskModel.file_model := Some (constant_pipeline "HIGH" [1; 0; 0]);
     ClinicRiskModel.file_scaler := Some {| transform := fun row => Ok row |};
     ClinicRiskModel.file_label_encoders := Some ∅;
     ClinicRiskModel.file_feature_columns := None;
     ClinicRiskModel.file_model_version := Some "3.0";
     ClinicRiskModel.file_training_date := None |}.

(** The labels of a training set in which the three levels occur. *)
Definition training_labels : list string :=
  ["LOW"; "MEDIUM"; "HIGH"; "MEDIUM"; "LOW"; "HIGH"; "MEDIUM"].

(** A pipeline fitted on these labels that is sure of HIGH on every
    record, and one that gives HIGH 0.2, MEDIUM 0.5 and LOW 0.3. *)
Definition sure_of_high (row : list pyval) (c : string) : Q :=
  if String.eqb c "HIGH" then 1 else 0.

Definition leaning_medium (row : list pyval) (c : string) : Q :=
  if String.eqb c "HIGH" then 0.2
  else if String.eqb c "MEDIUM" then 0.5
  else 0.3.

Definition sure_of_high_model : ClinicRiskModel.t :=
  fitted (fitted_on training_labels sure_of_high) training_columns.

Definition leaning_medium_model : ClinicRiskModel.t :=
  fitted (fitted_on training_labels leaning_medium) training_columns.

(** A pipeline fitted on a training set without HIGH labels, which gives
    MEDIUM 0.8 and LOW 0.2. *)
Definition two_level_model : ClinicRiskModel.t :=
  fitted (fitted_on ["LOW"; "MEDIUM"; "LOW"]
            (fun _ c => if String.eqb c "MEDIUM" then 0.8 else 0.2))
         training_columns.

(** A request that carries none of the fields the engineer reads. *)
Definition foreign_record : gmap string pyval :=
  <["owner" := VStr "Dr. Cruz"]> (<["notes" := VStr "call back"]> ∅).

(** A licence number with one letter outside ASCII: seven characters,
    eight bytes. *)
Definition accented_licence_clinic : gmap string pyval :=
  <["clinic_name" := VStr "Clinica Norte"]>
  (<["email" := VStr "norte@clinic.org"]>
  (<["license_number" := VStr "ÑA12345"]> ∅)).

(** Cross-validation in which the first candidate scores 0.7 on every
    fold and the third 0.8, 0.7, 0.7, 0.7, 0.6: the means are equal as
    rationals, and the third is larger by one unit in the last place as
    computed. *)
Definition rounded_scores (name : ClinicRiskModel.candidate) : list Q :=
  match name with
  | ClinicRiskModel.RandomForest => [0.7; 0.7; 0.7; 0.7; 0.7]
  | ClinicRiskModel.GradientBoosting => [0.5; 0.5; 0.5; 0.5; 0.5]
  | ClinicRiskModel.LogisticRegression => [0.8; 0.7; 0.7; 0.7; 0.6]
  end.

(** A behaviour bundle that answers "human" on every row, and a
    snapshot whose page time is an integer beyond the doubles. *)
Definition trusting_bundle : BehaviorInference.model_data :=
  {| BehaviorInference.model :=
       Some {| predict := fun _ => Ok 1%Z;
               predict_proba := fun _ => Ok [0.1; 0.9] |};
     BehaviorInference.scaler := Some {| transform := fun row => Ok row |};
     BehaviorInference.version := Some "1.0.0" |}.

Definition overflowing_snapshot : gmap string pyval :=
  <["timeOnPageSeconds" := VNum (inject_Z (10 ^ 400))]>
  (<["mouseMoveRate" := VNum 0.9]> ∅).

(** A raw training frame: registration fields only. *)
Definition raw_frame : ClinicRiskModel.dataframe :=
  {| ClinicRiskModel.columns := ["clinic_name"; "years_in_business"];
     ClinicRiskModel.rows :=
       [ <["clinic_name" := VStr "A"]> ∅;
         <["clinic_name" := VStr "B"]> (<["years_in_business" := VNum 10]> ∅) ] |}.

End Scenarios.

(** * Properties *)

Section MockFacts.
Import MockInference.

Lemma Qltb_lt (x y : Q) : Qltb x y = true ↔ x < y.
Proof.
  unfold Qltb. rewrite negb_true_iff, <- not_true_iff_false, Qle_bool_iff.
  split; [apply Qnot_le_lt | apply Qlt_not_le].
Qed.

Lemma py_min_max_clamp (x : Q) :
  py_min 1 (py_max 0 x) == Qmin 1 (Qmax 0 x).
Proof.
  unfold py_min, py_max.
  destruct (Qltb 0 x) eqn:H0.
  - apply Qltb_lt in H0. rewrite (Q.max_r 0 x) by lra.
    destruct (Qltb x 1) eqn:H1.
    + apply Qltb_lt in H1. rewrite Q.min_r by lra. reflexivity.
    + apply not_true_iff_false in H1. rewrite Qltb_lt in H1.
      rewrite Q.min_l by lra. reflexivity.
  - apply not_true_iff_false in H0. rewrite Qltb_lt in H0.
    rewrite (Q.max_l 0 x) by lra.
    replace (Qltb 0 1) with true by reflexivity.
    rewrite Q.min_r by lra. reflexivity.
Qed.

End MockFacts.

Section MockScore.
Import PrimFloat MockInference MockInference.Binary64.


Lemma num_lt_below (v : pyval) (c : float) (ty : string) :
  measurement v → num_lt v c ty = Ok (below v c).
Proof. by destruct v. Qed.

Lemma num_gt_above (v : pyval) (c : float) (ty : string) :
  measurement v → num_gt v c ty = Ok (above v c).
Proof. by destruct v. Qed.

Lemma py_and_Ok (a b : bool) : py_and (Ok a) (Ok b) = Ok (a && b).
Proof. by destruct a. Qed.

(** On measured telemetry the classifier returns, and its verdict is
    the one the rules that fired determine: the score accumulated in
    doubles decides [isHuman], the scaled confidence gives the
    confidence and the probability of the predicted class, and the
    other class gets 0.1. *)
Lemma predict_human_mock_by_rules (snapshot : gmap string pyval) :
  measured snapshot →
  ∃ v, Binary64.predict_human_mock snapshot = Ok v
       ∧ isHuman v = (accumulated_score (fired snapshot) <? 0.6)%float
       ∧ confidence v =
         Float64.value
           (Float64.min 1 (Float64.max 0 (scaled_confidence (fired snapshot))))
       ∧ prob_human v =
         Float64.value
           (if isHuman v then 1 - scaled_confidence (fired snapshot)
            else 0.1)%float
       ∧ prob_bot v =
         Float64.value
           (if isHuman v then 0.1
            else scaled_confidence (fired snapshot))%float.
Proof.
  intros (Ht & Hm & Hk & Hi & Hs). unfold measured_at in *.
  unfold Binary64.predict_human_mock, fired, scaled_confidence,
    accumulated_score.
  cbv zeta.
  rewrite !num_lt_below, !num_gt_above by assumption.
  rewrite !py_and_Ok. cbn [mbind res_bind].
  cbn [short_visit minimal_interaction high_idle low_interaction
       reasonable_time active_interaction low_idle].
  generalize (below (get snapshot "timeOnPageSeconds" (VNum 0)) 5),
    (below (get snapshot "mouseMoveRate" (VNum 0)) 0.1
     && below (get snapshot "keyPressRate" (VNum 0)) 0.1),
    (above (get snapshot "idleRatio" (VNum 0)) 0.7),
    (below (get snapshot "interactionScore" (VNum 0)) 0.1),
    (above (get snapshot "timeOnPageSeconds" (VNum 0)) 30
     && below (get snapshot "timeOnPageSeconds" (VNum 0)) 300),
    (above (get snapshot "mouseMoveRate" (VNum 0)) 0.5
     && above (get snapshot "keyPressRate" (VNum 0)) 0.1),
    (below (get snapshot "idleRatio" (VNum 0)) 0.5).
  intros [] [] [] [] [] [] [];
    (eexists; split; [reflexivity|]);
    cbn [isHuman confidence prob_human prob_bot];
    (split; [reflexivity|]); (split; [reflexivity|]);
    match goal with
    | |- context [(?a <? ?b)%float] => destruct (a <? b)%float
    end; split; reflexivity.
Qed.


(** The two probabilities never add up to 1, neither as numbers nor as
    doubles. *)
Lemma probabilities_by_rules (r : rules) :
  let human := (accumulated_score r <? 0.6)%float in
  let p_human := (if human then 1 - scaled_confidence r else 0.1)%float in
  let p_bot := (if human then 0.1 else scaled_confidence r)%float in
  ¬ (Float64.value p_human + Float64.value p_bot == 1)
  ∧ (p_human + p_bot =? 1)%float = false.
Proof.
  destruct r as [[] [] [] [] [] [] []]; cbv zeta;
    (split; [vm_compute; discriminate | vm_compute; reflexivity]).
Qed.



(** The comparisons are strict and between doubles: telemetry that
    sits on the thresholds 5, 0.1 and 0.7 fires no rule, whether it is
    written as the decimal or as the exact value of its double, and NaN
    fires none either. *)
Lemma telemetry_on_the_thresholds_fires_no_rule :
  fired threshold_snapshot
  = {| short_visit := false; minimal_interaction := false;
       high_idle := false; low_interaction := false;
       reasonable_time := false; active_interaction := false;
       low_idle := false |}
  ∧ fired (<["mouseMoveRate" := VNum (Float64.value 0.1)]>
           (<["idleRatio" := VNum (Float64.value 0.7)]> threshold_snapshot))
    = fired threshold_snapshot
  ∧ fired (<["timeOnPageSeconds" := VNaN]>
           (<["interactionScore" := VNaN]> threshold_snapshot))
    = fired threshold_snapshot.
Proof. repeat split; vm_compute; reflexivity. Qed.

(** A page time that is not a number makes the classifier raise; the
    command-line wrapper then answers with the error verdict. *)
Lemma ill_typed_page_time_raises (snapshot : gmap string pyval) :
  ¬ measurement (get snapshot "timeOnPageSeconds" (VNum 0)) →
  ∃ e, Binary64.predict_human_mock snapshot = Raise e.
Proof.
  unfold Binary64.predict_human_mock. cbv zeta.
  destruct (get snapshot "timeOnPageSeconds" (VNum 0)); cbn;
    intros H;
    first [exfalso; apply H; exact I | eexists; reflexivity].
Qed.


(** C10. The heuristic classifier gives the class it did not predict
    the probability 0.1, and the class it predicted a probability
    derived from the scaled confidence |score - 0.5| * 2: one minus it
    for a human verdict, the scaled confidence itself (which may exceed
    1) for a bot verdict.  On every snapshot with measured telemetry the
    two probabilities fail to add up to 1; for the snapshot of a visit
    of two seconds without interaction they are 0.1 and 1.6. *)
Theorem heuristic_probabilities_not_a_distribution :
  (∀ snapshot,
      measured snapshot →
      ∃ v, Binary64.predict_human_mock snapshot = Ok v
           ∧ (if isHuman v then prob_bot v else prob_human v)
             = Float64.value 0.1
           ∧ (if isHuman v then prob_human v else prob_bot v)
             = Float64.value
                 (if isHuman v then 1 - scaled_confidence (fired snapshot)
                  else scaled_confidence (fired snapshot))%float
           ∧ confidence v =
             Float64.value
               (Float64.min 1
                  (Float64.max 0 (scaled_confidence (fired snapshot))))
           ∧ ¬ (prob_human v + prob_bot v == 1))
  ∧ (∃ v, Binary64.predict_human_mock bot_snapshot = Ok v
          ∧ isHuman v = false
          ∧ prob_human v = Float64.value 0.1
          ∧ prob_bot v = Float64.value 1.6
          ∧ 1.7 <= prob_human v + prob_bot v).
Proof.
  split.
  - intros snapshot H.
    destruct (predict_human_mock_by_rules snapshot H)
      as (v & Hv & Hhuman & Hconf & Hph & Hpb).
    destruct (probabilities_by_rules (fired snapshot)) as [Hsum _].
    exists v. split; [done|].
    rewrite Hph, Hpb, Hconf. rewrite Hhuman.
    destruct (accumulated_score (fired snapshot) <? 0.6)%float;
      by repeat split.
  - eexists. split; [vm_compute; reflexivity|].
    split; [reflexivity|]. split; [vm_compute; reflexivity|].
    split; [vm_compute; reflexivity|]. vm_compute. discriminate.
Qed.

End MockScore.

(** ** The risk model *)

Section RiskFacts.
Import Pandas Sklearn ClinicRiskModel.

Lemma Qle_bool_false (x y : Q) : Qle_bool x y = false ↔ y < x.
Proof.
  rewrite <- not_true_iff_false, Qle_bool_iff.
  split; [apply Qnot_le_lt | apply Qlt_not_le].
Qed.

(** [_recommend_account_status] is the decision table read on the
    [has_license] entry of the row it is given. *)
Lemma recommend_account_status_table (risk_score : Q) (risk_level : string)
      (clinic_data : gmap string pyval) :
  _recommend_account_status risk_score risk_level clinic_data =
  Spec.decision_table risk_level
    (truthy (get clinic_data "has_license" (VNum 0))).
Proof. reflexivity. Qed.

(** The decision table, case by case, for every row and every level. *)
Theorem account_status_decision_table (risk_score : Q)
        (clinic_data : gmap string pyval) :
  _recommend_account_status risk_score "HIGH" clinic_data = "RESTRICTED"
  ∧ (truthy (get clinic_data "has_license" (VNum 0)) = true →
     _recommend_account_status risk_score "LOW" clinic_data = "ACTIVE_LIMITED")
  ∧ (truthy (get clinic_data "has_license" (VNum 0)) = false →
     _recommend_account_status risk_score "LOW" clinic_data
     = "VERIFICATION_REQUIRED")
  ∧ (∀ risk_level,
        risk_level ≠ "HIGH" → risk_level ≠ "LOW" →
        _recommend_account_status risk_score risk_level clinic_data
        = "VERIFICATION_REQUIRED").
Proof.
  unfold _recommend_account_status. repeat split.
  - intros ->. reflexivity.
  - intros ->. reflexivity.
  - intros lvl Hh Hl.
    destruct (String.eqb_spec lvl "HIGH") as [?|_]; [done|].
    destruct (String.eqb_spec lvl "LOW") as [?|_]; [done|]. reflexivity.
Qed.

(** What a successful [predict_risk] went through. *)
Lemma predict_risk_Some (E : environment) (self : t) (clinic_data : json)
      (res : risk_assessment) :
  snd (predict_risk E self clinic_data) = Some res →
  ∃ pipeline d df X Xe lvl p c,
    model self = Some pipeline
    ∧ clinic_data = JObject d
    ∧ engineer_features E d = Ok (df, X)
    ∧ X ≠ []
    ∧ snd (_encode_categorical_features (label_encoders self)
                                        (align (feature_columns self) X)) = Ok Xe
    ∧ predict pipeline (map snd Xe) = Ok lvl
    ∧ predict_proba pipeline (map snd Xe) = Ok p
    ∧ np_max p = Ok c
    ∧ res = {| risk_score := weighted_score p;
               risk_level := lvl;
               account_status := _recommend_account_status (weighted_score p) lvl df;
               risk_flags := _generate_risk_flags df;
               confidence := c;
               result_model_version := model_version self;
               prediction_timestamp := now_isoformat E |}.
Proof.
  unfold predict_risk.
  destruct (model self) as [pipeline|] eqn:Hm; [|discriminate].
  unfold predict_risk_try.
  destruct clinic_data as [d|v]; [|discriminate].
  unfold predict_risk_frame.
  destruct (engineer_features E d) as [[df X]|e] eqn:He; [|discriminate].
  destruct X as [|x X']; [discriminate|].
  destruct (_encode_categorical_features _ _) as [enc [Xe|e]] eqn:Hx;
    cbn [mbind res_bind snd]; [|discriminate].
  destruct (predict pipeline _) as [lvl|e] eqn:Hl; cbn; [|discriminate].
  destruct (predict_proba pipeline _) as [p|e] eqn:Hp; cbn; [|discriminate].
  destruct (np_max p) as [c|e] eqn:Hc; cbn; [|discriminate].
  intros [= <-].
  exists pipeline, d, df, (x :: X'), Xe, lvl, p, c. cbn.
  repeat split; try done. by rewrite Hx.
Qed.

(** A record that gives rise to no feature gets no assessment. *)
Lemma predict_risk_without_features (E : environment) (self : t)
      (d df : gmap string pyval) :
  engineer_features E d = Ok (df, []) →
  predict_risk E self (JObject d) = (self, None).
Proof.
  intros He. unfold predict_risk.
  destruct (model self) as [pipeline|]; [|done].
  unfold predict_risk_try, predict_risk_frame. by rewrite He.
Qed.

Lemma mapM_res_ok {A B : Type} (f : A → res B) (P : A → Prop)
      (R : A → B → Prop) (l : list A) :
  (∀ x, P x → ∃ y, f x = Ok y ∧ R x y) →
  Forall P l →
  ∃ ys, mapM f l = Ok ys ∧ Forall2 R l ys.
Proof.
  intros Hf. induction 1 as [|x l Hx Hl IH].
  - exists []. split; [reflexivity | constructor].
  - destruct (Hf x Hx) as (y & Hy & HR). destruct IH as (ys & Hys & HRs).
    exists (y :: ys). split; [|by constructor].
    cbn. rewrite Hy. cbn. rewrite Hys. reflexivity.
Qed.

Lemma risk_level_of_score_law (q : Q) :
  ∃ lvl, risk_level_of_score (VNum q) = Ok lvl ∧ Spec.threshold_law q lvl.
Proof.
  unfold risk_level_of_score, py_le, Spec.threshold_law. cbn.
  destruct (Qle_bool q 0.3) eqn:H3.
  - apply Qle_bool_iff in H3. eexists. split; [reflexivity|].
    repeat split; intros; try reflexivity; lra.
  - apply Qle_bool_false in H3.
    destruct (Qle_bool q 0.7) eqn:H7.
    + apply Qle_bool_iff in H7. eexists. split; [reflexivity|].
      repeat split; intros; try reflexivity; lra.
    + apply Qle_bool_false in H7. eexists. split; [reflexivity|].
      repeat split; intros; try reflexivity; lra.
Qed.

Lemma Forall2_compose {A B C : Type} (R : A → B → Prop) (S : B → C → Prop)
      (T : C → B → Prop) (l : list A) (m : list B) (n : list C) :
  (∀ a b c, R a b → S b c → T c b) →
  Forall2 R l m → Forall2 S m n → Forall2 T n m.
Proof.
  intros H HR. revert n. induction HR as [|a b l m Hab _ IH]; intros n HS.
  - inversion HS. constructor.
  - inversion HS as [|? c ? n' Hbc HS']; subst. constructor; eauto.
Qed.

Lemma prepare_labels_law (df : dataframe) :
  labelable df →
  ∃ risk_levels risk_scores,
    prepare_labels df = Ok (risk_levels, risk_scores)
    ∧ length risk_levels = length (rows df)
    ∧ Forall2 (fun level score =>
                 ∃ q, score = VNum q ∧ Spec.threshold_law q level)
              risk_levels risk_scores.
Proof.
  unfold labelable, prepare_labels. intros Hdf.
  set (numeric := fun (_ : gmap string pyval) (v : pyval) => ∃ q, v = VNum q).
  assert (Hscores : ∃ scores,
             (if bool_decide ("risk_score" ∈ columns df)
              then Ok (map (fun row => fillna (col row "risk_score") (VNum 0.5))
                           (rows df))
              else _create_synthetic_risk_scores df) = Ok scores
             ∧ Forall2 numeric (rows df) scores).
  { destruct (bool_decide ("risk_score" ∈ columns df)).
    - eexists. split; [reflexivity|].
      induction Hdf as [|row l Hrow _ IH]; cbn; constructor; [|exact IH].
      unfold labelable_row in Hrow. unfold numeric, fillna.
      destruct (col row "risk_score"); cbn; try destruct Hrow; eauto.
    - unfold _create_synthetic_risk_scores.
      eapply mapM_res_ok; [|exact Hdf].
      intros row Hrow. unfold labelable_row in Hrow. unfold numeric.
      destruct (get row "years_in_business" (VNum 0)); try destruct Hrow;
        cbn; eexists; (split; [reflexivity | eauto]). }
  destruct Hscores as (scores & -> & Hnum). cbn.
  destruct (mapM_res_ok risk_level_of_score (fun v => ∃ q, v = VNum q)
              (fun v lvl => ∀ q, v = VNum q → Spec.threshold_law q lvl) scores)
    as (levels & -> & Hlaw).
  { intros v [q ->]. destruct (risk_level_of_score_law q) as (lvl & ? & ?).
    exists lvl. split; [done|]. by intros ? [= <-]. }
  { clear -Hnum. induction Hnum; constructor; auto. }
  cbn. exists levels, scores. split; [reflexivity|]. split.
  - rewrite <- (Forall2_length _ _ _ Hlaw). symmetry.
    exact (Forall2_length _ _ _ Hnum).
  - eapply Forall2_compose; [|exact Hnum|exact Hlaw].
    cbn. intros row v lvl [q ->] Hl. exists q. split; [done|auto].
Qed.

(** The labels [prepare_labels] hands to the training are the three
    level names. *)
Lemma threshold_law_levels (q : Q) (level : string) :
  Spec.threshold_law q level → level ∈ ["LOW"; "MEDIUM"; "HIGH"].
Proof.
  intros (Hlow & Hmedium & Hhigh).
  destruct (Qlt_le_dec 0.3 q) as [H3|H3].
  - destruct (Qlt_le_dec 0.7 q) as [H7|H7].
    + rewrite (Hhigh H7). do 2 (apply elem_of_cons; right).
      apply elem_of_cons. by left.
    + rewrite (Hmedium (conj H3 H7)). apply elem_of_cons; right.
      apply elem_of_cons. by left.
  - rewrite (Hlow H3). apply elem_of_cons. by left.
Qed.

(** C2, as amended. Where the engine converts scores into levels, in
    [prepare_labels], every label obeys the thresholds: at most 0.3 is
    LOW, above 0.3 and at most 0.7 is MEDIUM, above 0.7 is HIGH.  The
    level reported in an assessment is the class the pipeline predicts
    for the record, that is for the row of its engineered features,
    aligned with the training columns and encoded; the reported score is
    the weighted score of the probabilities the pipeline returns for the
    same row.  Neither is computed from the other. *)
Theorem levels_from_scores_obey_the_thresholds :
  (∀ df,
      labelable df →
      ∃ risk_levels risk_scores,
        prepare_labels df = Ok (risk_levels, risk_scores)
        ∧ length risk_levels = length (rows df)
        ∧ Forall2 (fun level score =>
                     ∃ q, score = VNum q ∧ Spec.threshold_law q level)
                  risk_levels risk_scores)
  ∧ (∀ E self clinic_data res,
        snd (predict_risk E self clinic_data) = Some res →
        ∃ pipeline d df X Xe p,
          model self = Some pipeline
          ∧ clinic_data = JObject d
          ∧ engineer_features E d = Ok (df, X)
          ∧ snd (_encode_categorical_features
                   (label_encoders self) (align (feature_columns self) X))
            = Ok Xe
          ∧ predict pipeline (map snd Xe) = Ok (risk_level res)
          ∧ predict_proba pipeline (map snd Xe) = Ok p
          ∧ risk_score res = weighted_score p).
Proof.
  split; [exact prepare_labels_law|].
  intros E self clinic_data res H. apply predict_risk_Some in H.
  destruct H as (pipeline & d & df & X & Xe & lvl & p & c
                 & Hm & Hd & He & _ & Hx & Hl & Hp & _ & ->).
  by exists pipeline, d, df, X, Xe, p.
Qed.

End RiskFacts.

Section ScoreFacts.
Import Pandas Sklearn ClinicRiskModel.

Lemma levels_from_scores_obey_the_thresholds_witness :
  (labelable Scenarios.scored_frame
   ∧ ∃ risk_levels risk_scores,
       prepare_labels Scenarios.scored_frame = Ok (risk_levels, risk_scores)
       ∧ length risk_levels = length (rows Scenarios.scored_frame)
       ∧ Forall2 (fun level score =>
                    ∃ q, score = VNum q ∧ Spec.threshold_law q level)
                 risk_levels risk_scores)
  ∧ ∃ res,
      snd (predict_risk Scenarios.env Scenarios.sure_of_high_model
                        (JObject Scenarios.unlicensed_clinic)) = Some res
      ∧ ∃ pipeline d df X Xe p,
          model Scenarios.sure_of_high_model = Some pipeline
          ∧ JObject Scenarios.unlicensed_clinic = JObject d
          ∧ engineer_features Scenarios.env d = Ok (df, X)
          ∧ snd (_encode_categorical_features
                   (label_encoders Scenarios.sure_of_high_model)
                   (align (feature_columns Scenarios.sure_of_high_model) X))
            = Ok Xe
          ∧ predict pipeline (map snd Xe) = Ok (risk_level res)
          ∧ predict_proba pipeline (map snd Xe) = Ok p
          ∧ risk_score res = weighted_score p.
Proof.
  assert (H : labelable Scenarios.scored_frame)
    by (unfold labelable; cbn; repeat constructor).
  split.
  - split; [exact H|].
    exact (proj1 levels_from_scores_obey_the_thresholds _ H).
  - eexists. split; [vm_compute; reflexivity|].
    apply (proj2 levels_from_scores_obey_the_thresholds Scenarios.env
             Scenarios.sure_of_high_model (JObject Scenarios.unlicensed_clinic)).
    vm_compute. reflexivity.
Defined.

(** C2, counterexample. The level reported by [predict_risk] is the
    class the pipeline predicts, not a function of the reported score: a
    pipeline fitted on the three levels and sure of HIGH yields level
    HIGH with score 0, which the thresholds place in the LOW band. *)
Lemma threshold_law_fails_for_predicted_level :
  ∃ res,
    snd (predict_risk Scenarios.env Scenarios.sure_of_high_model
                      (JObject Scenarios.solo_clinic)) = Some res
    ∧ risk_level res = "HIGH"
    ∧ risk_score res == 0
    ∧ ¬ Spec.threshold_law (risk_score res) (risk_level res).
Proof.
  eexists. split; [vm_compute; reflexivity|].
  split; [reflexivity|]. split; [reflexivity|].
  intros (Hlow & _ & _). cbn in Hlow.
  assert (H : "HIGH" = "LOW"); [|discriminate H].
  apply Hlow. discriminate.
Qed.

Lemma sum_nonneg (p : list Q) :
  Forall (fun x => 0 <= x) p → 0 <= fold_right Qplus 0 p.
Proof.
  induction 1 as [|x p Hx _ IH]; cbn; [apply Qle_refl | lra].
Qed.

(** Whatever distribution the pipeline returns, the weighted score
    stays at or below 0.7, so no assessment of level HIGH can lie in the
    HIGH band. *)
Lemma weighted_score_at_most_07 (p : list Q) :
  Forall (fun x => 0 <= x) p →
  fold_right Qplus 0 p == 1 →
  weighted_score p <= 0.7.
Proof.
  intros Hp Hsum. unfold weighted_score.
  destruct p as [|a [|b [|c rest]]]; cbn in *; try lra.
  - inversion Hp as [|? ? Ha Hp']; subst. inversion Hp' as [|? ? Hb _]; subst.
    lra.
  - inversion Hp as [|? ? Ha Hp']; subst.
    inversion Hp' as [|? ? Hb Hp'']; subst.
    inversion Hp'' as [|? ? Hc Hrest]; subst.
    pose proof (sum_nonneg _ Hrest). lra.
Qed.

Lemma weighted_score_at_most_07_witness :
  weighted_score [0.1; 0.3; 0.6] <= 0.7.
Proof.
  apply weighted_score_at_most_07.
  - repeat constructor; discriminate.
  - reflexivity.
Defined.

Lemma bool_decide_elem_of_cons (c l : string) (y : list string) :
  bool_decide (c ∈ l :: y) = bool_decide (c = l) || bool_decide (c ∈ y).
Proof.
  rewrite <- bool_decide_or. apply bool_decide_ext. apply elem_of_cons.
Qed.

(** On labels drawn from the three level names, [np.unique] keeps the
    names that occur, in the order HIGH, LOW, MEDIUM. *)
Lemma np_unique_levels (y : list string) :
  (∀ l, l ∈ y → l ∈ ["LOW"; "MEDIUM"; "HIGH"]) →
  np_unique y =
  List.filter (fun c => bool_decide (c ∈ y)) ["HIGH"; "LOW"; "MEDIUM"].
Proof.
  induction y as [|l y IH]; intros Hy; [reflexivity|].
  unfold np_unique in *. cbn [fold_right]. rewrite IH.
  2:{ intros l' H. apply Hy. apply elem_of_cons. by right. }
  assert (Hl : l ∈ ["LOW"; "MEDIUM"; "HIGH"])
    by (apply Hy; apply elem_of_cons; by left).
  cbn [List.filter]. rewrite !bool_decide_elem_of_cons.
  repeat (apply elem_of_cons in Hl as [->|Hl]);
    [..|by apply elem_of_nil in Hl];
    destruct (bool_decide ("HIGH" ∈ y)), (bool_decide ("LOW" ∈ y)),
      (bool_decide ("MEDIUM" ∈ y)); vm_compute; reflexivity.
Qed.

Lemma np_unique_three_levels (y : list string) :
  (∀ l, l ∈ y → l ∈ ["LOW"; "MEDIUM"; "HIGH"]) →
  "LOW" ∈ y → "MEDIUM" ∈ y → "HIGH" ∈ y →
  np_unique y = ["HIGH"; "LOW"; "MEDIUM"].
Proof.
  intros Hy Hl Hm Hh. rewrite np_unique_levels by done.
  cbn [List.filter]. by rewrite !bool_decide_eq_true_2.
Qed.

(** C3, at the failing input. The pipeline is fitted on the level
    names as strings, so its classes, and the columns of the probability
    vector, are in increasing order of the names: HIGH, LOW, MEDIUM.
    [predict_risk] weights the third column by 0.7 and the second by
    0.3, so the score of every assessment is 0.7 P(MEDIUM) + 0.3 P(LOW),
    not 0.7 P(HIGH) + 0.3 P(MEDIUM): a record the pipeline is sure to be
    HIGH is scored 0, and one with P(HIGH) = 0.2, P(MEDIUM) = 0.5 and
    P(LOW) = 0.3 is scored 0.44 and not 0.29.  With two classes the
    score is 0.3 times the second probability, not the probability of
    the predicted class. *)
Theorem risk_score_weights_the_wrong_classes :
  (∀ y,
      (∀ l, l ∈ y → l ∈ ["LOW"; "MEDIUM"; "HIGH"]) →
      "LOW" ∈ y → "MEDIUM" ∈ y → "HIGH" ∈ y →
      np_unique y = ["HIGH"; "LOW"; "MEDIUM"])
  ∧ (∀ E self y proba clinic_data res,
        (∀ l, l ∈ y → l ∈ ["LOW"; "MEDIUM"; "HIGH"]) →
        "LOW" ∈ y → "MEDIUM" ∈ y → "HIGH" ∈ y →
        model self = Some (fitted_on y proba) →
        snd (predict_risk E self clinic_data) = Some res →
        ∃ d df X Xe,
          clinic_data = JObject d
          ∧ engineer_features E d = Ok (df, X)
          ∧ snd (_encode_categorical_features
                   (label_encoders self) (align (feature_columns self) X))
            = Ok Xe
          ∧ risk_score res ==
            0.7 * proba (map snd Xe) "MEDIUM" + 0.3 * proba (map snd Xe) "LOW")
  ∧ (∃ res,
        snd (predict_risk Scenarios.env Scenarios.sure_of_high_model
                          (JObject Scenarios.solo_clinic)) = Some res
        ∧ risk_level res = "HIGH"
        ∧ confidence res == 1
        ∧ risk_score res == 0)
  ∧ (∃ res,
        snd (predict_risk Scenarios.env Scenarios.leaning_medium_model
                          (JObject Scenarios.solo_clinic)) = Some res
        ∧ risk_level res = "MEDIUM"
        ∧ risk_score res == 0.44
        ∧ ¬ (risk_score res == 0.7 * 0.2 + 0.3 * 0.5))
  ∧ (∃ res,
        snd (predict_risk Scenarios.env Scenarios.two_level_model
                          (JObject Scenarios.solo_clinic)) = Some res
        ∧ risk_level res = "MEDIUM"
        ∧ confidence res == 0.8
        ∧ risk_score res == 0.24
        ∧ ¬ (risk_score res == confidence res)).
Proof.
  split; [exact np_unique_three_levels|]. split.
  - intros E self y proba clinic_data res Hy Hl Hm Hh Hmodel H.
    apply predict_risk_Some in H
      as (pipeline & d & df & X & Xe & lvl & p & c & Hm' & -> & He & _ & Hx
          & _ & Hp & _ & ->).
    rewrite Hmodel in Hm'. injection Hm' as <-.
    cbn [predict_proba fitted_on] in Hp.
    rewrite np_unique_three_levels in Hp by done.
    injection Hp as <-.
    exists d, df, X, Xe. do 3 (split; [done|]).
    unfold weighted_score. cbn. ring.
  - split; [|split].
    + eexists. split; [vm_compute; reflexivity|]. by repeat split.
    + eexists. split; [vm_compute; reflexivity|].
      split; [reflexivity|]. split; [reflexivity|]. discriminate.
    + eexists. split; [vm_compute; reflexivity|].
      split; [reflexivity|]. split; [reflexivity|]. split; [reflexivity|].
      discriminate.
Qed.

End ScoreFacts.

Section FeatureColumns.
Import Pandas Sklearn ClinicRiskModel.

Lemma when_columns (cond : bool) (features new_features : features_t)
      (body : res features_t) (names : list string) :
  (∀ cols, body = Ok cols → column_names cols = names) →
  when_ cond features body = Ok new_features →
  column_names new_features = (column_names features ++ group cond names)%list.
Proof.
  intros Hbody. unfold when_, group, column_names.
  destruct cond.
  - destruct body as [cols|e]; cbn; [|discriminate].
    intros [= <-]. rewrite map_app. f_equal. by apply Hbody.
  - intros [= <-]. by rewrite app_nil_r.
Qed.

Lemma has_col_ext (df df' : gmap string pyval) (c : string) :
  df' !! c = df !! c → has_col df' c = has_col df c.
Proof. intros H. unfold has_col. by rewrite H. Qed.

Ltac not_listed :=
  let Hin := fresh "Hin" in
  intros Hin;
  repeat (apply elem_of_cons in Hin; destruct Hin as [Hin|Hin];
          [discriminate Hin|]);
  by apply elem_of_nil in Hin.

(** Take the next statement of a monadic block: it returned, or the
    block raised. *)
Ltac next_statement H f Hf :=
  match type of H with
  | mbind _ ?e = Ok _ =>
      destruct e as [f|] eqn:Hf; cbn [mbind res_bind] in H;
      [|discriminate H]
  end.

(** The columns a guarded block assigns are those of its last line. *)
Ltac block_columns :=
  let cols := fresh "cols" in
  let Hb := fresh "Hb" in
  intros cols Hb;
  repeat match type of Hb with
         | mbind _ ?e = Ok _ =>
             destruct e; cbn [mbind res_bind] in Hb; [|discriminate Hb]
         | (if ?c then _ else _) = Ok _ => destruct c
         end;
  injection Hb as <-; cbn [column_names map fst]; reflexivity.

Ltac guarded_block H :=
  let f := fresh "features" in
  let Hf := fresh "Hf" in
  next_statement H f Hf;
  eapply when_columns in Hf; [|block_columns].

Lemma submission_features_columns (E : environment)
      (df df' : gmap string pyval) (features features' : features_t) :
  submission_features E df features = Ok (df', features') →
  column_names features' =
    (column_names features ++
     group (has_col df "submission_timestamp")
       ["submission_hour"; "submission_day_of_week";
        "is_weekend_submission"; "is_business_hours"; "is_late_night"])%list
  ∧ ∀ c, c ∉ ["submission_timestamp"; "submission_hour";
              "submission_day_of_week"; "is_weekend_submission";
              "is_business_hours"; "is_late_night"] →
         df' !! c = df !! c.
Proof.
  unfold submission_features.
  destruct (has_col df "submission_timestamp").
  - destruct (to_datetime E _) as [t|]; cbn [mbind res_bind]; [|discriminate].
    intros [= <- <-]. split.
    + unfold column_names. rewrite map_app. reflexivity.
    + intros c Hc. rewrite !lookup_insert_ne; [done|..];
        intros <-; apply Hc; repeat constructor.
  - intros [= <- <-]. split; [|done].
    cbn. by rewrite app_nil_r.
Qed.

Lemma location_features_columns (df : gmap string pyval)
      (features features' : features_t) :
  foldlM (location_features df) features location_cols = Ok features' →
  column_names features' =
    (column_names features
     ++ group (has_col df "address") ["has_address"; "address_length"]
     ++ group (has_col df "city") ["has_city"; "city_length"]
     ++ group (has_col df "state") ["has_state"; "state_length"]
     ++ group (has_col df "zip_code") ["has_zip_code"; "zip_code_length"])%list.
Proof.
  unfold location_cols, location_features. cbn [foldlM]. intros H.
  guarded_block H. guarded_block H. guarded_block H. guarded_block H.
  injection H as <-.
  rewrite Hf2, Hf1, Hf0, Hf. rewrite <- !app_assoc. reflexivity.
Qed.

Lemma service_features_columns (E : environment) (df : gmap string pyval)
      (features features' : features_t) :
  foldlM (service_features E df) features service_cols = Ok features' →
  column_names features' =
    (column_names features
     ++ group (has_col df "specialties") ["specialties_count"]
     ++ group (has_col df "custom_specialties") ["custom_specialties_count"]
     ++ group (has_col df "services") ["services_count"]
     ++ group (has_col df "custom_services") ["custom_services_count"])%list.
Proof.
  unfold service_cols, service_features. cbn [foldlM]. intros H.
  guarded_block H. guarded_block H. guarded_block H. guarded_block H.
  injection H as <-.
  rewrite Hf2, Hf1, Hf0, Hf. rewrite <- !app_assoc. reflexivity.
Qed.

Lemma maturity_features_columns (E : environment)
      (df df' : gmap string pyval) (features features' : features_t) :
  maturity_features E df features = Ok (df', features') →
  column_names features' =
    (column_names features ++
     group (has_col df "year_established")
       ["years_in_business"; "is_new_business"; "is_established"])%list
  ∧ ∀ c, c ≠ "years_in_business" → df' !! c = df !! c.
Proof.
  unfold maturity_features.
  destruct (has_col df "year_established").
  - destruct (rsub _ _) as [y|]; cbn [mbind res_bind]; [|discriminate].
    destruct (series_lt _ _) as [new|]; cbn [mbind res_bind]; [|discriminate].
    destruct (series_ge _ _) as [est|]; cbn [mbind res_bind]; [|discriminate].
    intros [= <- <-]. split.
    + unfold column_names. rewrite map_app. reflexivity.
    + intros c Hc. by rewrite lookup_insert_ne.
  - intros [= <- <-]. split; [|done].
    cbn. by rewrite app_nil_r.
Qed.

Lemma staff_columns (staff doctors : bool) :
  group staff (["number_of_staff"] ++ group doctors ["doctor_to_staff_ratio"])
  = (group staff ["number_of_staff"]
     ++ group (staff && doctors) ["doctor_to_staff_ratio"])%list.
Proof. by destruct staff, doctors. Qed.

Lemma engineer_features_columns (E : environment)
      (clinic_data df : gmap string pyval) (X : features_t) :
  engineer_features E clinic_data = Ok (df, X) →
  column_names X = engineered_columns clinic_data
  ∧ ∀ c, c ∉ derived_columns → df !! c = clinic_data !! c.
Proof.
  unfold engineer_features. intros H.
  destruct (submission_features E clinic_data []) as [[df1 f1]|] eqn:H1;
    cbn [mbind res_bind] in H; [|discriminate H].
  apply submission_features_columns in H1 as [H1 Hdf1].
  do 7 guarded_block H.
  destruct (foldlM (location_features df1) _ _) as [f2|] eqn:H2;
    cbn [mbind res_bind] in H; [|discriminate H].
  apply location_features_columns in H2.
  do 2 guarded_block H.
  destruct (maturity_features E df1 _) as [[df2 f3]|] eqn:H3;
    cbn [mbind res_bind] in H; [|discriminate H].
  apply maturity_features_columns in H3 as [H3 Hdf2].
  guarded_block H.
  destruct (when_ (has_col df2 "number_of_staff") _ _) as [f4|] eqn:H4;
    cbn [mbind res_bind] in H; [|discriminate H].
  eapply (when_columns _ _ _ _
            (["number_of_staff"]
             ++ group (has_col df2 "number_of_doctors")
                      ["doctor_to_staff_ratio"])) in H4.
  2:{ intros cols. destruct (has_col df2 "number_of_doctors").
      - destruct (div _ _); cbn [mbind res_bind]; [|discriminate].
        by intros [= <-].
      - by intros [= <-]. }
  rewrite staff_columns in H4.
  destruct (foldlM (service_features E df2) _ _) as [f5|] eqn:H5;
    cbn [mbind res_bind] in H; [|discriminate H].
  apply service_features_columns in H5.
  do 6 guarded_block H.
  injection H as <- <-. split.
  - repeat match goal with
           | Hc : column_names ?f = _ |- context [column_names ?f] => rewrite Hc
           end.
    cbn [forallb location_cols].
    rewrite !(has_col_ext df1 df2) by (by apply Hdf2).
    rewrite !(has_col_ext clinic_data df1) by (apply Hdf1; not_listed).
    unfold engineered_columns.
    cbn [concat column_names map forallb location_cols].
    rewrite <- !app_assoc. rewrite app_nil_r. reflexivity.
  - intros c Hc. rewrite Hdf2, Hdf1; [done|..].
    + intros Hin. apply Hc. unfold derived_columns.
      apply elem_of_app with (l1 := [_; _; _; _; _; _]). by left.
    + intros ->. apply Hc. unfold derived_columns.
      apply elem_of_app with (l1 := [_; _; _; _; _; _]). right. constructor.
Qed.

Lemma column_names_align (cols : list string) (X : features_t) :
  column_names (align cols X) = cols.
Proof.
  unfold column_names, align. rewrite map_map. cbn. apply map_id.
Qed.

Lemma cell_None (X : features_t) (c : string) :
  c ∉ column_names X → cell X c = None.
Proof.
  induction X as [|[k v] X IH]; cbn; [done|].
  intros Hc. destruct (String.eqb_spec k c) as [->|Hne].
  - exfalso. apply Hc. apply elem_of_cons. by left.
  - apply IH. intros Hin. apply Hc. apply elem_of_cons. by right.
Qed.

Lemma cell_align (cols : list string) (X : features_t) (c : string) :
  c ∈ cols → cell (align cols X) c = Some (default (VNum 0) (cell X c)).
Proof.
  unfold align. induction cols as [|k cols IH]; cbn.
  - intros H. by apply elem_of_nil in H.
  - intros H. destruct (String.eqb_spec k c) as [->|Hne]; [done|].
    apply IH. apply elem_of_cons in H as [->|H]; [by destruct Hne | done].
Qed.

Lemma engineered_Some (E : environment) (clinic_data : gmap string pyval)
      (X : features_t) :
  engineered E clinic_data = Some X →
  ∃ df, engineer_features E clinic_data = Ok (df, X).
Proof.
  unfold engineered.
  destruct (engineer_features E clinic_data) as [[df X']|e]; [|discriminate].
  intros [= <-]. by exists df.
Qed.

(** Encoding keeps the columns and leaves a number where it is. *)
Lemma encode_keeps_numbers (X : features_t)
      (encoders encoders' : gmap string (list string)) (Xe : features_t) :
  _encode_categorical_features encoders X = (encoders', Ok Xe) →
  column_names Xe = column_names X
  ∧ ∀ c q, cell X c = Some (VNum q) → cell Xe c = Some (VNum q).
Proof.
  revert encoders encoders' Xe.
  induction X as [|[k v] X IH]; intros encoders encoders' Xe H.
  { cbn in H. by injection H as <- <-. }
  cbn [_encode_categorical_features] in H.
  destruct (is_object v) eqn:Hv.
  - assert (Hnum : ∀ q, v ≠ VNum q) by (intros q ->; discriminate Hv).
    destruct (encoders !! k) as [cl|].
    + destruct (index_of _ cl) as [i|]; [|discriminate H].
      destruct (_encode_categorical_features encoders X) as [e1 [r1|]] eqn:H1;
        cbn [mbind res_bind] in H; [|discriminate H].
      injection H as <- <-. destruct (IH _ _ _ H1) as [Hc Hn].
      split; [cbn; by f_equal|]. intros c q. cbn [cell].
      destruct (String.eqb k c); [|by apply Hn].
      intros [= ->]. by destruct (Hnum q).
    + match type of H with
      | context [_encode_categorical_features ?m X] =>
          destruct (_encode_categorical_features m X) as [e1 [r1|]] eqn:H1;
            cbn [mbind res_bind] in H; [|discriminate H]
      end.
      injection H as <- <-. destruct (IH _ _ _ H1) as [Hc Hn].
      split; [cbn; by f_equal|]. intros c q. cbn [cell].
      destruct (String.eqb k c); [|by apply Hn].
      intros [= ->]. by destruct (Hnum q).
  - destruct (_encode_categorical_features encoders X) as [e1 [r1|]] eqn:H1;
      cbn [mbind res_bind] in H; [|discriminate H].
    injection H as <- <-. destruct (IH _ _ _ H1) as [Hc Hn].
    split; [cbn; by f_equal|]. intros c q. cbn [cell].
    destruct (String.eqb k c); [|by apply Hn].
    by intros [= ->].
Qed.

(** C4, as amended. [engineer_features] emits a feature exactly when the
    raw column it is derived from is present, so the key set follows the
    record.  Whenever [predict_risk] returns an assessment, the row it
    handed to the pipeline was built from these features: it has
    exactly the training columns as its keys, with 0 under every key
    the record did not give rise to.  A record that gives rise to no
    feature at all gets no assessment. *)
Theorem engineered_keys_follow_the_record :
  (∀ E clinic_data X,
      engineered E clinic_data = Some X →
      column_names X = engineered_columns clinic_data)
  ∧ (∀ E self clinic_data res,
        snd (predict_risk E self (JObject clinic_data)) = Some res →
        ∃ pipeline df X Xe,
          model self = Some pipeline
          ∧ engineer_features E clinic_data = Ok (df, X)
          ∧ engineered_columns clinic_data ≠ []
          ∧ snd (_encode_categorical_features
                   (label_encoders self) (align (feature_columns self) X))
            = Ok Xe
          ∧ predict pipeline (map snd Xe) = Ok (risk_level res)
          ∧ column_names Xe = feature_columns self
          ∧ ∀ c, c ∈ feature_columns self →
                 c ∉ engineered_columns clinic_data →
                 cell Xe c = Some (VNum 0))
  ∧ (∀ E self clinic_data,
        engineered_columns clinic_data = [] →
        snd (predict_risk E self (JObject clinic_data)) = None).
Proof.
  split; [|split].
  - intros E clinic_data X H. apply engineered_Some in H as [df H].
    by apply engineer_features_columns in H as [H _].
  - intros E self clinic_data res H.
    apply predict_risk_Some in H
      as (pipeline & d & df & X & Xe & lvl & p & c & Hm & [= <-] & He & HX
          & Hx & Hl & _ & _ & ->).
    pose proof (engineer_features_columns _ _ _ _ He) as [Hcols _].
    exists pipeline, df, X, Xe. do 2 (split; [done|]).
    split. { rewrite <- Hcols. by destruct X. }
    split; [done|]. split; [done|].
    destruct (_encode_categorical_features _ _) as [encoders r] eqn:Hx'.
    cbn in Hx. subst r. apply encode_keeps_numbers in Hx' as [Hk Hn].
    rewrite column_names_align in Hk. split; [done|].
    intros col Hin Hnot. apply Hn. rewrite cell_align by done.
    rewrite cell_None; [done | by rewrite Hcols].
  - intros E self clinic_data Hnone.
    destruct (engineer_features E clinic_data) as [[df X]|e] eqn:He.
    + pose proof (engineer_features_columns _ _ _ _ He) as [Hcols _].
      rewrite Hnone in Hcols. destruct X; [|discriminate Hcols].
      by rewrite (predict_risk_without_features _ _ _ _ He).
    + unfold predict_risk. destruct (model self) as [pipeline|]; [|done].
      unfold predict_risk_try, predict_risk_frame. by rewrite He.
Qed.

Lemma engineered_keys_follow_the_record_witness :
  (∃ res,
      snd (predict_risk Scenarios.env Scenarios.low_model
                        (JObject Scenarios.unlicensed_clinic)) = Some res
      ∧ ∃ pipeline df X Xe,
          model Scenarios.low_model = Some pipeline
          ∧ engineer_features Scenarios.env Scenarios.unlicensed_clinic
            = Ok (df, X)
          ∧ predict pipeline (map snd Xe) = Ok (risk_level res)
          ∧ column_names Xe = Scenarios.training_columns
          ∧ cell X "has_license" = None
          ∧ cell Xe "has_license" = Some (VNum 0)
          ∧ cell Xe "is_solo_practice" = Some (VNum 0))
  ∧ snd (predict_risk Scenarios.env Scenarios.low_model
                      (JObject Scenarios.foreign_record)) = None.
Proof.
  destruct engineered_keys_follow_the_record as (_ & Hrow & Hnone).
  split.
  - eexists. split; [vm_compute; reflexivity|].
    destruct (Hrow Scenarios.env Scenarios.low_model
                Scenarios.unlicensed_clinic _ ltac:(vm_compute; reflexivity))
      as (pipeline & df & X & Xe & Hm & He & _ & _ & Hl & Hk & Hz).
    exists pipeline, df, X, Xe.
    assert (Hnot : ∀ c, In c ["has_license"; "is_solo_practice"] →
                        c ∉ engineered_columns Scenarios.unlicensed_clinic).
    { intros c Hc Hin. apply list_elem_of_In in Hin. vm_compute in Hin, Hc.
      intuition (subst; discriminate). }
    do 4 (split; [done|]). split.
    { apply cell_None.
      rewrite (proj1 (engineer_features_columns _ _ _ _ He)).
      apply Hnot. by left. }
    split; apply Hz; try (apply Hnot; cbn; tauto);
      apply list_elem_of_In; cbn; tauto.
  - apply Hnone. vm_compute. reflexivity.
Defined.

(** C4, counterexample. A record without a website gets no
    [has_website] key at all, and two records with different optional
    fields get different key sets. *)
Lemma absent_field_gives_no_key :
  ∃ X X',
    engineered Scenarios.env Scenarios.bare_clinic = Some X
    ∧ engineered Scenarios.env Scenarios.solo_clinic = Some X'
    ∧ cell X "has_website" = None
    ∧ column_names X ≠ column_names X'.
Proof.
  do 2 eexists. split; [vm_compute; reflexivity|].
  split; [vm_compute; reflexivity|].
  split; [reflexivity | discriminate].
Qed.

End FeatureColumns.

Section FlagsAndStatus.
Import Pandas Sklearn ClinicRiskModel.

(** [_generate_risk_flags] reads six entries of the row it is given,
    each with a default that raises no flag. *)
Lemma generate_risk_flags_spec (row : gmap string pyval) (flag : string) :
  flag ∈ _generate_risk_flags row ↔
  (flag = "NO_WEBSITE" ∧ truthy (get row "has_website" (VNum 1)) = false)
  ∨ (flag = "NO_LICENSE" ∧ truthy (get row "has_license" (VNum 1)) = false)
  ∨ (flag = "INVALID_LICENSE_FORMAT"
     ∧ truthy (get row "license_format_valid" (VNum 1)) = false)
  ∨ (flag = "NO_ACCREDITATION"
     ∧ truthy (get row "has_accreditation" (VNum 1)) = false)
  ∨ (flag = "NEW_BUSINESS" ∧ truthy (get row "is_new_business" (VNum 0)) = true)
  ∨ (flag = "SOLO_PRACTICE" ∧ truthy (get row "is_solo_practice" (VNum 0)) = true).
Proof.
  unfold _generate_risk_flags.
  destruct (truthy (get row "has_website" (VNum 1))),
    (truthy (get row "has_license" (VNum 1))),
    (truthy (get row "license_format_valid" (VNum 1))),
    (truthy (get row "has_accreditation" (VNum 1))),
    (truthy (get row "is_new_business" (VNum 0))),
    (truthy (get row "is_solo_practice" (VNum 0)));
    cbn [negb app]; rewrite ?elem_of_cons, elem_of_nil; intuition congruence.
Qed.

(** The flags and the status of an assessment are read from the entries
    of the submitted record, whatever the engineered features are:
    [engineer_features] adds none of the six names to the frame. *)
Lemma flags_read_the_submitted_record (E : environment)
      (clinic_data df : gmap string pyval) (X : features_t) :
  engineer_features E clinic_data = Ok (df, X) →
  _generate_risk_flags df = _generate_risk_flags clinic_data
  ∧ ∀ score level,
      _recommend_account_status score level df
      = Spec.decision_table level
          (truthy (get clinic_data "has_license" (VNum 0))).
Proof.
  intros H. apply engineer_features_columns in H as [_ Hdf].
  assert (Hget : ∀ k d, k ∉ derived_columns → get df k d = get clinic_data k d).
  { intros k d Hk. unfold get. by rewrite Hdf. }
  assert (Hnot : ∀ k, k ∈ ["has_website"; "has_license"; "license_format_valid";
                           "has_accreditation"; "is_new_business";
                           "is_solo_practice"] → k ∉ derived_columns).
  { intros k Hk Hin. unfold derived_columns in Hin.
    repeat (apply elem_of_cons in Hk as [->|Hk];
            [repeat (apply elem_of_cons in Hin as [Hin|Hin]; [discriminate Hin|]);
             by apply elem_of_nil in Hin|]).
    by apply elem_of_nil in Hk. }
  split.
  - unfold _generate_risk_flags.
    rewrite !Hget by (apply Hnot; repeat constructor). reflexivity.
  - intros score level. unfold _recommend_account_status, Spec.decision_table.
    rewrite Hget by (apply Hnot; repeat constructor). reflexivity.
Qed.

(** A record that carries none of the six names as fields of its own
    (the shape the API documents) is never flagged. *)
Lemma api_records_get_no_flags (E : environment)
      (clinic_data df : gmap string pyval) (X : features_t) :
  engineer_features E clinic_data = Ok (df, X) →
  (∀ k, k ∈ ["has_website"; "has_license"; "license_format_valid";
             "has_accreditation"; "is_new_business"; "is_solo_practice"] →
        clinic_data !! k = None) →
  _generate_risk_flags df = []
  ∧ ∀ score level,
      _recommend_account_status score level df = Spec.decision_table level false.
Proof.
  intros H Hnone. apply flags_read_the_submitted_record in H as [-> Hs].
  split.
  - unfold _generate_risk_flags, get.
    rewrite !Hnone by repeat constructor. reflexivity.
  - intros score level. rewrite Hs. unfold get.
    rewrite Hnone by repeat constructor. reflexivity.
Qed.

(** C5, at the failing input. A one-doctor clinic without website and
    without licence number is engineered with [has_website] = 0,
    [has_license] = 0 and [is_solo_practice] = 1, and its assessment
    carries no flag at all: NO_WEBSITE, NO_LICENSE and SOLO_PRACTICE are
    missing. *)
Theorem engineered_conditions_raise_no_flag :
  ∃ X res,
    engineered Scenarios.env Scenarios.unlisted_solo_clinic = Some X
    ∧ cell X "has_website" = Some (VNum 0)
    ∧ cell X "has_license" = Some (VNum 0)
    ∧ cell X "is_solo_practice" = Some (VNum 1)
    ∧ snd (predict_risk Scenarios.env Scenarios.low_model
                        (JObject Scenarios.unlisted_solo_clinic)) = Some res
    ∧ risk_flags res = [].
Proof.
  do 2 eexists. split; [vm_compute; reflexivity|].
  do 3 (split; [reflexivity|]). split; [vm_compute; reflexivity|]. reflexivity.
Qed.

(** The same defect on the status: the clinic has a licence number and
    is rated LOW, yet [has_license] is looked up in the submitted record
    and found absent. *)
Lemma licensed_low_risk_clinic_is_not_activated :
  ∃ X res,
    engineered Scenarios.env Scenarios.solo_clinic = Some X
    ∧ cell X "has_license" = Some (VNum 1)
    ∧ snd (predict_risk Scenarios.env Scenarios.low_model
                        (JObject Scenarios.solo_clinic)) = Some res
    ∧ risk_level res = "LOW"
    ∧ account_status res = "VERIFICATION_REQUIRED".
Proof.
  do 2 eexists. split; [vm_compute; reflexivity|].
  split; [reflexivity|]. split; [vm_compute; reflexivity|]. by split.
Qed.

(** In the simple API the status depends on the level alone. *)
Lemma simple_api_status_ignores_the_license (rid : string)
      (md : SimpleApi.model_data) (clinic_data : gmap string pyval)
      (data : SimpleApi.risk_assessment) (code : Z) :
  SimpleApi.assess_risk rid (Some md) clinic_data = (SimpleApi.Assessed data, code) →
  SimpleApi.account_status data =
    if String.eqb (SimpleApi.risk_level data) "HIGH" then "RESTRICTED"
    else if String.eqb (SimpleApi.risk_level data) "LOW" then "ACTIVE_LIMITED"
    else "VERIFICATION_REQUIRED".
Proof.
  unfold SimpleApi.assess_risk.
  destruct (bool_decide (clinic_data = ∅)); [discriminate|].
  destruct (SimpleApi.py_rsub _ _) as [years|]; cbn [mbind res_bind];
    [|discriminate].
  destruct (predict _ _) as [enc|]; cbn [mbind res_bind]; [|discriminate].
  destruct (predict_proba _ _) as [p|]; cbn [mbind res_bind]; [|discriminate].
  destruct (SimpleApi.inverse_transform _ _) as [lvl|]; cbn [mbind res_bind];
    [|discriminate].
  destruct (np_max p) as [c|]; cbn [mbind res_bind]; [|discriminate].
  destruct (py_gt _ _ _) as [recent|]; cbn [mbind res_bind]; [|discriminate].
  intros [= <- _]. reflexivity.
Qed.

(** C1, at the failing input. The simple API rates a clinic without a
    licence number LOW, flags it NO_LICENSE, and still recommends
    ACTIVE_LIMITED, where the decision table asks for
    VERIFICATION_REQUIRED. *)
Theorem simple_api_activates_unlicensed_clinic :
  ∃ data,
    SimpleApi.assess_risk "req_1" (Some Scenarios.simple_low_bundle)
                          Scenarios.unlicensed_clinic
    = (SimpleApi.Assessed data, 200%Z)
    ∧ SimpleApi.risk_level data = "LOW"
    ∧ "NO_LICENSE" ∈ SimpleApi.risk_flags data
    ∧ SimpleApi.account_status data = "ACTIVE_LIMITED"
    ∧ Spec.decision_table (SimpleApi.risk_level data) false
      = "VERIFICATION_REQUIRED".
Proof.
  eexists. split; [vm_compute; reflexivity|].
  split; [reflexivity|]. split; [constructor|]. by split.
Qed.

End FlagsAndStatus.

Section ErrorPaths.
Import Sklearn.

(** Each component of the behaviour bundle that is missing or raises
    makes the [try] block raise. *)
Lemma behavior_component_failures_raise (md : BehaviorInference.model_data)
      (snapshot : gmap string pyval) :
  BehaviorInference.model md = None
  ∨ BehaviorInference.scaler md = None
  ∨ (∃ e, BehaviorInference.prepare_features snapshot = Raise e)
  ∨ (∃ s row e, BehaviorInference.scaler md = Some s
                ∧ BehaviorInference.prepare_features snapshot = Ok row
                ∧ transform s row = Raise e)
  ∨ (∃ m e, BehaviorInference.model md = Some m ∧ ∀ x, predict m x = Raise e)
  ∨ (∃ m e, BehaviorInference.model md = Some m ∧ ∀ x, predict_proba m x = Raise e) →
  ∃ e, BehaviorInference.predict_human_try md snapshot = Raise e.
Proof.
  unfold BehaviorInference.predict_human_try, BehaviorInference.item.
  intros H.
  destruct (BehaviorInference.model md) as [m|] eqn:Hm;
    cbn [mbind res_bind]; [|eauto].
  destruct (BehaviorInference.scaler md) as [s|] eqn:Hs;
    cbn [mbind res_bind]; [|eauto].
  destruct (BehaviorInference.prepare_features snapshot) as [row|] eqn:Hf;
    cbn [mbind res_bind]; [|eauto].
  destruct (transform s _) as [x|] eqn:Ht; cbn [mbind res_bind]; [|eauto].
  destruct (predict m x) as [y|] eqn:Hy; cbn [mbind res_bind]; [|eauto].
  destruct (predict_proba m x) as [p|] eqn:Hp; cbn [mbind res_bind]; [|eauto].
  exfalso.
  destruct H as [H | [H | [(e & He) | [(s' & row' & e & Hs' & Hf' & Ht')
                         | [(m' & e & Hm' & Hp') | (m' & e & Hm' & Hp')]]]]];
    try discriminate H.
  - discriminate He.
  - injection Hs' as <-. injection Hf' as <-. congruence.
  - injection Hm' as <-. rewrite Hp' in Hy. discriminate Hy.
  - injection Hm' as <-. rewrite Hp' in Hp. discriminate Hp.
Qed.

(** C7, as amended. An internal error in the behaviour classifier is
    answered with the fail-closed default verdict (not human, confidence
    0, probabilities human 0 and bot 1), and a "human" verdict only ever
    comes out of a run without error; an internal error in the risk
    prediction is answered with no assessment at all ([None]), never with
    a verdict. *)
Theorem internal_errors_fail_closed :
  (∀ md snapshot e,
      BehaviorInference.predict_human_try md snapshot = Raise e →
      let v := BehaviorInference.predict_human md snapshot in
      v = BehaviorInference.safe_default e
      ∧ isHuman v = false ∧ confidence v = 0
      ∧ prob_human v = 0 ∧ prob_bot v = 1)
  ∧ (∀ md snapshot,
        isHuman (BehaviorInference.predict_human md snapshot) = true →
        BehaviorInference.predict_human_try md snapshot
        = Ok (BehaviorInference.predict_human md snapshot))
  ∧ (∀ E self pipeline clinic_data e,
        ClinicRiskModel.model self = Some pipeline →
        snd (ClinicRiskModel.predict_risk_try E self pipeline clinic_data) = Raise e →
        snd (ClinicRiskModel.predict_risk E self clinic_data) = None).
Proof.
  split; [|split].
  - intros md snapshot e H. unfold BehaviorInference.predict_human.
    rewrite H. cbn. by repeat split.
  - intros md snapshot. unfold BehaviorInference.predict_human.
    destruct (BehaviorInference.predict_human_try md snapshot); [done|].
    cbn. discriminate.
  - intros E self pipeline clinic_data e Hm H. unfold ClinicRiskModel.predict_risk.
    rewrite Hm.
    destruct (ClinicRiskModel.predict_risk_try E self pipeline clinic_data) as [self' [r|e']];
      cbn in *; [discriminate H | reflexivity].
Qed.

Lemma internal_errors_fail_closed_witness :
  isHuman (BehaviorInference.predict_human Scenarios.failing_scaler_bundle
                                           Scenarios.human_snapshot) = false
  ∧ snd (ClinicRiskModel.predict_risk Scenarios.env Scenarios.broken_model
                      (JObject Scenarios.solo_clinic)) = None.
Proof.
  destruct internal_errors_fail_closed as (Hbehavior & _ & Hrisk).
  split.
  - eapply Hbehavior. vm_compute. reflexivity.
  - eapply Hrisk; vm_compute; reflexivity.
Defined.

(** C7, counterexample. The classifier of the risk pipeline fails on a
    well-formed record: [predict_risk] returns [None], not a verdict. *)
Lemma risk_prediction_error_returns_nothing :
  ∃ pipeline e,
    ClinicRiskModel.model Scenarios.broken_model = Some pipeline
    ∧ snd (ClinicRiskModel.predict_risk_try Scenarios.env Scenarios.broken_model pipeline
                            (JObject Scenarios.solo_clinic)) = Raise e
    ∧ snd (ClinicRiskModel.predict_risk Scenarios.env Scenarios.broken_model
                        (JObject Scenarios.solo_clinic)) = None.
Proof.
  do 2 eexists. split; [reflexivity|].
  split; vm_compute; reflexivity.
Qed.

(** The command-line wrapper of the heuristic classifier fails closed as
    well: exit status 1 goes with a "bot" verdict. *)
Lemma mock_main_fails_closed
      (input_data : gmap string (gmap string pyval)) :
  snd (MockInference.main input_data) = 1%Z →
  isHuman (fst (MockInference.main input_data)) = false
  ∧ prob_human (fst (MockInference.main input_data)) = 0
  ∧ prob_bot (fst (MockInference.main input_data)) = 1.
Proof.
  unfold MockInference.main.
  destruct (input_data !! "snapshot") as [snapshot|]; [|by cbn].
  destruct (decide (snapshot = ∅)); [by cbn|].
  destruct (MockInference.Binary64.predict_human_mock snapshot); cbn;
    [discriminate|done].
Qed.

(** What the caller makes of it: the endpoint answers 500. *)
Lemma assess_risk_reports_failed_prediction (E : ClinicRiskModel.environment) (m : ClinicRiskModel.t)
      (clinic_data : gmap string pyval) :
  clinic_data !! "clinic_name" ≠ None →
  clinic_data !! "email" ≠ None →
  snd (ClinicRiskModel.predict_risk E m (JObject clinic_data)) = None →
  snd (ApiIntegration.assess_risk E m true clinic_data)
  = (ApiIntegration.Failure "Prediction failed"
                            "Unable to complete risk assessment", 500%Z).
Proof.
  intros Hn He Hp. unfold ApiIntegration.assess_risk. cbn [negb].
  destruct (bool_decide_reflect (clinic_data = ∅)) as [->|_].
  { by rewrite lookup_empty in Hn. }
  cbn [List.filter]. unfold ClinicRiskModel.has_col.
  rewrite !bool_decide_eq_true_2 by (by apply not_eq_None_Some).
  cbn [negb].
  destruct (ClinicRiskModel.predict_risk E m (JObject clinic_data)) as [m' [r|]];
    cbn in *; [discriminate Hp | reflexivity].
Qed.

End ErrorPaths.

Section Batch.
Import Sklearn ClinicRiskModel ApiIntegration.

Lemma predict_risk_scalar (E : environment) (m : t) (v : pyval) :
  predict_risk E m (JScalar v) = (m, None).
Proof. unfold predict_risk. by destruct (model m). Qed.

Lemma batch_loop_scalar_aborts (E : environment) (clinics : list json) :
  (∃ v, JScalar v ∈ clinics) →
  ∀ m i results errors,
    ∃ e, snd (batch_loop E m i clinics results errors) = Raise e.
Proof.
  induction clinics as [|c clinics IH]; intros [v Hv] m i results errors.
  - by apply elem_of_nil in Hv.
  - cbn [batch_loop]. destruct c as [d|w].
    + assert (Hrest : ∃ v, JScalar v ∈ clinics).
      { apply elem_of_cons in Hv as [Hv|Hv]; [discriminate Hv | eauto]. }
      destruct (predict_risk E m (JObject d)) as [m' [r|]]; cbn; by apply IH.
    + rewrite predict_risk_scalar. cbn. eauto.
Qed.

(** A batch that holds an item which is not a JSON object is answered
    with a single 500, whatever the other items are. *)
Lemma scalar_item_aborts_the_batch (E : environment) (m : t)
      (clinics : list json) :
  (∃ v, JScalar v ∈ clinics) →
  (length clinics <= 100)%nat →
  ∃ message,
    snd (batch_assess_risk E m true clinics)
    = (Failure "Internal server error" message, 500%Z).
Proof.
  intros Hv Hlen. unfold batch_assess_risk. cbn [negb].
  destruct (batch_loop_scalar_aborts E clinics Hv m 0%nat [] []) as [e He].
  destruct clinics as [|c cs].
  { destruct Hv as [v Hv]. by apply elem_of_nil in Hv. }
  destruct (Nat.ltb_spec 100 (length (c :: cs))); [lia|].
  destruct (batch_loop E m 0 (c :: cs) [] []) as [m' [[rs es]|e']];
    cbn in He; [discriminate He | eauto].
Qed.

Lemma scalar_item_aborts_the_batch_witness :
  ∃ message,
    snd (batch_assess_risk Scenarios.env Scenarios.low_model true
                           [JScalar (VStr "not a clinic")])
    = (Failure "Internal server error" message, 500%Z).
Proof.
  apply scalar_item_aborts_the_batch.
  - exists (VStr "not a clinic"). constructor.
  - cbn. lia.
Defined.

(** C8, at the failing input. A batch of three items whose second item
    is a JSON null: the prediction for it fails, the error entry cannot
    be built, and the whole batch is answered with 500; no entry for any
    item is returned. *)
Theorem null_item_aborts_the_batch :
  snd (predict_risk Scenarios.env Scenarios.low_model (JScalar VNone)) = None
  ∧ snd (batch_assess_risk Scenarios.env Scenarios.low_model true
                           Scenarios.batch_with_null)
    = (Failure "Internal server error"
               "'NoneType' object has no attribute 'get'", 500%Z).
Proof. split; vm_compute; reflexivity. Qed.

Lemma batch_loop_objects (E : environment) (ds : list (gmap string pyval)) :
  ∀ m i results errors,
    snd (batch_loop E m i (map JObject ds) results errors)
    = Ok ((results ++ fst (entries E m i ds))%list,
          (errors ++ snd (entries E m i ds))%list).
Proof.
  induction ds as [|d ds IH]; intros m i results errors.
  - cbn. by rewrite !app_nil_r.
  - cbn [map batch_loop entries].
    destruct (predict_risk E m (JObject d)) as [m' [r|]]; cbn [json_get mbind res_bind].
    + rewrite IH. destruct (entries E m' (S i) ds) as [rs es]. cbn.
      by rewrite <- app_assoc.
    + rewrite IH. destruct (entries E m' (S i) ds) as [rs es]. cbn.
      by rewrite <- app_assoc.
Qed.

Lemma entries_indices (E : environment) (ds : list (gmap string pyval)) :
  ∀ m i,
    map result_batch_index (fst (entries E m i ds))
    ++ map error_batch_index (snd (entries E m i ds))
    ≡ₚ seq i (length ds).
Proof.
  induction ds as [|d ds IH]; intros m i; [done|].
  cbn [entries length seq].
  destruct (predict_risk E m (JObject d)) as [m' [r|]];
    specialize (IH m' (S i)); destruct (entries E m' (S i) ds) as [rs es];
    cbn in *.
  - by constructor.
  - rewrite <- Permutation_middle. by constructor.
Qed.

(** Batches of JSON objects: every item is processed, a failed
    prediction gives one error entry with the item's index and the others
    give one result entry each, and the summary adds up. *)
Theorem object_batch_is_isolated (E : environment) (m : t)
        (ds : list (gmap string pyval)) :
  ds ≠ [] →
  (length ds <= 100)%nat →
  ∃ results errors,
    snd (batch_assess_risk E m true (map JObject ds))
    = (Batch results errors
             {| total_processed := length ds;
                successful := length results;
                failed := length errors |}, 200%Z)
    ∧ (results, errors) = entries E m 0 ds
    ∧ (length results + length errors = length ds)%nat
    ∧ map result_batch_index results ++ map error_batch_index errors
      ≡ₚ seq 0 (length ds).
Proof.
  intros Hne Hlen. unfold batch_assess_risk. cbn [negb].
  pose proof (batch_loop_objects E ds m 0%nat [] []) as Hloop.
  pose proof (entries_indices E ds m 0%nat) as Hperm.
  destruct (entries E m 0 ds) as [rs es]. cbn [fst snd app] in Hloop, Hperm.
  assert (Hl : length (map JObject ds) = length ds) by apply length_map.
  destruct (map JObject ds) as [|c cs] eqn:Hmap.
  { destruct ds; [done | discriminate Hmap]. }
  rewrite Hl. destruct (Nat.ltb_spec 100 (length ds)); [lia|].
  destruct (batch_loop E m 0 (c :: cs) [] []) as [m' [[rs' es']|e]];
    cbn [snd] in Hloop; [|discriminate Hloop].
  injection Hloop as -> ->. cbn [snd].
  exists rs, es. split; [reflexivity|]. split; [reflexivity|].
  split; [|exact Hperm].
  apply Permutation_length in Hperm.
  rewrite length_app, !length_map, length_seq in Hperm. exact Hperm.
Qed.

Lemma object_batch_is_isolated_witness :
  ∃ results errors,
    snd (batch_assess_risk Scenarios.env Scenarios.low_model true
           (map JObject [Scenarios.solo_clinic; Scenarios.bare_clinic]))
    = (Batch results errors
             {| total_processed := 2;
                successful := length results;
                failed := length errors |}, 200%Z)
    ∧ (results, errors)
      = entries Scenarios.env Scenarios.low_model 0
                [Scenarios.solo_clinic; Scenarios.bare_clinic]
    ∧ (length results + length errors = 2)%nat
    ∧ map result_batch_index results ++ map error_batch_index errors
      ≡ₚ seq 0 2.
Proof.
  apply (object_batch_is_isolated Scenarios.env Scenarios.low_model
           [Scenarios.solo_clinic; Scenarios.bare_clinic]).
  - discriminate.
  - cbn. lia.
Defined.

End Batch.

Section Selection.
Import ClinicRiskModel.

(** When some candidate has a positive mean score, the loop selects the
    first-declared candidate among those of highest mean score; the
    means are the doubles [cv_scores.mean()] computes. *)
Theorem select_best_first_maximum (cross_val_score : candidate → list Q) :
  (∃ c, 0 < mean (cross_val_score c)) →
  ∃ best,
    select_best cross_val_score = (Some best, mean (cross_val_score best))
    ∧ (∀ c, mean (cross_val_score c) <= mean (cross_val_score best))
    ∧ (∀ c, declared_before c best = true →
            mean (cross_val_score c) < mean (cross_val_score best)).
Proof.
  intros [c0 Hpos]. unfold select_best, models. cbn [fold_left]. cbv beta.
  assert (Hsome : 0 < mean (cross_val_score RandomForest)
                  ∨ 0 < mean (cross_val_score GradientBoosting)
                  ∨ 0 < mean (cross_val_score LogisticRegression))
    by (destruct c0; auto).
  clear c0 Hpos.
  do 3 (let H := fresh "Hcmp" in
        match goal with
        | |- context [Qltb ?a ?b] =>
            destruct (Qltb a b) eqn:H;
            [apply Qltb_lt in H
            |apply not_true_iff_false in H; rewrite Qltb_lt in H];
            cbv beta iota zeta
        end);
    first
      [ exfalso; destruct Hsome as [?|[?|?]]; lra
      | (exists LogisticRegression + exists GradientBoosting + exists RandomForest);
        (split; [reflexivity|]);
        split; intros []; cbn [declared_before]; intros;
        solve [discriminate | lra] ].
Qed.

Lemma select_best_first_maximum_witness :
  ∃ best,
    select_best Scenarios.tied_scores
    = (Some best, mean (Scenarios.tied_scores best))
    ∧ (∀ c, mean (Scenarios.tied_scores c) <= mean (Scenarios.tied_scores best))
    ∧ (∀ c, declared_before c best = true →
            mean (Scenarios.tied_scores c) < mean (Scenarios.tied_scores best)).
Proof.
  apply select_best_first_maximum.
  exists RandomForest. vm_compute. reflexivity.
Defined.

(** On a tie between the second and the third candidate the second,
    declared first, is kept. *)
Lemma tie_goes_to_the_first_declared :
  fst (select_best Scenarios.tied_scores) = Some GradientBoosting.
Proof. vm_compute. reflexivity. Qed.

(** The comparison is between the means as computed: five scores of
    0.7 and the scores 0.8, 0.7, 0.7, 0.7, 0.6 have the same mean as
    rationals, but the second sum is rounded upwards, so the third
    candidate beats the first. *)
Lemma rounding_decides_between_equal_means :
  mean (Scenarios.rounded_scores RandomForest)
  < mean (Scenarios.rounded_scores LogisticRegression)
  ∧ fst (select_best Scenarios.rounded_scores) = Some LogisticRegression.
Proof. split; vm_compute; reflexivity. Qed.

(** C9, at the failing input. When every candidate's mean score is 0 the
    loop selects nothing: [best_model] stays [None] and the refit that
    follows raises. *)
Theorem no_candidate_selected_at_zero_scores :
  select_best Scenarios.zero_scores = (None, 0)
  ∧ train_model Scenarios.zero_scores
    = Raise (AttributeError "'NoneType' object has no attribute 'fit'").
Proof. split; vm_compute; reflexivity. Qed.

(** More generally, no candidate is selected unless one scores above 0. *)
Lemma select_best_needs_a_positive_score (cross_val_score : candidate → list Q) :
  (∀ c, mean (cross_val_score c) <= 0) →
  select_best cross_val_score = (None, 0).
Proof.
  intros H. unfold select_best, models. cbn [fold_left].
  assert (Hf : ∀ c, Qltb 0 (mean (cross_val_score c)) = false).
  { intros c. apply not_true_iff_false. rewrite Qltb_lt.
    specialize (H c). lra. }
  by rewrite !Hf.
Qed.

End Selection.

(** ** Further properties: engineered features, label encoders, the
    endpoints and the model files *)

Section EngineeredCells.
Import Pandas Sklearn ClinicRiskModel.

(** Lookup in a frame built by appending blocks. *)
Lemma cell_app (X Y : features_t) (n : string) :
  cell (X ++ Y)%list n = match cell X n with
                         | Some v => Some v
                         | None => cell Y n
                         end.
Proof.
  induction X as [|[k v] X IH]; cbn; [done|].
  by destruct (String.eqb k n).
Qed.

Lemma not_in_group (present : bool) (names : list string) (n : string) :
  n ∉ names → n ∉ group present names.
Proof.
  destruct present; cbn; [done|]. intros _ H. by apply elem_of_nil in H.
Qed.

(** A guarded block that returned appended its columns, and ran its
    body when the guard held. *)
Lemma when_inv (cond : bool) (features new_features : features_t)
      (body : res features_t) (names : list string) :
  (∀ cols, body = Ok cols → column_names cols = names) →
  when_ cond features body = Ok new_features →
  ∃ new, new_features = (features ++ new)%list
         ∧ column_names new = group cond names
         ∧ (cond = true → body = Ok new).
Proof.
  intros Hbody. unfold when_, group.
  destruct cond.
  - destruct body as [cols|e]; cbn; [|discriminate].
    intros [= <-]. exists cols. split; [done|]. split; [by apply Hbody|done].
  - intros [= <-]. exists []. split; [by rewrite app_nil_r|]. by split.
Qed.

Ltac absent :=
  let Hin := fresh "Hin" in
  intros Hin;
  repeat (apply elem_of_cons in Hin; destruct Hin as [Hin|Hin];
          [discriminate Hin|]);
  by apply elem_of_nil in Hin.

Ltac statement H f Hf :=
  match type of H with
  | mbind _ ?e = Ok _ =>
      destruct e as [f|] eqn:Hf; cbn [mbind res_bind] in H;
      [|discriminate H]
  end.

Ltac assigned_columns :=
  let cols := fresh "cols" in
  let Hb := fresh "Hb" in
  intros cols Hb;
  repeat match type of Hb with
         | mbind _ ?e = Ok _ =>
             destruct e; cbn [mbind res_bind] in Hb; [|discriminate Hb]
         | (if ?c then _ else _) = Ok _ => destruct c
         end;
  injection Hb as <-; cbn [column_names map fst]; reflexivity.

Ltac block H :=
  let f := fresh "f" in
  let Hf := fresh "Hf" in
  let new := fresh "new" in
  let Hc := fresh "Hc" in
  let Hb := fresh "Hb" in
  statement H f Hf;
  eapply when_inv in Hf; [|assigned_columns];
  destruct Hf as (new & Hf & Hc & Hb);
  cbn [String.append] in Hc.

Lemma submission_features_inv (E : environment)
      (df df' : gmap string pyval) (features features' : features_t) :
  submission_features E df features = Ok (df', features') →
  ∃ new, features' = (features ++ new)%list
    ∧ column_names new =
        group (has_col df "submission_timestamp")
          ["submission_hour"; "submission_day_of_week";
           "is_weekend_submission"; "is_business_hours"; "is_late_night"]
    ∧ (∀ c, c ∉ ["submission_timestamp"; "submission_hour";
                 "submission_day_of_week"; "is_weekend_submission";
                 "is_business_hours"; "is_late_night"] →
            df' !! c = df !! c)
    ∧ cell new "is_late_night" =
        (if has_col df "submission_timestamp" then Some (VNum 0) else None).
Proof.
  unfold submission_features.
  destruct (has_col df "submission_timestamp").
  - destruct (to_datetime E _) as [t|]; cbn [mbind res_bind]; [|discriminate].
    intros [= <- <-]. eexists. split; [reflexivity|].
    split; [reflexivity|]. split.
    + intros c Hc. rewrite !lookup_insert_ne; [done|..];
        intros <-; apply Hc; repeat constructor.
    + cbn [cell String.eqb Ascii.eqb Bool.eqb]. unfold col.
      rewrite lookup_insert_eq. cbn [default].
      rewrite !lookup_insert_ne by done.
      rewrite lookup_insert_eq. cbn [default].
      unfold astype_int, between.
      destruct t as [[h d]|]; cbn; [|reflexivity].
      destruct (Qle_bool 22 (inject_Z h)) eqn:H22; [|reflexivity].
      destruct (Qle_bool (inject_Z h) 6) eqn:H6; [|reflexivity].
      apply Qle_bool_iff in H22, H6. lra.
  - intros [= <- <-]. exists []. split; [by rewrite app_nil_r|].
    split; [reflexivity|]. split; done.
Qed.

Lemma maturity_features_inv (E : environment)
      (df df' : gmap string pyval) (features features' : features_t) :
  maturity_features E df features = Ok (df', features') →
  ∃ new, features' = (features ++ new)%list
    ∧ column_names new =
        group (has_col df "year_established")
          ["years_in_business"; "is_new_business"; "is_established"]
    ∧ (∀ c, c ≠ "years_in_business" → df' !! c = df !! c)
    ∧ (has_col df "year_established" = true →
       ∃ y isnew est,
         rsub (current_year E)
              (fillna (col df "year_established") (VInt (current_year E)))
         = Ok y
         ∧ series_lt y 1 = Ok isnew
         ∧ series_ge y 5 = Ok est
         ∧ new = [("years_in_business", y);
                  ("is_new_business", astype_int isnew);
                  ("is_established", astype_int est)]).
Proof.
  unfold maturity_features.
  destruct (has_col df "year_established").
  - destruct (rsub _ _) as [y|]; cbn [mbind res_bind]; [|discriminate].
    assert (Hy : ∀ y, col (<["years_in_business" := y]> df) "years_in_business" = y).
    { intros y'. unfold col. by rewrite lookup_insert_eq. }
    rewrite !Hy.
    destruct (series_lt _ _) as [isnew|] eqn:Hn; cbn [mbind res_bind];
      [|discriminate].
    destruct (series_ge _ _) as [est|] eqn:He; cbn [mbind res_bind];
      [|discriminate].
    intros [= <- <-]. eexists. split; [reflexivity|].
    split; [reflexivity|]. split.
    + intros c Hc. by rewrite lookup_insert_ne.
    + intros _. by exists y, isnew, est.
  - intros [= <- <-]. exists []. split; [by rewrite app_nil_r|].
    split; [reflexivity|]. split; done.
Qed.

Lemma col_lookup (df : gmap string pyval) (c : string) (v : pyval) :
  df !! c = Some v → col df c = v ∧ has_col df c = true.
Proof.
  intros H. unfold col, has_col. rewrite H. split; [done|].
  by apply bool_decide_eq_true_2.
Qed.


Lemma cell_staff_None (staff : features_t) (a b : bool) (n : string) :
  column_names staff =
    group a (["number_of_staff"] ++ group b ["doctor_to_staff_ratio"]) →
  n ≠ "number_of_staff" → n ≠ "doctor_to_staff_ratio" →
  cell staff n = None.
Proof.
  intros Hc H1 H2. apply cell_None. rewrite Hc.
  destruct a, b; cbn; intros Hin;
    repeat (apply elem_of_cons in Hin as [Hin|Hin]; [done|]);
    by apply elem_of_nil in Hin.
Qed.

(** Look a cell up in the engineered frame: unfold the frame block by
    block and skip the blocks that do not assign the name. *)
Ltac lookup_cell :=
  repeat match goal with
         | Hf : ?f = (_ ++ _)%list |- context [cell ?f _] =>
             rewrite Hf, cell_app
         end;
  repeat match goal with
         | Hc : column_names ?b = group ?c ?names |- context [cell ?b ?n] =>
             first
               [ rewrite (cell_None b n)
                   by (rewrite Hc; apply not_in_group; absent)
               | rewrite (cell_staff_None b _ _ n Hc) by done ]
         end;
  cbn [cell].

(** The raw column [c] holds [v] in the frame [df] as well. *)
Ltac raw_column df c v Hcol Hhas :=
  assert (col df c = v ∧ has_col df c = true) as [Hcol Hhas]
    by (apply col_lookup;
        repeat match goal with
               | Hdf : ∀ c, _ → ?d !! c = _ |- ?d !! _ = _ =>
                   rewrite Hdf; [|first [done | absent]]
               end; assumption).

(** Enter the block guarded by the raw column [c], which holds [v]. *)
Ltac enter_block c v :=
  match goal with
  | Hb : has_col ?df c = true → _ |- _ =>
      let Hcol := fresh "Hcol" in
      let Hhas := fresh "Hhas" in
      raw_column df c v Hcol Hhas;
      specialize (Hb Hhas); rewrite ?Hcol in Hb;
      unfold str_len, str_test in Hb
  end.

Ltac text_field c v :=
  enter_block c v;
  match goal with
  | Hb : _ = Ok _ |- ∃ s, str_of_filled v = Ok s =>
      destruct (str_of_filled v) as [s|];
      [by exists s | cbn [mbind res_bind] in Hb; discriminate Hb]
  end.

Ltac found := cbn [cell String.eqb Ascii.eqb Bool.eqb]; reflexivity.

(** The cells of the engineered frame, block by block, in terms of the
    raw record: what each guarded block of [engineer_features] stores
    when its column is present, and that a text column which let the
    block through held a string or nothing. *)
Lemma engineered_cells (E : environment) (clinic_data : gmap string pyval)
      (X : features_t) :
  engineered E clinic_data = Some X →
  cell X "is_late_night" =
    (if has_col clinic_data "submission_timestamp"
     then Some (VNum 0) else None)
  ∧ (∀ c v,
        c ∈ ["clinic_name"; "website"; "phone"; "email"; "license_number";
             "accreditation"; "tax_id"; "address"; "city"; "state";
             "zip_code"; "description"] →
        clinic_data !! c = Some v → ∃ s, str_of_filled v = Ok s)
  ∧ (∀ v, clinic_data !! "website" = Some v →
          cell X "has_website" = Some (astype_int (notna v)))
  ∧ (∀ v, clinic_data !! "email" = Some v →
          cell X "email_domain_type" =
          Some (VStr (_classify_email_domain (fillna v (VStr "")))))
  ∧ (∀ v, clinic_data !! "license_number" = Some v →
          ∃ s, str_of_filled v = Ok s
               ∧ cell X "has_license" = Some (astype_int (notna v))
               ∧ cell X "license_length" = Some (VNat (Str.len s))
               ∧ cell X "license_format_valid" =
                 Some (astype_int (Str.match_license s)))
  ∧ (∀ v, clinic_data !! "year_established" = Some v →
          ∃ y isnew est,
            rsub (current_year E) (fillna v (VInt (current_year E))) = Ok y
            ∧ series_lt y 1 = Ok isnew
            ∧ series_ge y 5 = Ok est
            ∧ cell X "years_in_business" = Some y
            ∧ cell X "is_new_business" = Some (astype_int isnew)
            ∧ cell X "is_established" = Some (astype_int est))
  ∧ (∀ v, clinic_data !! "number_of_doctors" = Some v →
          ∃ large,
            series_gt v 10 = Ok large
            ∧ cell X "number_of_doctors" = Some (fillna v (VNum 1))
            ∧ cell X "is_solo_practice" = Some (astype_int (series_eq v 1))
            ∧ cell X "is_large_clinic" = Some (astype_int large))
  ∧ (∀ s d, clinic_data !! "number_of_staff" = Some s →
            clinic_data !! "number_of_doctors" = Some d →
            ∃ r, div s (replace_0_1 d) = Ok r
                 ∧ cell X "number_of_staff" = Some (fillna s (VNum 0))
                 ∧ cell X "doctor_to_staff_ratio" = Some r)
  ∧ (forallb (has_col clinic_data) location_cols = true →
     cell X "address_completeness" =
     Some (VNum (inject_Z (Z.of_nat
                   (length (List.filter (fun c => notna (col clinic_data c))
                                        location_cols))) / 4)))
  ∧ (∀ v, clinic_data !! "description" = Some v →
          cell X "description_quality" =
          Some (VNum (_calculate_text_quality (fillna v (VStr ""))))).
Proof.
  intros H. apply engineered_Some in H as [df H].
  unfold engineer_features in H.
  destruct (submission_features E clinic_data []) as [[df1 fsub]|] eqn:H1;
    cbn [mbind res_bind] in H; [|discriminate H].
  apply submission_features_inv in H1 as (sub & Efsub & Hsub & Hdf1 & Hlate).
  do 7 block H.
  destruct (foldlM (location_features df1) _ _) as [floc|] eqn:H2;
    cbn [mbind res_bind] in H; [|discriminate H].
  unfold location_cols, location_features in H2. cbn [foldlM] in H2.
  do 4 block H2. injection H2 as <-.
  do 2 block H.
  destruct (maturity_features E df1 _) as [[df2 fmat]|] eqn:H3;
    cbn [mbind res_bind] in H; [|discriminate H].
  apply maturity_features_inv in H3 as (mat & Efmat & Hmat & Hdf2 & Hyears).
  block H.
  destruct (when_ (has_col df2 "number_of_staff") _ _) as [fstaff|] eqn:H4;
    cbn [mbind res_bind] in H; [|discriminate H].
  eapply (when_inv _ _ _ _
            (["number_of_staff"]
             ++ group (has_col df2 "number_of_doctors")
                      ["doctor_to_staff_ratio"])) in H4.
  2:{ intros cols. destruct (has_col df2 "number_of_doctors").
      - destruct (div _ _); cbn [mbind res_bind]; [|discriminate].
        by intros [= <-].
      - by intros [= <-]. }
  destruct H4 as (staff & Efstaff & Hstaff & Hbstaff).
  destruct (foldlM (service_features E df2) _ _) as [fserv|] eqn:H5;
    cbn [mbind res_bind] in H; [|discriminate H].
  unfold service_cols, service_features in H5. cbn [foldlM] in H5.
  do 4 block H5. injection H5 as <-.
  do 6 block H.
  injection H as <- <-.
  repeat apply conj.
  - (* the submission block comes first *)
    repeat match goal with
           | Hf : ?f = (_ ++ _)%list |- context [cell ?f _] =>
               rewrite Hf, cell_app
           end.
    cbn [cell]. rewrite Hlate.
    destruct (has_col clinic_data "submission_timestamp"); [reflexivity|].
    repeat match goal with
           | Hc : column_names ?b = group ?c ?names |- context [cell ?b ?n] =>
               first
                 [ rewrite (cell_None b n)
                     by (rewrite Hc; apply not_in_group; absent)
                 | rewrite (cell_staff_None b _ _ n Hc) by done ]
           end.
    reflexivity.
  - intros c v Hc' Hv.
    repeat (apply elem_of_cons in Hc' as [->|Hc']);
      [..|by apply elem_of_nil in Hc'];
      match type of Hv with _ !! ?c = _ => text_field c v end.
  - intros v Hv. enter_block "website" v.
    destruct (str_of_filled v) as [s|]; cbn [mbind res_bind] in Hb0;
      [|discriminate Hb0].
    injection Hb0 as <-. lookup_cell. found.
  - intros v Hv. enter_block "email" v.
    destruct (str_of_filled v) as [s|]; cbn [mbind res_bind] in Hb2;
      [|discriminate Hb2].
    injection Hb2 as <-. lookup_cell. found.
  - intros v Hv. enter_block "license_number" v.
    destruct (str_of_filled v) as [s|]; cbn [mbind res_bind] in Hb3;
      [|discriminate Hb3].
    injection Hb3 as <-. exists s. split; [done|].
    repeat split; lookup_cell; found.
  - intros v Hv.
    raw_column df1 "year_established" v Hcol Hhas.
    destruct (Hyears Hhas) as (y & isnew & est & Hy & Hn & He & ->).
    rewrite Hcol in Hy. exists y, isnew, est.
    repeat split; try done; lookup_cell; found.
  - intros v Hv. enter_block "number_of_doctors" v.
    destruct (series_gt v 10) as [large|]; cbn [mbind res_bind] in Hb12;
      [|discriminate Hb12].
    injection Hb12 as <-. exists large. split; [done|].
    repeat split; lookup_cell; found.
  - intros s d Hs Hd.
    raw_column df2 "number_of_staff" s Hcol Hhas.
    raw_column df2 "number_of_doctors" d Hcol' Hhas'.
    specialize (Hbstaff Hhas). rewrite Hhas', Hcol, Hcol' in Hbstaff.
    destruct (div s (replace_0_1 d)) as [r|]; cbn [mbind res_bind] in Hbstaff;
      [|discriminate Hbstaff].
    injection Hbstaff as <-. exists r. split; [done|].
    split; lookup_cell; found.
  - intros Hall.
    match goal with
    | Hb : forallb (has_col _) location_cols = true → _ |- _ =>
        cbn [forallb location_cols List.filter] in Hb, Hall |- *;
        unfold col in Hb;
        rewrite !(has_col_ext clinic_data df1) in Hb by (apply Hdf1; absent);
        rewrite !Hdf1 in Hb by absent;
        specialize (Hb Hall); injection Hb as <-
    end.
    lookup_cell. found.
  - intros v Hv. enter_block "description" v.
    destruct (str_of_filled v) as [s|]; cbn [mbind res_bind] in Hb22;
      [|discriminate Hb22].
    injection Hb22 as <-. lookup_cell. found.
Qed.

Lemma when_raise (cond : bool) (features : features_t)
      (body : res features_t) (e : exn) :
  when_ cond features body = Raise e → cond = true ∧ body = Raise e.
Proof.
  unfold when_. destruct cond; [|discriminate].
  destruct body; cbn; [discriminate|]. by intros [= ->].
Qed.

Lemma has_col_Some (df : gmap string pyval) (c : string) :
  has_col df c = true → ∃ v, df !! c = Some v ∧ col df c = v.
Proof.
  unfold has_col, col. intros H. apply bool_decide_eq_true_1 in H as [v Hv].
  exists v. by rewrite Hv.
Qed.

Lemma submission_features_raise (E : environment) (df : gmap string pyval)
      (features : features_t) (e : exn) :
  submission_features E df features = Raise e →
  ∃ v, df !! "submission_timestamp" = Some v ∧ to_datetime E v = Raise e.
Proof.
  unfold submission_features.
  destruct (has_col df "submission_timestamp") eqn:Hc; [|discriminate].
  apply has_col_Some in Hc as (v & Hv & ->).
  destruct (to_datetime E v) as [t|e'] eqn:Ht; cbn [mbind res_bind];
    [discriminate|].
  intros [= ->]. by exists v.
Qed.

Lemma maturity_features_raise (E : environment) (df : gmap string pyval)
      (features : features_t) (e : exn) :
  maturity_features E df features = Raise e →
  ∃ v, df !! "year_established" = Some v ∧ ¬ countable v.
Proof.
  unfold maturity_features.
  destruct (has_col df "year_established") eqn:Hc; [|discriminate].
  apply has_col_Some in Hc as (v & Hv & ->).
  intros H. exists v. split; [done|]. intros Hcount.
  assert (Hy : ∀ y, col (<["years_in_business" := y]> df) "years_in_business" = y).
  { intros y'. unfold col. by rewrite lookup_insert_eq. }
  destruct v; try destruct Hcount; cbn in H; rewrite ?Hy in H; cbn in H;
    discriminate H.
Qed.

(** A guarded block whose body raised: the guarding column is there and
    its value, the same as in the raw record, breaks the typing. *)
Ltac ill_typed Hf Htext Hnum :=
  let Hhas := fresh "Hhas" in
  let Hbody := fresh "Hbody" in
  apply when_raise in Hf as [Hhas Hbody];
  try discriminate Hbody;
  lazymatch type of Hhas with
  | has_col ?df ?c = true =>
      let v := fresh "v" in
      let Hv := fresh "Hv" in
      let Hcol := fresh "Hcol" in
      apply has_col_Some in Hhas as (v & Hv & Hcol);
      rewrite Hcol in Hbody;
      repeat match type of Hv with
             | ?d !! _ = _ =>
                 match goal with
                 | Hdf : ∀ c, _ → d !! c = _ |- _ =>
                     rewrite Hdf in Hv by first [done | absent]
                 end
             end;
      first
        [ specialize (Htext c v
                        ltac:(unfold text_columns;
                              repeat first [by apply elem_of_cons; left
                                           |apply elem_of_cons; right]) Hv)
        | specialize (Hnum c v
                        ltac:(unfold number_columns;
                              repeat first [by apply elem_of_cons; left
                                           |apply elem_of_cons; right]) Hv) ];
      destruct v; try contradiction; cbn in Hbody; discriminate Hbody
  end.

Ltac typed_block H Htext Hnum :=
  let f := fresh "f" in
  let Hf := fresh "Hf" in
  let new := fresh "new" in
  let Hc := fresh "Hc" in
  let Hb := fresh "Hb" in
  match type of H with
  | mbind _ ?e = Raise _ =>
      destruct e as [f|] eqn:Hf; cbn [mbind res_bind] in H;
      [ eapply when_inv in Hf; [|assigned_columns];
        destruct Hf as (new & Hf & Hc & Hb);
        cbn [String.append] in Hc
      | exfalso; ill_typed Hf Htext Hnum ]
  end.

(** No statement of [engineer_features] raises on a well-typed record:
    every block that could raise is followed to the value that made it
    raise, which the typing excludes. *)
Lemma well_typed_features (E : environment) (clinic_data : gmap string pyval) :
  well_typed E clinic_data →
  ∃ X, engineered E clinic_data = Some X.
Proof.
  intros (Htime & Htext & Hsized). unfold engineered.
  assert (Hnum : ∀ c v, c ∈ number_columns → clinic_data !! c = Some v →
                        countable v)
    by (intros c v Hc Hv; exact (proj1 (Hsized c v Hc Hv))).
  clear Hsized.
  destruct (engineer_features E clinic_data) as [[df X]|e] eqn:H; [by eexists|].
  exfalso. unfold engineer_features in H.
  destruct (submission_features E clinic_data []) as [[df1 fsub]|e1] eqn:H1;
    cbn [mbind res_bind] in H.
  2:{ apply submission_features_raise in H1 as (v & Hv & Ht).
      destruct (Htime v Hv) as [t Ht']. congruence. }
  apply submission_features_inv in H1 as (sub & Efsub & Hsub & Hdf1 & Hlate).
  do 7 typed_block H Htext Hnum.
  destruct (foldlM (location_features df1) _ _) as [floc|e2] eqn:H2;
    cbn [mbind res_bind] in H;
    unfold location_cols, location_features in H2; cbn [foldlM] in H2.
  2:{ do 4 typed_block H2 Htext Hnum. discriminate H2. }
  do 4 block H2. injection H2 as <-.
  do 2 typed_block H Htext Hnum.
  destruct (maturity_features E df1 _) as [[df2 fmat]|e3] eqn:H3;
    cbn [mbind res_bind] in H.
  2:{ apply maturity_features_raise in H3 as (v & Hv & Hbad).
      rewrite Hdf1 in Hv by absent. apply Hbad.
      apply (Hnum "year_established" v); [|done].
      apply elem_of_cons. by left. }
  apply maturity_features_inv in H3 as (mat & Efmat & Hmat & Hdf2 & Hyears).
  typed_block H Htext Hnum.
  destruct (when_ (has_col df2 "number_of_staff") _ _) as [fstaff|e4] eqn:H4;
    cbn [mbind res_bind] in H.
  2:{ apply when_raise in H4 as [Hhas Hbody].
      apply has_col_Some in Hhas as (s & Hs & Hcs). rewrite Hcs in Hbody.
      rewrite Hdf2, Hdf1 in Hs by first [done | absent].
      destruct (has_col df2 "number_of_doctors") eqn:Hd; [|discriminate Hbody].
      apply has_col_Some in Hd as (d & Hd & Hcd). rewrite Hcd in Hbody.
      rewrite Hdf2, Hdf1 in Hd by first [done | absent].
      assert (Hts : countable s).
      { apply (Hnum "number_of_staff" s); [|done].
        do 2 (apply elem_of_cons; right). apply elem_of_cons. by left. }
      assert (Htd : countable d).
      { apply (Hnum "number_of_doctors" d); [|done].
        apply elem_of_cons; right. apply elem_of_cons. by left. }
      destruct s; try contradiction; destruct d; try contradiction;
        cbn in Hbody; try discriminate Hbody;
        destruct (Qeq_bool _ 0); discriminate Hbody. }
  eapply (when_inv _ _ _ _
            (["number_of_staff"]
             ++ group (has_col df2 "number_of_doctors")
                      ["doctor_to_staff_ratio"])) in H4.
  2:{ intros cols. destruct (has_col df2 "number_of_doctors").
      - destruct (div _ _); cbn [mbind res_bind]; [|discriminate].
        by intros [= <-].
      - by intros [= <-]. }
  destruct H4 as (staff & Efstaff & Hstaff & Hbstaff).
  destruct (foldlM (service_features E df2) _ _) as [fserv|e5] eqn:H5;
    cbn [mbind res_bind] in H;
    unfold service_cols, service_features in H5; cbn [foldlM] in H5.
  2:{ do 4 typed_block H5 Htext Hnum. discriminate H5. }
  do 4 block H5. injection H5 as <-.
  match type of H with
  | mbind _ (when_ ?c ?f ?body) = Raise _ =>
      destruct (when_ c f body) as [fspec|e6] eqn:H6;
        cbn [mbind res_bind] in H
  end.
  2:{ apply when_raise in H6 as [Hhas Hbody].
      apply andb_true_iff in Hhas as [_ Hhas].
      match goal with
      | Hb : has_col df2 "custom_specialties" = true → _ |- _ =>
          specialize (Hb Hhas); injection Hb as <-
      end.
      match type of Hbody with
      | context [cell ?f "custom_specialties_count"] =>
          assert (Hcell : cell f "custom_specialties_count"
                          = Some (VNat (_count_array_items E
                                          (fillna (col df2 "custom_specialties")
                                                  (VStr "[]")))))
      end.
      { lookup_cell. found. }
      rewrite Hcell in Hbody. discriminate Hbody. }
  eapply when_inv in H6; [|assigned_columns].
  destruct H6 as (spec & Efspec & Hspec & Hbspec).
  do 5 typed_block H Htext Hnum.
  discriminate H.
Qed.


End EngineeredCells.

Section EngineeredInvariants.
Import Pandas Sklearn ClinicRiskModel.

(** The hour test [between(22, 6)] holds for no hour, so the late-night
    feature is 0 whenever it is there. *)
Theorem late_night_feature_is_always_zero (E : environment)
        (clinic_data : gmap string pyval) (X : features_t) :
  engineered E clinic_data = Some X →
  cell X "is_late_night" =
    (if has_col clinic_data "submission_timestamp"
     then Some (VNum 0) else None).
Proof.
  intros H. by apply engineered_cells in H as (H & _).
Qed.

Lemma late_night_feature_is_always_zero_witness :
  ∃ X,
    engineered Scenarios.night_env Scenarios.late_submission = Some X
    ∧ cell X "is_late_night" =
        (if has_col Scenarios.late_submission "submission_timestamp"
         then Some (VNum 0) else None).
Proof.
  eexists. split; [vm_compute; reflexivity|].
  apply (late_night_feature_is_always_zero Scenarios.night_env).
  vm_compute. reflexivity.
Defined.



(** Practice scale: a missing doctor count is stored as 1 but the
    clinic is not counted as a solo practice; with a count, the clinic is
    solo exactly at 1 and large above 10, and the staff ratio is the
    staff count divided by the doctor count, a count of 0 being replaced
    by 1: no division by zero. *)
Theorem practice_scale_features (E : environment)
        (clinic_data : gmap string pyval) (X : features_t) (v : pyval) :
  engineered E clinic_data = Some X →
  clinic_data !! "number_of_doctors" = Some v →
  (notna v = false →
   cell X "number_of_doctors" = Some (VNum 1)
   ∧ cell X "is_solo_practice" = Some (VNum 0)
   ∧ cell X "is_large_clinic" = Some (VNum 0))
  ∧ (∀ q, v = VNum q →
          cell X "number_of_doctors" = Some (VNum q)
          ∧ cell X "is_solo_practice"
            = Some (VNum (if Qeq_bool q 1 then 1 else 0))
          ∧ cell X "is_large_clinic"
            = Some (VNum (if Qltb 10 q then 1 else 0))
          ∧ Qeq_bool q 1 && Qltb 10 q = false
          ∧ ∀ staff, clinic_data !! "number_of_staff" = Some (VNum staff) →
                     cell X "doctor_to_staff_ratio"
                     = Some (VNum (staff / (if Qeq_bool q 0 then 1 else q)))).
Proof.
  intros H Hv.
  apply engineered_cells in H as (_ & _ & _ & _ & _ & _ & H & Hratio & _).
  destruct (H v Hv) as (large & Hl & Hc1 & Hc2 & Hc3). clear H.
  split.
  - intros Hna. rewrite Hc1, Hc2, Hc3.
    destruct v; try discriminate; cbn in Hl; injection Hl as <-; done.
  - intros q ->. cbn in Hl. injection Hl as <-.
    rewrite Hc1, Hc2, Hc3. do 3 (split; [done|]). split.
    + destruct (Qeq_bool q 1) eqn:H1; [|done].
      destruct (Qltb 10 q) eqn:H10; [|done].
      apply Qeq_bool_iff in H1. apply Qltb_lt in H10. lra.
    + intros staff Hs.
      destruct (Hratio _ _ Hs Hv) as (r & Hr & _ & Hc). rewrite Hc.
      cbn in Hr. destruct (Qeq_bool q 0); by injection Hr as <-.
Qed.

Lemma practice_scale_features_witness :
  ∃ X,
    engineered Scenarios.env Scenarios.staffed_clinic = Some X
    ∧ Scenarios.staffed_clinic !! "number_of_doctors" = Some (VNum 0)
    ∧ Scenarios.staffed_clinic !! "number_of_staff" = Some (VNum 6)
    ∧ cell X "number_of_doctors" = Some (VNum 0)
    ∧ cell X "is_solo_practice" = Some (VNum 0)
    ∧ cell X "is_large_clinic" = Some (VNum 0)
    ∧ cell X "doctor_to_staff_ratio" = Some (VNum (6 / 1)).
Proof.
  eexists. split; [vm_compute; reflexivity|].
  assert (Hd : Scenarios.staffed_clinic !! "number_of_doctors"
               = Some (VNum 0)) by (vm_compute; reflexivity).
  assert (Hs : Scenarios.staffed_clinic !! "number_of_staff"
               = Some (VNum 6)) by (vm_compute; reflexivity).
  split; [exact Hd|]. split; [exact Hs|].
  destruct (practice_scale_features Scenarios.env Scenarios.staffed_clinic
              _ (VNum 0) ltac:(vm_compute; reflexivity) Hd) as [_ H].
  destruct (H 0 eq_refl) as (H1 & H2 & H3 & _ & H5).
  split; [exact H1|]. split; [exact H2|]. split; [exact H3|].
  exact (H5 6 Hs).
Defined.

(** The licence features follow the null test: every string, the
    empty one included, counts as a licence, whereas the simple API
    tests the truth value and counts the empty string as none.  The
    licence length is the number of characters (code points) of the
    string. *)
Theorem licence_presence_is_the_null_test (E : environment)
        (clinic_data : gmap string pyval) (X : features_t) (v : pyval) :
  engineered E clinic_data = Some X →
  clinic_data !! "license_number" = Some v →
  cell X "has_license" = Some (VNum (if notna v then 1 else 0))
  ∧ (∀ s, v = VStr s →
          cell X "has_license" = Some (VNum 1)
          ∧ cell X "license_length" = Some (VNat (Str.len s))
          ∧ cell X "license_format_valid"
            = Some (VNum (if Str.match_license s then 1 else 0))
          ∧ SimpleApi.present clinic_data "license_number"
            = VNum (if String.eqb s "" then 0 else 1)).
Proof.
  intros H Hv.
  apply engineered_cells in H as (_ & _ & _ & _ & H & _).
  destruct (H v Hv) as (s' & Hs' & Hc1 & Hc2 & Hc3). clear H.
  split; [exact Hc1|].
  intros s ->. cbn in Hs'. injection Hs' as <-.
  repeat split; try done.
  unfold SimpleApi.present, get. rewrite Hv. cbn.
  by destruct (String.eqb s "").
Qed.

Lemma licence_presence_is_the_null_test_witness :
  (∃ X,
      engineered Scenarios.env Scenarios.sparse_clinic = Some X
      ∧ Scenarios.sparse_clinic !! "license_number" = Some (VStr "")
      ∧ cell X "has_license" = Some (VNum 1)
      ∧ cell X "license_format_valid" = Some (VNum 0)
      ∧ SimpleApi.present Scenarios.sparse_clinic "license_number" = VNum 0)
  ∧ (∃ X,
        engineered Scenarios.env Scenarios.accented_licence_clinic = Some X
        ∧ Scenarios.accented_licence_clinic !! "license_number"
          = Some (VStr "ÑA12345")
        ∧ String.length "ÑA12345" = 8%nat
        ∧ cell X "license_length" = Some (VNum 7)
        ∧ cell X "license_format_valid" = Some (VNum 0)).
Proof.
  split.
  - eexists. split; [vm_compute; reflexivity|].
    split; [vm_compute; reflexivity|].
    pose proof (licence_presence_is_the_null_test Scenarios.env
                  Scenarios.sparse_clinic _ (VStr "")
                  ltac:(vm_compute; reflexivity)
                  ltac:(vm_compute; reflexivity)) as [_ H].
    destruct (H "" eq_refl) as (H1 & _ & H3 & H4).
    split; [exact H1|]. split; [exact H3 | exact H4].
  - eexists. split; [vm_compute; reflexivity|].
    split; [vm_compute; reflexivity|]. split; [reflexivity|].
    pose proof (licence_presence_is_the_null_test Scenarios.env
                  Scenarios.accented_licence_clinic _ (VStr "ÑA12345")
                  ltac:(vm_compute; reflexivity)
                  ltac:(vm_compute; reflexivity)) as [_ H].
    destruct (H "ÑA12345" eq_refl) as (_ & H2 & H3 & _).
    split; [exact H2 | exact H3].
Defined.

(** A number in a text field makes feature engineering raise, so the
    record gets no assessment, and the endpoint answers 500. *)
Theorem number_in_text_field_fails_the_assessment (E : environment)
        (self : t) (clinic_data : gmap string pyval) (c : string) (q : Q) :
  c ∈ ["clinic_name"; "website"; "phone"; "email"; "license_number";
       "accreditation"; "tax_id"; "address"; "city"; "state";
       "zip_code"; "description"] →
  clinic_data !! c = Some (VNum q) →
  engineered E clinic_data = None
  ∧ snd (predict_risk E self (JObject clinic_data)) = None
  ∧ (clinic_data !! "clinic_name" ≠ None →
     clinic_data !! "email" ≠ None →
     snd (ApiIntegration.assess_risk E self true clinic_data)
     = (ApiIntegration.Failure "Prediction failed"
                               "Unable to complete risk assessment", 500%Z)).
Proof.
  intros Hc Hv.
  assert (He : engineered E clinic_data = None).
  { destruct (engineered E clinic_data) as [X|] eqn:HX; [|done].
    apply engineered_cells in HX as (_ & H & _).
    destruct (H c _ Hc Hv) as (s & Hs). discriminate Hs. }
  assert (Hp : snd (predict_risk E self (JObject clinic_data)) = None).
  { unfold predict_risk. destruct (model self) as [pipeline|]; [|done].
    unfold predict_risk_try, predict_risk_frame.
    unfold engineered in He.
    by destruct (engineer_features E clinic_data) as [[df X]|e]. }
  split; [done|]. split; [done|].
  intros Hn Hm. by apply assess_risk_reports_failed_prediction.
Qed.

Lemma number_in_text_field_fails_the_assessment_witness :
  "phone" ∈ ["clinic_name"; "website"; "phone"; "email"; "license_number";
             "accreditation"; "tax_id"; "address"; "city"; "state";
             "zip_code"; "description"]
  ∧ Scenarios.numeric_phone_clinic !! "phone" = Some (VNum 5550123)
  ∧ engineered Scenarios.env Scenarios.numeric_phone_clinic = None
  ∧ snd (predict_risk Scenarios.env Scenarios.low_model
                      (JObject Scenarios.numeric_phone_clinic)) = None.
Proof.
  assert (Hin : "phone" ∈ ["clinic_name"; "website"; "phone"; "email";
                           "license_number"; "accreditation"; "tax_id";
                           "address"; "city"; "state"; "zip_code";
                           "description"])
    by (do 2 (apply elem_of_cons; right); apply elem_of_cons; by left).
  assert (Hv : Scenarios.numeric_phone_clinic !! "phone" = Some (VNum 5550123))
    by (vm_compute; reflexivity).
  split; [exact Hin|]. split; [exact Hv|].
  destruct (number_in_text_field_fails_the_assessment
              Scenarios.env Scenarios.low_model Scenarios.numeric_phone_clinic
              "phone" 5550123 Hin Hv) as (H1 & H2 & _).
  split; [exact H1 | exact H2].
Defined.

Lemma calculate_text_quality_bounds (text : pyval) :
  0 <= _calculate_text_quality text <= 1.
Proof.
  unfold _calculate_text_quality.
  destruct text as [| |q|s|h d]; try (split; discriminate).
  destruct (Str.len s =? 0)%nat; [split; discriminate|].
  set (k := inject_Z (Z.of_nat (length _))).
  assert (Hk : 0 <= k).
  { subst k. change 0 with (inject_Z 0). rewrite <- Zle_Qle. lia. }
  cbv zeta. unfold py_min.
  repeat match goal with
         | |- context [Qltb ?a ?b] =>
             let H := fresh "H" in
             destruct (Qltb a b) eqn:H;
             [apply Qltb_lt in H
             |apply not_true_iff_false in H; rewrite Qltb_lt in H]
         | |- context [(?a <? ?b)%nat] => destruct (a <? b)%nat
         end; lra.
Qed.

(** The two quality features are fractions: the description quality
    and the address completeness lie between 0 and 1. *)
Theorem quality_features_are_fractions (E : environment)
        (clinic_data : gmap string pyval) (X : features_t) :
  engineered E clinic_data = Some X →
  (∀ v, clinic_data !! "description" = Some v →
        ∃ q, cell X "description_quality" = Some (VNum q) ∧ 0 <= q <= 1)
  ∧ (forallb (has_col clinic_data) location_cols = true →
     ∃ q, cell X "address_completeness" = Some (VNum q) ∧ 0 <= q <= 1).
Proof.
  intros H.
  apply engineered_cells in H as (_ & _ & _ & _ & _ & _ & _ & _ & Ha & Hd).
  split.
  - intros v Hv. eexists. split; [by apply Hd|].
    apply calculate_text_quality_bounds.
  - intros Hall. eexists. split; [by apply Ha|].
    unfold location_cols. cbn [List.filter].
    repeat match goal with
           | |- context [notna ?v] => destruct (notna v)
           end; vm_compute; split; discriminate.
Qed.

Lemma quality_features_are_fractions_witness :
  ∃ X,
    engineered Scenarios.env Scenarios.staffed_clinic = Some X
    ∧ (∃ q, cell X "description_quality" = Some (VNum q) ∧ 0 <= q <= 1)
    ∧ (∃ q, cell X "address_completeness" = Some (VNum q) ∧ 0 <= q <= 1).
Proof.
  eexists. split; [vm_compute; reflexivity|].
  destruct (quality_features_are_fractions Scenarios.env
              Scenarios.staffed_clinic _ ltac:(vm_compute; reflexivity))
    as [Hd Ha].
  split.
  - apply (Hd (VStr "Medical care for patients.")). vm_compute. reflexivity.
  - apply Ha. vm_compute. reflexivity.
Defined.

(** Feature engineering is total on well-typed records: when the
    timestamp parses, the text fields hold strings and the counts and
    measurements hold numbers that fit 64 bits (any of them may be null
    or absent), [engineer_features] returns, with the columns its input
    calls for. *)
Theorem well_typed_records_are_engineered (E : environment)
        (clinic_data : gmap string pyval) :
  well_typed E clinic_data →
  ∃ X, engineered E clinic_data = Some X
       ∧ column_names X = engineered_columns clinic_data.
Proof.
  intros H. apply well_typed_features in H as [X H].
  exists X. split; [done|].
  apply engineered_Some in H as [df H].
  by apply engineer_features_columns in H as [H _].
Qed.

Lemma well_typed_records_are_engineered_witness :
  well_typed Scenarios.env Scenarios.staffed_clinic
  ∧ ∃ X, engineered Scenarios.env Scenarios.staffed_clinic = Some X
         ∧ column_names X = engineered_columns Scenarios.staffed_clinic.
Proof.
  assert (H : well_typed Scenarios.env Scenarios.staffed_clinic).
  { split; [|split].
    - intros v Hv. vm_compute in Hv. discriminate Hv.
    - intros c v Hc Hv. unfold text_columns in Hc.
      repeat (apply elem_of_cons in Hc as [->|Hc];
              [vm_compute in Hv;
               first [discriminate Hv | injection Hv as <-; exact I]|]).
      by apply elem_of_nil in Hc.
    - intros c v Hc Hv. unfold number_columns in Hc.
      repeat (apply elem_of_cons in Hc as [->|Hc];
              [vm_compute in Hv;
               first [discriminate Hv
                     | injection Hv as <-;
                       split; [exact I | split; [discriminate | reflexivity]]]|]).
      by apply elem_of_nil in Hc. }
  split; [exact H|].
  exact (well_typed_records_are_engineered Scenarios.env
           Scenarios.staffed_clinic H).
Defined.

End EngineeredInvariants.

Section EncoderState.
Import Pandas Sklearn ClinicRiskModel.

Lemma encode_grows (X : features_t) (encoders : gmap string (list string))
      (c : string) (classes : list string) :
  encoders !! c = Some classes →
  (_encode_categorical_features encoders X).1 !! c = Some classes.
Proof.
  revert encoders. induction X as [|[k v] X IH]; intros encoders Hc; [done|].
  cbn [_encode_categorical_features].
  destruct (is_object v).
  - destruct (encoders !! k) as [cl|] eqn:Hk.
    + destruct (index_of _ cl); [|done].
      specialize (IH encoders Hc).
      by destruct (_encode_categorical_features encoders X).
    + assert (Hne : k ≠ c) by (intros ->; congruence).
      match goal with
      | |- context [_encode_categorical_features ?m X] =>
          specialize (IH m ltac:(by rewrite lookup_insert_ne));
          by destruct (_encode_categorical_features m X)
      end.
  - specialize (IH encoders Hc).
    by destruct (_encode_categorical_features encoders X).
Qed.

Lemma encode_new (X : features_t) (encoders : gmap string (list string))
      (c : string) (classes : list string) :
  (_encode_categorical_features encoders X).1 !! c = Some classes →
  encoders !! c = None →
  c ∈ column_names X ∧ ∃ label, classes = [label].
Proof.
  revert encoders. induction X as [|[k v] X IH]; intros encoders H Hc.
  { cbn in H. congruence. }
  cbn [_encode_categorical_features] in H.
  assert (Hrest : ∀ encoders',
             (_encode_categorical_features encoders' X).1 !! c = Some classes →
             encoders' !! c = None →
             c ∈ column_names ((k, v) :: X) ∧ ∃ label, classes = [label]).
  { intros encoders' H' Hc'. destruct (IH _ H' Hc') as [Hin Hl].
    split; [|done]. cbn. by apply elem_of_cons; right. }
  destruct (is_object v).
  - destruct (encoders !! k) as [cl|] eqn:Hk.
    + destruct (index_of _ cl).
      * apply (Hrest encoders); [|done].
        by destruct (_encode_categorical_features encoders X).
      * cbn in H. congruence.
    + destruct (decide (k = c)) as [->|Hne].
      * split; [cbn; by apply elem_of_cons; left|].
        match type of H with
        | context [_encode_categorical_features (<[c := ?l]> encoders) X] =>
            exists (hd "" l);
            pose proof (encode_grows X (<[c := l]> encoders) c _
                                     (lookup_insert_eq _ _ _)) as Hg;
            destruct (_encode_categorical_features (<[c := l]> encoders) X)
        end.
        cbn in *. rewrite Hg in H. by injection H as <-.
      * match type of H with
        | context [_encode_categorical_features ?m X] =>
            apply (Hrest m); [|by rewrite lookup_insert_ne];
            by destruct (_encode_categorical_features m X)
        end.
  - apply (Hrest encoders); [|done].
    by destruct (_encode_categorical_features encoders X).
Qed.

(** Inference leaves the pipeline, the training columns and the version
    of the model object alone and never changes a fitted label encoder;
    what it may do is add encoders, each for a training column and
    fitted on a single label. *)
Theorem prediction_only_adds_encoders (E : environment) (self : t)
        (clinic_data : json) :
  let self' := fst (predict_risk E self clinic_data) in
  model self' = model self
  ∧ feature_columns self' = feature_columns self
  ∧ model_version self' = model_version self
  ∧ (∀ c classes, label_encoders self !! c = Some classes →
                  label_encoders self' !! c = Some classes)
  ∧ (∀ c classes, label_encoders self' !! c = Some classes →
                  label_encoders self !! c = None →
                  c ∈ feature_columns self ∧ ∃ label, classes = [label]).
Proof.
  unfold predict_risk.
  destruct (model self) as [pipeline|] eqn:Hm.
  2:{ cbn. do 4 (split; [done|]). intros c classes H1 H2. congruence. }
  unfold predict_risk_try. destruct clinic_data as [d|v].
  2:{ cbn. do 4 (split; [done|]). intros c classes H1 H2. congruence. }
  unfold predict_risk_frame.
  destruct (engineer_features E d) as [[df [|x X']]|e].
  2:{ generalize (x :: X'). intros X.
      pose proof (encode_grows (align (feature_columns self) X)
                               (label_encoders self)) as Hg.
      pose proof (encode_new (align (feature_columns self) X)
                             (label_encoders self)) as Hn.
      rewrite column_names_align in Hn.
      destruct (_encode_categorical_features _ _) as [encoders Xe].
      cbn [fst] in Hg, Hn.
      match goal with
      | |- context [match ?r with Ok _ => _ | Raise _ => _ end] =>
          destruct r as [result|e]
      end; cbn; do 3 (split; [done|]); split; eauto. }
  all: cbn; do 4 (split; [done|]); intros c classes H1 H2; congruence.
Qed.

Lemma encode_again (X : features_t) (encoders encoders' : gmap string (list string))
      (Xe : features_t) :
  _encode_categorical_features encoders X = (encoders', Ok Xe) →
  ∀ later, (∀ c classes, encoders' !! c = Some classes →
                         later !! c = Some classes) →
           _encode_categorical_features later X = (later, Ok Xe).
Proof.
  revert encoders encoders' Xe.
  induction X as [|[k v] X IH]; intros encoders encoders' Xe H later Hl.
  { cbn in *. by injection H as <- <-. }
  cbn [_encode_categorical_features] in *.
  destruct (is_object v).
  - destruct (encoders !! k) as [cl|] eqn:Hk.
    + destruct (index_of _ cl) as [i|] eqn:Hi; [|discriminate H].
      destruct (_encode_categorical_features encoders X) as [e1 [r1|]] eqn:H1;
        cbn [mbind res_bind] in H; [|discriminate H].
      injection H as <- <-.
      rewrite (Hl k cl).
      2:{ pose proof (encode_grows X encoders k cl Hk) as Hg.
          by rewrite H1 in Hg. }
      rewrite Hi. by rewrite (IH _ _ _ H1 later Hl).
    + match type of H with
      | context [_encode_categorical_features (<[k := ?l]> encoders) X] =>
          pose proof (encode_grows X _ k _ (lookup_insert_eq encoders k l))
            as Hg;
          destruct (_encode_categorical_features (<[k := l]> encoders) X)
            as [e1 [r1|]] eqn:H1; cbn [mbind res_bind] in H;
            [|discriminate H]
      end.
      injection H as <- <-. cbn [fst] in Hg.
      rewrite (Hl _ _ Hg).
      cbn [index_of]. rewrite String.eqb_refl.
      by rewrite (IH _ _ _ H1 later Hl).
  - destruct (_encode_categorical_features encoders X) as [e1 [r1|]] eqn:H1;
      cbn [mbind res_bind] in H; [|discriminate H].
    injection H as <- <-.
    by rewrite (IH _ _ _ H1 later Hl).
Qed.

(** A successful prediction can be repeated: on the object it leaves
    behind, the same record gets the same assessment, and the object
    does not change any more. *)
Theorem repeated_prediction_is_stable (E : environment) (self : t)
        (clinic_data : json) (result : risk_assessment) :
  snd (predict_risk E self clinic_data) = Some result →
  let self' := fst (predict_risk E self clinic_data) in
  predict_risk E self' clinic_data = (self', Some result).
Proof.
  unfold predict_risk.
  destruct (model self) as [pipeline|] eqn:Hm; [|discriminate].
  unfold predict_risk_try. destruct clinic_data as [d|v]; [|discriminate].
  unfold predict_risk_frame.
  destruct (engineer_features E d) as [[df [|x X']]|e] eqn:He;
    [discriminate| |discriminate].
  destruct (_encode_categorical_features _ _) as [encoders [Xe|e]] eqn:Hx;
    cbn [mbind res_bind]; [|discriminate].
  destruct (predict pipeline _) as [lvl|e] eqn:Hl; cbn [mbind res_bind];
    [|discriminate].
  destruct (predict_proba pipeline _) as [p|e] eqn:Hp; cbn [mbind res_bind];
    [|discriminate].
  destruct (np_max p) as [c|e] eqn:Hc; cbn [mbind res_bind]; [|discriminate].
  cbn [snd fst]. intros [= <-]. cbn [model label_encoders feature_columns model_version]. rewrite ?Hm, ?He.
  rewrite (encode_again _ _ _ _ Hx encoders) by done.
  cbn [mbind res_bind]. rewrite Hl, Hp. cbn [mbind res_bind]. rewrite Hc.
  reflexivity.
Qed.

Lemma repeated_prediction_is_stable_witness :
  ∃ result,
    snd (predict_risk Scenarios.env Scenarios.fresh_model
                      (JObject Scenarios.solo_clinic)) = Some result
    ∧ predict_risk Scenarios.env
        (fst (predict_risk Scenarios.env Scenarios.fresh_model
                           (JObject Scenarios.solo_clinic)))
        (JObject Scenarios.solo_clinic)
      = (fst (predict_risk Scenarios.env Scenarios.fresh_model
                           (JObject Scenarios.solo_clinic)),
         Some result).
Proof.
  eexists. split; [vm_compute; reflexivity|].
  apply (repeated_prediction_is_stable Scenarios.env Scenarios.fresh_model).
  vm_compute. reflexivity.
Defined.

Lemma index_of_None (s : string) (classes : list string) :
  s ∉ classes → index_of s classes = None.
Proof.
  induction classes as [|c classes IH]; [done|].
  intros H. cbn. destruct (String.eqb_spec c s) as [->|Hne].
  - exfalso. apply H. by apply elem_of_cons; left.
  - rewrite IH; [done|]. intros Hin. apply H. by apply elem_of_cons; right.
Qed.

Lemma encode_unseen (X : features_t) (encoders : gmap string (list string))
      (c s : string) (classes : list string) :
  cell X c = Some (VStr s) →
  encoders !! c = Some classes →
  s ∉ classes →
  ∃ e, (_encode_categorical_features encoders X).2 = Raise e.
Proof.
  revert encoders. induction X as [|[k v] X IH]; intros encoders Hc He Hs.
  { discriminate Hc. }
  cbn [cell] in Hc. cbn [_encode_categorical_features].
  assert (Hrest : ∀ encoders',
             encoders' !! c = Some classes →
             cell X c = Some (VStr s) →
             ∃ e, (_encode_categorical_features encoders' X).2 = Raise e)
    by (intros encoders' He' Hc'; by apply IH).
  destruct (String.eqb_spec k c) as [->|Hne].
  - injection Hc as ->. cbn. rewrite He, (index_of_None _ _ Hs). by eexists.
  - destruct (is_object v).
    + destruct (encoders !! k) as [cl|] eqn:Hk.
      * destruct (index_of _ cl); [|by eexists].
        destruct (Hrest encoders He Hc) as [e Hr].
        destruct (_encode_categorical_features encoders X) as [e1 r1].
        cbn in *. rewrite Hr. by eexists.
      * match goal with
        | |- context [_encode_categorical_features ?m X] =>
            destruct (Hrest m ltac:(by rewrite lookup_insert_ne) Hc) as [e Hr];
            destruct (_encode_categorical_features m X) as [e1 r1]
        end.
        cbn in *. rewrite Hr. by eexists.
    + destruct (Hrest encoders He Hc) as [e Hr].
      destruct (_encode_categorical_features encoders X) as [e1 r1].
      cbn in *. rewrite Hr. by eexists.
Qed.

(** A fitted encoder rejects a label it has not seen: a record whose
    e-mail domain class is not among the classes of the encoder of
    [email_domain_type] gets no assessment. *)
Theorem unseen_email_class_fails_the_assessment (E : environment) (self : t)
        (clinic_data : gmap string pyval) (email : pyval)
        (classes : list string) :
  clinic_data !! "email" = Some email →
  "email_domain_type" ∈ feature_columns self →
  label_encoders self !! "email_domain_type" = Some classes →
  _classify_email_domain (fillna email (VStr "")) ∉ classes →
  snd (predict_risk E self (JObject clinic_data)) = None.
Proof.
  intros Hemail Hcol Henc Hclass.
  unfold predict_risk. destruct (model self) as [pipeline|]; [|done].
  unfold predict_risk_try, predict_risk_frame.
  destruct (engineer_features E clinic_data) as [[df X]|e] eqn:He; [|done].
  assert (HX : engineered E clinic_data = Some X)
    by (unfold engineered; by rewrite He).
  apply engineered_cells in HX as (_ & _ & _ & HX & _).
  specialize (HX _ Hemail).
  destruct X as [|x X']; [done|]. revert HX. generalize (x :: X'). intros X HX.
  destruct (encode_unseen (align (feature_columns self) X)
                          (label_encoders self) "email_domain_type"
                          (_classify_email_domain (fillna email (VStr "")))
                          classes)
    as [e Hr]; try done.
  { rewrite cell_align by done. by rewrite HX. }
  destruct (_encode_categorical_features _ _) as [encoders r].
  cbn in Hr. subst r. reflexivity.
Qed.

Lemma unseen_email_class_fails_the_assessment_witness :
  Scenarios.solo_clinic !! "email" = Some (VStr "dr@clinic.org")
  ∧ "email_domain_type" ∈ feature_columns Scenarios.encoded_model
  ∧ label_encoders Scenarios.encoded_model !! "email_domain_type"
    = Some ["business"; "personal"]
  ∧ _classify_email_domain (fillna (VStr "dr@clinic.org") (VStr ""))
    = "professional"
  ∧ snd (predict_risk Scenarios.env Scenarios.encoded_model
                      (JObject Scenarios.solo_clinic)) = None.
Proof.
  assert (He : Scenarios.solo_clinic !! "email" = Some (VStr "dr@clinic.org"))
    by (vm_compute; reflexivity).
  assert (Hc : "email_domain_type" ∈ feature_columns Scenarios.encoded_model)
    by (apply elem_of_cons; by left).
  assert (Hl : label_encoders Scenarios.encoded_model !! "email_domain_type"
               = Some ["business"; "personal"])
    by (vm_compute; reflexivity).
  assert (Hk : _classify_email_domain (fillna (VStr "dr@clinic.org") (VStr ""))
               = "professional")
    by (vm_compute; reflexivity).
  repeat (split; [assumption|]).
  apply (unseen_email_class_fails_the_assessment
           Scenarios.env Scenarios.encoded_model Scenarios.solo_clinic
           _ _ He Hc Hl).
  rewrite Hk. intros Hin.
  repeat (apply elem_of_cons in Hin as [Hin|Hin]; [discriminate Hin|]).
  by apply elem_of_nil in Hin.
Defined.

Lemma encode_clean (X : features_t) (encoders encoders' : gmap string (list string))
      (Xe : features_t) :
  _encode_categorical_features encoders X = (encoders', Ok Xe) →
  column_names Xe = column_names X
  ∧ Forall (fun v => is_object v = false ∧ notna v = true) (map snd Xe).
Proof.
  revert encoders encoders' Xe.
  induction X as [|[k v] X IH]; intros encoders encoders' Xe H.
  { cbn in H. injection H as <- <-. split; [done|constructor]. }
  cbn [_encode_categorical_features] in H.
  destruct (is_object v) eqn:Hv.
  - destruct (encoders !! k) as [cl|].
    + destruct (index_of _ cl) as [i|]; [|discriminate H].
      destruct (_encode_categorical_features encoders X) as [e1 [r1|]] eqn:H1;
        cbn [mbind res_bind] in H; [|discriminate H].
      injection H as <- <-. destruct (IH _ _ _ H1) as [Hc Hf].
      split; [cbn; by f_equal|]. by constructor.
    + match type of H with
      | context [_encode_categorical_features ?m X] =>
          destruct (_encode_categorical_features m X) as [e1 [r1|]] eqn:H1;
            cbn [mbind res_bind] in H; [|discriminate H]
      end.
      injection H as <- <-. destruct (IH _ _ _ H1) as [Hc Hf].
      split; [cbn; by f_equal|]. by constructor.
  - destruct (_encode_categorical_features encoders X) as [e1 [r1|]] eqn:H1;
      cbn [mbind res_bind] in H; [|discriminate H].
    injection H as <- <-. destruct (IH _ _ _ H1) as [Hc Hf].
    split; [cbn; by f_equal|]. constructor; [|done].
    by destruct v.
Qed.

Lemma Qmax_cases (x y : Q) : Qmax x y = x ∨ Qmax x y = y.
Proof.
  unfold Qmax, GenericMinMax.gmax. destruct (x ?= y); auto.
Qed.

Lemma fold_left_Qmax (rest : list Q) (x : Q) :
  In (fold_left Qmax rest x) (x :: rest)
  ∧ Forall (fun y => y <= fold_left Qmax rest x) (x :: rest).
Proof.
  revert x. induction rest as [|y rest IH]; intros x.
  { cbn. split; [by left|]. constructor; [apply Qle_refl|constructor]. }
  cbn [fold_left]. destruct (IH (Qmax x y)) as [Hin Hall].
  apply Forall_cons in Hall as [Hm Hall].
  split.
  - destruct Hin as [Hin|Hin].
    + destruct (Qmax_cases x y) as [Hc|Hc]; rewrite Hc in Hin |- *.
      * left. exact Hin.
      * right. left. exact Hin.
    + right. right. exact Hin.
  - constructor; [|constructor; [|done]].
    + eapply Qle_trans; [apply Q.le_max_l|exact Hm].
    + eapply Qle_trans; [apply Q.le_max_r|exact Hm].
Qed.

(** What the pipeline is asked and what is made of its answer: it is
    called on one row with a cell for each training column, none of them
    missing or of object type; the reported level is its prediction, the
    reported confidence is one of the probabilities it returns and no
    probability is larger. *)
Theorem pipeline_sees_a_clean_row (E : environment) (self : t)
        (clinic_data : json) (result : risk_assessment) :
  snd (predict_risk E self clinic_data) = Some result →
  ∃ pipeline row p,
    model self = Some pipeline
    ∧ length row = length (feature_columns self)
    ∧ Forall (fun v => is_object v = false ∧ notna v = true) row
    ∧ predict pipeline row = Ok (risk_level result)
    ∧ predict_proba pipeline row = Ok p
    ∧ In (confidence result) p
    ∧ Forall (fun x => x <= confidence result) p.
Proof.
  intros H.
  apply predict_risk_Some in H
    as (pipeline & d & df & X & Xe & lvl & p & c & Hm & -> & He & _ & Hx & Hl
        & Hp & Hc & ->).
  exists pipeline, (map snd Xe), p. cbn [risk_level confidence].
  destruct (_encode_categorical_features _ _) as [encoders r] eqn:Hx'.
  cbn in Hx. subst r. apply encode_clean in Hx' as [Hcols Hclean].
  rewrite column_names_align in Hcols.
  split; [done|]. split.
  { transitivity (length (column_names Xe));
      [unfold column_names; by rewrite !length_map | by rewrite Hcols]. }
  split; [done|]. split; [done|]. split; [done|].
  destruct p as [|x rest]; [discriminate Hc|].
  cbn in Hc. injection Hc as <-. apply fold_left_Qmax.
Qed.

Lemma pipeline_sees_a_clean_row_witness :
  ∃ result,
    snd (predict_risk Scenarios.env Scenarios.low_model
                      (JObject Scenarios.unlisted_solo_clinic)) = Some result
    ∧ ∃ pipeline row p,
        model Scenarios.low_model = Some pipeline
        ∧ length row = length (feature_columns Scenarios.low_model)
        ∧ Forall (fun v => is_object v = false ∧ notna v = true) row
        ∧ predict pipeline row = Ok (risk_level result)
        ∧ predict_proba pipeline row = Ok p
        ∧ In (confidence result) p
        ∧ Forall (fun x => x <= confidence result) p.
Proof.
  eexists. split; [vm_compute; reflexivity|].
  apply (pipeline_sees_a_clean_row Scenarios.env Scenarios.low_model
           (JObject Scenarios.unlisted_solo_clinic)).
  vm_compute. reflexivity.
Defined.

End EncoderState.

Section SimpleApiFacts.
Import Pandas Sklearn.

Lemma clamp_unit (x : Q) :
  0 <= py_max 0 (py_min 1 x) <= 1
  ∧ (0 <= x <= 1 → py_max 0 (py_min 1 x) == x).
Proof.
  unfold py_max, py_min.
  destruct (Qltb x 1) eqn:H1;
    [apply Qltb_lt in H1
    |apply not_true_iff_false in H1; rewrite Qltb_lt in H1].
  - destruct (Qltb 0 x) eqn:H0;
      [apply Qltb_lt in H0
      |apply not_true_iff_false in H0; rewrite Qltb_lt in H0];
      split; try lra; intros; lra.
  - replace (Qltb 0 1) with true by reflexivity.
    split; try lra; intros; lra.
Qed.

(** The score of the simple API is derived from the predicted level
    and the confidence: it lies in [0, 1], and for a confidence in
    [0, 1] it is 0.8, 0.4 or 0.2 (HIGH, MEDIUM, any other level) plus
    (confidence - 0.5) * 0.4; a LOW verdict with a confidence above
    0.75 thus carries a score above 0.3. *)
Theorem simple_api_score_bands (rid : string)
        (loaded : option SimpleApi.model_data)
        (clinic_data : gmap string pyval) (data : SimpleApi.risk_assessment)
        (status : Z) :
  SimpleApi.assess_risk rid loaded clinic_data = (SimpleApi.Assessed data, status) →
  let level := SimpleApi.risk_level data in
  let c := SimpleApi.confidence data in
  let base : Q := if String.eqb level "HIGH" then 0.8
                  else if String.eqb level "MEDIUM" then 0.4 else 0.2 in
  status = 200%Z
  ∧ 0 <= SimpleApi.risk_score data <= 1
  ∧ (0 <= c <= 1 → SimpleApi.risk_score data == base + (c - 0.5) * 0.4)
  ∧ (level = "LOW" → 0.75 < c <= 1 → 0.3 < SimpleApi.risk_score data).
Proof.
  unfold SimpleApi.assess_risk.
  destruct loaded as [md|]; [|discriminate].
  destruct (bool_decide (clinic_data = ∅)); [discriminate|].
  destruct (SimpleApi.py_rsub _ _) as [years|]; cbn [mbind res_bind];
    [|discriminate].
  destruct (predict _ _) as [enc|]; cbn [mbind res_bind]; [|discriminate].
  destruct (predict_proba _ _) as [p|]; cbn [mbind res_bind]; [|discriminate].
  destruct (SimpleApi.inverse_transform md enc) as [lvl|];
    cbn [mbind res_bind]; [|discriminate].
  destruct (np_max p) as [c|]; cbn [mbind res_bind]; [|discriminate].
  destruct (py_gt _ _ _) as [recent|]; cbn [mbind res_bind]; [|discriminate].
  intros [= <- <-]. cbn.
  match goal with
  | |- context [py_max 0 (py_min 1 ?x)] =>
      destruct (clamp_unit x) as [Hb Hx]; set (score := x) in *
  end.
  split; [done|]. split; [exact Hb|]. split.
  - intros Hc. subst score.
    destruct (String.eqb lvl "HIGH"); [apply Hx; lra|].
    destruct (String.eqb lvl "MEDIUM"); apply Hx; lra.
  - intros -> Hc. subst score. cbn in Hx |- *. rewrite Hx; lra.
Qed.

Lemma simple_api_score_bands_witness :
  ∃ data,
    SimpleApi.assess_risk "req_20240601_120000_000"
      (Some Scenarios.simple_low_bundle) Scenarios.unlicensed_clinic
    = (SimpleApi.Assessed data, 200%Z)
    ∧ 0 <= SimpleApi.risk_score data <= 1
    ∧ SimpleApi.risk_level data = "LOW"
    ∧ 0.75 < SimpleApi.confidence data <= 1
    ∧ 0.3 < SimpleApi.risk_score data.
Proof.
  eexists. split; [vm_compute; reflexivity|].
  pose proof (simple_api_score_bands "req_20240601_120000_000"
                (Some Scenarios.simple_low_bundle) Scenarios.unlicensed_clinic
                _ 200 ltac:(vm_compute; reflexivity)) as H.
  cbv zeta in H. destruct H as (_ & Hb & _ & Hlow).
  assert (Hc : 0.75 < 0.8 <= 1) by (split; [reflexivity | discriminate]).
  split; [exact Hb|]. split; [reflexivity|]. split; [exact Hc|].
  exact (Hlow eq_refl Hc).
Defined.

(** The founding year in the simple API: a JSON null makes the request
    fail with status 500; a record without the field is treated as
    founded in 2024 and flagged NEW_BUSINESS. *)
Theorem simple_api_founding_year_edge_cases (rid : string)
        (md : SimpleApi.model_data) (clinic_data : gmap string pyval) :
  (clinic_data !! "year_established" = Some VNone →
   SimpleApi.assess_risk rid (Some md) clinic_data
   = (SimpleApi.Failure
        "Internal server error"
        "unsupported operand type(s) for -: 'int' and 'NoneType'", 500%Z))
  ∧ (clinic_data !! "year_established" = None →
     ∀ data status,
       SimpleApi.assess_risk rid (Some md) clinic_data
       = (SimpleApi.Assessed data, status) →
       "NEW_BUSINESS" ∈ SimpleApi.risk_flags data).
Proof.
  unfold SimpleApi.assess_risk. split.
  - intros Hy.
    destruct (bool_decide_reflect (clinic_data = ∅)) as [->|_].
    { by rewrite lookup_empty in Hy. }
    replace (get clinic_data "year_established" (VNum 2024)) with VNone
      by (unfold get; by rewrite Hy).
    reflexivity.
  - intros Hy data status.
    destruct (bool_decide (clinic_data = ∅)); [discriminate|].
    replace (get clinic_data "year_established" (VNum 2024)) with (VNum 2024)
      by (unfold get; by rewrite Hy).
    cbn [SimpleApi.py_rsub mbind res_bind].
    destruct (predict _ _) as [enc|]; cbn [mbind res_bind]; [|discriminate].
    destruct (predict_proba _ _) as [p|]; cbn [mbind res_bind]; [|discriminate].
    destruct (SimpleApi.inverse_transform md enc) as [lvl|];
      cbn [mbind res_bind]; [|discriminate].
    destruct (np_max p) as [c|]; cbn [mbind res_bind]; [|discriminate].
    cbn. intros [= <- <-]. cbn.
    apply elem_of_app. right. apply elem_of_cons. by left.
Qed.

End SimpleApiFacts.

Section Validation.
Import Pandas Sklearn ClinicRiskModel ApiIntegration.

Lemma valid_inv (E : environment)
        (clinic_data : gmap string pyval) :
  valid (validate_clinic_data E clinic_data) = true →
  errors (validate_clinic_data E clinic_data) = []
  ∧ truthy (get clinic_data "clinic_name" VNone) = true
  ∧ (∃ email, clinic_data !! "email" = Some (VStr email)
              ∧ email ≠ ""
              ∧ Str.contains "@" email = true)
  ∧ (∀ year, clinic_data !! "year_established" = Some (VNum year) →
             year == 0 ∨ (1900 <= year ∧ year <= inject_Z (current_year E))).
Proof.
  unfold validate_clinic_data.
  destruct (bool_decide (clinic_data = ∅)); [discriminate|].
  cbn [fold_left app].
  destruct (truthy (get clinic_data "clinic_name" VNone)) eqn:Hname;
    cbn [negb].
  2:{ repeat match goal with
             | |- context [mbind _ ?e] =>
                 destruct e as [[]|]; cbn [mbind res_bind]
             | |- context [if negb ?b then _ else _] => destruct b; cbn [negb]
             end; cbn; discriminate. }
  destruct (truthy (get clinic_data "email" VNone)) eqn:Hemail; cbn [negb].
  2:{ repeat match goal with
             | |- context [mbind _ ?e] =>
                 destruct e as [[]|]; cbn [mbind res_bind]
             end; cbn; discriminate. }
  unfold get in Hemail |- *.
  destruct (clinic_data !! "email") as [email|] eqn:He; [|discriminate Hemail].
  cbn [from_option id] in *.
  destruct email as [| |q|email|h d]; cbn [not_in mbind res_bind valid];
    try discriminate.
  destruct (Str.contains "@" email) eqn:Hat; cbn [negb mbind res_bind];
    [|repeat match goal with
             | |- context [mbind _ ?e] =>
                 destruct e as [[]|]; cbn [mbind res_bind]
             end; cbn; discriminate].
  match goal with
  | |- context [mbind _ ?e] => destruct e as [warn|]; cbn [mbind res_bind]
  end; [|discriminate].
  destruct (clinic_data !! "year_established") as [year|] eqn:Hy;
    cbn [from_option id].
  - destruct (truthy year) eqn:Hty.
    + destruct (py_or _ _) as [[]|] eqn:Hor; cbn [mbind res_bind];
        [discriminate| |discriminate].
      intros _. cbn. repeat split; try done.
      * exists email. repeat split; try done.
        intros ->. discriminate Hemail.
      * intros q [= ->]. right. cbn in Hor.
        destruct (Qltb q 1900) eqn:H1; [discriminate Hor|].
        apply not_true_iff_false in H1. rewrite Qltb_lt in H1.
        injection Hor as Hor.
        apply not_true_iff_false in Hor. rewrite Qltb_lt in Hor.
        split; lra.
    + cbn [mbind res_bind]. intros _. cbn. repeat split; try done.
      * exists email. repeat split; try done.
        intros ->. discriminate Hemail.
      * intros q [= ->]. left. cbn in Hty.
        apply negb_false_iff in Hty. by apply Qeq_bool_iff.
  - cbn [truthy mbind res_bind]. intros _. cbn. repeat split; try done.
    exists email. repeat split; try done.
    intros ->. discriminate Hemail.
Qed.



(** The other direction, on well-typed records: a non-empty name, an
    e-mail address containing [@], a phone number that is absent or
    any string, and a founding year that is absent, 0 or between 1900
    and the current year make the record valid; the phone number can
    only produce a warning. *)
Theorem well_formed_record_is_valid (E : environment)
        (clinic_data : gmap string pyval) (name email : string) :
  clinic_data !! "clinic_name" = Some (VStr name) →
  name ≠ "" →
  clinic_data !! "email" = Some (VStr email) →
  Str.contains "@" email = true →
  (clinic_data !! "phone" = None
   ∨ ∃ phone, clinic_data !! "phone" = Some (VStr phone)) →
  (clinic_data !! "year_established" = None
   ∨ ∃ year, clinic_data !! "year_established" = Some (VNum year)
             ∧ (year == 0
                ∨ (1900 <= year ∧ year <= inject_Z (current_year E)))) →
  valid (validate_clinic_data E clinic_data) = true
  ∧ errors (validate_clinic_data E clinic_data) = []
  ∧ ∃ w, warnings (validate_clinic_data E clinic_data) = Some w.
Proof.
  intros Hname Hn Hemail Hat Hphone Hyear.
  unfold validate_clinic_data.
  destruct (bool_decide_reflect (clinic_data = ∅)) as [->|_].
  { by rewrite lookup_empty in Hname. }
  cbn [fold_left]. unfold get. rewrite Hname, Hemail. cbn [from_option id].
  assert (Hne : email ≠ "") by (intros ->; discriminate Hat).
  cbn [truthy]. apply String.eqb_neq in Hn, Hne. rewrite Hn, Hne.
  cbn [negb not_in mbind res_bind]. rewrite Hat. cbn [negb].
  assert (Hp : ∃ c, (if truthy (default (VStr "") (clinic_data !! "phone"))
                     then digits ← phone_digits
                                   (default (VStr "") (clinic_data !! "phone"));
                          Ok (negb digits)
                     else Ok false) = Ok c).
  { destruct Hphone as [->|[phone ->]]; cbn; [by eexists|].
    destruct (negb (String.eqb phone "")); cbn; by eexists. }
  destruct Hp as [c ->]. cbn [mbind res_bind].
  assert (Hy : (if truthy (default VNone (clinic_data !! "year_established"))
                then py_or
                       (py_lt (default VNone (clinic_data !! "year_established"))
                              1900 "int")
                       (py_gt (default VNone (clinic_data !! "year_established"))
                              (inject_Z (current_year E)) "int")
                else Ok false) = Ok false).
  { destruct Hyear as [->|(year & -> & Hy)]; cbn; [done|].
    destruct (Qeq_bool year 0) eqn:H0; cbn; [done|].
    destruct Hy as [Hy|[H1 H2]].
    { apply Qeq_bool_iff in Hy. congruence. }
    unfold py_or. cbn.
    replace (Qltb year 1900) with false
      by (symmetry; apply not_true_iff_false; rewrite Qltb_lt; lra).
    cbn. f_equal. apply not_true_iff_false. rewrite Qltb_lt. lra. }
  rewrite Hy. cbn. split; [done|]. split; [done|]. by eexists.
Qed.

Lemma well_formed_record_is_valid_witness :
  Scenarios.solo_clinic !! "clinic_name" = Some (VStr "Solo Practice")
  ∧ Scenarios.solo_clinic !! "email" = Some (VStr "dr@clinic.org")
  ∧ Str.contains "@" "dr@clinic.org" = true
  ∧ Scenarios.solo_clinic !! "phone" = None
  ∧ Scenarios.solo_clinic !! "year_established" = None
  ∧ valid (validate_clinic_data Scenarios.env Scenarios.solo_clinic) = true
  ∧ errors (validate_clinic_data Scenarios.env Scenarios.solo_clinic) = []
  ∧ ∃ w, warnings (validate_clinic_data Scenarios.env Scenarios.solo_clinic)
         = Some w.
Proof.
  assert (Hn : Scenarios.solo_clinic !! "clinic_name"
               = Some (VStr "Solo Practice")) by (vm_compute; reflexivity).
  assert (He : Scenarios.solo_clinic !! "email" = Some (VStr "dr@clinic.org"))
    by (vm_compute; reflexivity).
  assert (Ha : Str.contains "@" "dr@clinic.org" = true)
    by (vm_compute; reflexivity).
  assert (Hp : Scenarios.solo_clinic !! "phone" = None)
    by (vm_compute; reflexivity).
  assert (Hy : Scenarios.solo_clinic !! "year_established" = None)
    by (vm_compute; reflexivity).
  repeat (split; [assumption|]).
  apply (well_formed_record_is_valid Scenarios.env Scenarios.solo_clinic
           "Solo Practice" "dr@clinic.org" Hn ltac:(discriminate) He Ha
           (or_introl Hp) (or_introl Hy)).
Defined.

(** A record the validation endpoint accepts is not turned away by the
    field check of the assessment endpoint: on a loaded model it is
    answered with an assessment, or with 500 when the prediction
    fails, never with 400. *)
Theorem validated_record_passes_the_field_check (E : environment)
        (model : t) (clinic_data : gmap string pyval) :
  valid (validate_clinic_data E clinic_data) = true →
  (∃ data, snd (assess_risk E model true clinic_data)
           = (Assessed data "1.0", 200%Z))
  ∨ snd (assess_risk E model true clinic_data)
    = (Failure "Prediction failed" "Unable to complete risk assessment",
       500%Z).
Proof.
  intros H. apply valid_inv in H as (_ & Hname & (email & Hemail & _) & _).
  assert (Hn : is_Some (clinic_data !! "clinic_name")).
  { unfold get in Hname. destruct (clinic_data !! "clinic_name"); [done|].
    discriminate Hname. }
  unfold assess_risk. cbn [negb].
  destruct (bool_decide_reflect (clinic_data = ∅)) as [->|_].
  { by rewrite lookup_empty in Hemail. }
  cbn [List.filter]. unfold has_col.
  rewrite !bool_decide_eq_true_2 by (done || by rewrite Hemail).
  cbn [negb].
  destruct (predict_risk E model (JObject clinic_data)) as [model' [r|]];
    cbn; [left; by eexists | by right].
Qed.

Lemma validated_record_passes_the_field_check_witness :
  valid (validate_clinic_data Scenarios.env Scenarios.solo_clinic) = true
  ∧ ((∃ data, snd (assess_risk Scenarios.env Scenarios.low_model true
                               Scenarios.solo_clinic)
              = (Assessed data "1.0", 200%Z))
     ∨ snd (assess_risk Scenarios.env Scenarios.low_model true
                        Scenarios.solo_clinic)
       = (Failure "Prediction failed" "Unable to complete risk assessment",
          500%Z)).
Proof.
  assert (H : valid (validate_clinic_data Scenarios.env Scenarios.solo_clinic)
              = true) by (vm_compute; reflexivity).
  split; [exact H|].
  exact (validated_record_passes_the_field_check
           Scenarios.env Scenarios.low_model Scenarios.solo_clinic H).
Defined.

End Validation.

Section ModelFiles.
Import Pandas Sklearn ClinicRiskModel.

(** Saving and loading round-trip: whatever object loads a file written
    by [save_model] becomes equal to the object that was saved, and
    an object without a model writes nothing. *)
Theorem saved_model_loads_back (E : environment) (self other : instance)
        (filepath : string) (fs fs' : filesystem) :
  save_model E self filepath fs = (true, fs') →
  load_model other filepath fs' = (self, true)
  ∧ ∀ path, path ≠ filepath → fs' !! path = fs !! path.
Proof.
  unfold save_model, joblib_dump.
  destruct self as [[m encoders cols version] sc].
  cbn [self_fields self_scaler model label_encoders feature_columns
       model_version].
  destruct m as [m|]; [|discriminate].
  intros [= <-]. split.
  - unfold load_model, joblib_load, filesystem in *.
    by rewrite lookup_insert_eq.
  - intros path Hne. unfold filesystem in *. by rewrite lookup_insert_ne.
Qed.

Lemma saved_model_loads_back_witness :
  ∃ fs',
    save_model Scenarios.env Scenarios.trained_instance "clinic_risk_model.joblib" ∅
    = (true, fs')
    ∧ ClinicRiskModel.load_model
        {| self_fields := Scenarios.high_model;
           self_scaler := self_scaler Scenarios.trained_instance |}
        "clinic_risk_model.joblib" fs'
      = (Scenarios.trained_instance, true).
Proof.
  eexists. split; [reflexivity|].
  eapply saved_model_loads_back. reflexivity.
Defined.

(** Loading is not atomic: the attributes are assigned one by one, so
    a file that has a model but lacks the training columns makes
    [load_model] return [False] with the new pipeline installed next to
    the old training columns and version. *)
Theorem failed_load_leaves_a_mixed_object (self : instance)
        (filepath : string) (fs : filesystem) (file : model_file)
        (m : classifier string) :
  fs !! filepath = Some file →
  file_model file = Some m →
  file_feature_columns file = None →
  let '(self', loaded) := load_model self filepath fs in
  loaded = false
  ∧ model (self_fields self') = Some m
  ∧ feature_columns (self_fields self')
    = feature_columns (self_fields self)
  ∧ model_version (self_fields self') = model_version (self_fields self).
Proof.
  intros Hf Hm Hc. unfold load_model, joblib_load. rewrite Hf, Hm.
  destruct (file_scaler file); [|done].
  destruct (file_label_encoders file); [|done].
  by rewrite Hc.
Qed.

Lemma failed_load_leaves_a_mixed_object_witness :
  let fs : filesystem :=
    <["clinic_risk_model.joblib" := Scenarios.columnless_file]> ∅ in
  fs !! "clinic_risk_model.joblib" = Some Scenarios.columnless_file
  ∧ file_feature_columns Scenarios.columnless_file = None
  ∧ let '(self', loaded) :=
      ClinicRiskModel.load_model Scenarios.trained_instance
                                 "clinic_risk_model.joblib" fs in
    loaded = false
    ∧ model (self_fields self')
      = Some (Scenarios.constant_pipeline "HIGH" [1; 0; 0])
    ∧ feature_columns (self_fields self')
      = feature_columns (self_fields Scenarios.trained_instance)
    ∧ model_version (self_fields self')
      = model_version (self_fields Scenarios.trained_instance).
Proof.
  intros fs.
  assert (Hf : fs !! "clinic_risk_model.joblib"
               = Some Scenarios.columnless_file)
    by (unfold fs, filesystem; apply lookup_insert_eq).
  split; [exact Hf|]. split; [reflexivity|].
  exact (failed_load_leaves_a_mixed_object Scenarios.trained_instance
           "clinic_risk_model.joblib" fs Scenarios.columnless_file
           (Scenarios.constant_pipeline "HIGH" [1; 0; 0]) Hf eq_refl eq_refl).
Defined.

End ModelFiles.

Section Reload.
Import Pandas Sklearn ClinicRiskModel ApiIntegration.

(** [POST /reload-model] never reports success: [load_model()] returns
    nothing, so the endpoint answers 500 "Failed to reload model" in
    every case, also when the file was complete and the model object
    has in fact been replaced and marked as loaded.  A failed load
    never clears [model_loaded]. *)
Theorem reload_never_reports_success (environ : gmap string string)
        (fs : filesystem) (model : instance) (model_loaded : bool) :
  let path := default "clinic_risk_model.joblib" (environ !! "MODEL_PATH") in
  let '(model', model_loaded', answer) :=
    reload_model environ fs model model_loaded in
  answer = (ReloadFailed "Failed to reload model", 500%Z)
  ∧ (model', model_loaded')
    = (let '(m, ok) := ClinicRiskModel.load_model model path fs in
       (m, ok || model_loaded))
  ∧ (model_loaded = true → model_loaded' = true)
  ∧ (∀ m s encoders cols version date,
        fs !! path = Some {| file_model := Some m;
                             file_scaler := Some s;
                             file_label_encoders := Some encoders;
                             file_feature_columns := Some cols;
                             file_model_version := version;
                             file_training_date := date |} →
        model_loaded' = true
        ∧ self_fields model'
          = {| ClinicRiskModel.model := Some m;
               label_encoders := encoders;
               feature_columns := cols;
               model_version := default "1.0" version |}).
Proof.
  unfold reload_model, load_model.
  destruct (ClinicRiskModel.load_model model _ fs) as [m ok] eqn:Hl.
  cbn. split; [done|]. split; [by destruct ok|].
  split; [by destruct ok|].
  intros p s encoders cols version date Hf.
  unfold ClinicRiskModel.load_model, joblib_load in Hl. rewrite Hf in Hl.
  cbn in Hl. by injection Hl as <- <-.
Qed.

End Reload.

Section BehaviourVerdicts.
Import Sklearn.

(** The verdict of the trained classifier is "human" exactly when both
    components are in the bundle, the eight features convert to doubles,
    scaling and both model calls succeed and the predicted class is 1.
    The raw snapshot only enters through [prepare_features], which
    replaces every ill-typed field by 0 and fails on an integer beyond
    the range of the doubles; such a snapshot gets the fail-closed
    verdict.  A "human" verdict carries the model's probabilities and
    their maximum as confidence. *)
Theorem human_verdict_iff_classifier_says_so
        (md : BehaviorInference.model_data) (snapshot : gmap string pyval) :
  isHuman (BehaviorInference.predict_human md snapshot) = true
  ↔ ∃ m s row x p,
      BehaviorInference.model md = Some m
      ∧ BehaviorInference.scaler md = Some s
      ∧ BehaviorInference.prepare_features snapshot = Ok row
      ∧ transform s row = Ok x
      ∧ predict m x = Ok 1%Z
      ∧ predict_proba m x = Ok p
      ∧ BehaviorInference.predict_human md snapshot
        = {| isHuman := true;
             confidence := py_max (nth 1 p 0) (nth 0 p 0);
             modelVersion := default "unknown" (BehaviorInference.version md);
             reason := "Behavioral patterns match human interaction";
             prob_human := nth 1 p 0;
             prob_bot := nth 0 p 0 |}.
Proof.
  unfold BehaviorInference.predict_human, BehaviorInference.predict_human_try,
    BehaviorInference.item.
  split.
  - destruct (BehaviorInference.model md) as [m|]; cbn [mbind res_bind];
      [|discriminate].
    destruct (BehaviorInference.scaler md) as [s|]; cbn [mbind res_bind];
      [|discriminate].
    destruct (BehaviorInference.prepare_features snapshot) as [row|] eqn:Hrow;
      cbn [mbind res_bind]; [|discriminate].
    destruct (transform s _) as [x|] eqn:Hx; cbn [mbind res_bind];
      [|discriminate].
    destruct (predict m x) as [y|] eqn:Hy; cbn [mbind res_bind]; [|discriminate].
    destruct (predict_proba m x) as [p|] eqn:Hp; cbn [mbind res_bind];
      [|discriminate].
    destruct (y =? 1)%Z eqn:H1.
    + apply Z.eqb_eq in H1 as ->. cbn [negb mbind res_bind]. intros _.
      exists m, s, row, x, p. repeat split; try done.
      destruct p as [|b [|h p]]; reflexivity.
    + cbn [negb].
      match goal with
      | |- context [mbind _ ?e] => destruct e; cbn [mbind res_bind]
      end; cbn; discriminate.
  - intros (m & s & row & x & p & -> & -> & -> & Hx & Hy & Hp & _).
    cbn [mbind res_bind]. rewrite Hx. cbn [mbind res_bind].
    rewrite Hy, Hp. reflexivity.
Qed.

(** An attentive visitor is let through by a bundle that answers
    "human"; the same bundle fails closed on a snapshot whose page time
    is an integer that no double can hold. *)
Lemma overflowing_telemetry_fails_closed :
  isHuman (BehaviorInference.predict_human Scenarios.trusting_bundle
                                           Scenarios.human_snapshot) = true
  ∧ BehaviorInference.prepare_features Scenarios.overflowing_snapshot
    = Raise (OverflowError "int too large to convert to float")
  ∧ BehaviorInference.predict_human Scenarios.trusting_bundle
                                    Scenarios.overflowing_snapshot
    = BehaviorInference.safe_default
        (OverflowError "int too large to convert to float").
Proof. repeat split; vm_compute; reflexivity. Qed.

(** [float(n)] rounds an integer that has more than 53 significant
    bits. *)
Lemma py_float_rounds_large_integers :
  BehaviorInference.py_float (VNum (inject_Z (2 ^ 53 + 1)))
  = Ok (VNum (inject_Z (2 ^ 53)))
  ∧ BehaviorInference.py_float (VNum 120) = Ok (VNum 120)
  ∧ BehaviorInference.py_float (VNum 0.9) = Ok (VNum 0.9).
Proof. repeat split; vm_compute; reflexivity. Qed.

(** The command-line wrapper of the trained classifier exits with
    status 1 only when the model file cannot be loaded or the input has
    no snapshot, always with the fail-closed verdict; a prediction that
    raises is reported with exit status 0, carrying the fail-closed
    verdict of [predict_human]. *)
Theorem inference_exit_status
        (artifact : res BehaviorInference.model_data)
        (input_data : gmap string (gmap string pyval)) :
  let '(verdict, status) := BehaviorInference.main artifact input_data in
  (status = 0%Z
   ↔ ∃ md snapshot,
       artifact = Ok md ∧ input_data !! "snapshot" = Some snapshot
       ∧ snapshot ≠ ∅)
  ∧ (∀ md snapshot,
        artifact = Ok md → input_data !! "snapshot" = Some snapshot →
        snapshot ≠ ∅ →
        verdict = BehaviorInference.predict_human md snapshot
        ∧ ∀ e, BehaviorInference.predict_human_try md snapshot = Raise e →
               verdict = BehaviorInference.safe_default e)
  ∧ (status ≠ 0%Z →
     status = 1%Z ∧ isHuman verdict = false ∧ confidence verdict = 0
     ∧ prob_human verdict = 0 ∧ prob_bot verdict = 1).
Proof.
  unfold BehaviorInference.main, BehaviorInference.load_model.
  destruct artifact as [md|e]; cbn [mbind res_bind].
  2:{ split; [|split].
      - split; [discriminate|]. by intros (? & ? & ? & _).
      - by intros ? ? ?.
      - by intros _. }
  destruct (input_data !! "snapshot") as [snapshot|].
  2:{ split; [|split].
      - split; [discriminate|]. by intros (? & ? & _ & ? & _).
      - by intros ? ? _ ?.
      - by intros _. }
  destruct (decide (snapshot = ∅)) as [->|Hne].
  { split; [|split].
    - split; [discriminate|]. by intros (? & ? & _ & [= <-] & ?).
    - by intros ? ? _ [= <-] ?.
    - by intros _. }
  split; [|split].
  - split; [|done]. intros _. by exists md, snapshot.
  - intros ? ? [= <-] [= <-] _. split; [done|].
    intros e He. unfold BehaviorInference.predict_human. by rewrite He.
  - by intros ?.
Qed.

End BehaviourVerdicts.

Section MockVerdicts.
Import MockInference.



End MockVerdicts.

Section SyntheticLabels.
Import Pandas Sklearn ClinicRiskModel.

(** The synthetic labelling rule reads the names of engineered features
    from the frame it is given.  On a frame without a [risk_score]
    column whose rows hold none of those names (and at most a numeric
    [years_in_business]) every score is 0.5 or 0.4, so every row is
    labelled MEDIUM. *)
Theorem frames_without_feature_columns_are_labelled_medium (df : dataframe) :
  "risk_score" ∉ columns df →
  Forall (fun row : gmap string pyval =>
            (∀ k, k ∈ ["has_license"; "has_website"; "is_new_business";
                       "is_solo_practice"; "has_accreditation";
                       "license_format_valid"] → row !! k = None)
            ∧ labelable_row false row)
         (rows df) →
  ∃ risk_scores,
    prepare_labels df
    = Ok (replicate (length (rows df)) "MEDIUM", risk_scores)
    ∧ Forall (fun score => ∃ q, score = VNum q ∧ (q == 0.5 ∨ q == 0.4))
             risk_scores.
Proof.
  intros Hcol Hrows. unfold prepare_labels.
  rewrite bool_decide_eq_false_2 by done.
  assert (Hscores : ∃ scores,
             _create_synthetic_risk_scores df = Ok scores
             ∧ Forall2 (fun (_ : gmap string pyval) score =>
                          ∃ q, score = VNum q ∧ (q == 0.5 ∨ q == 0.4))
                       (rows df) scores).
  { unfold _create_synthetic_risk_scores.
    eapply mapM_res_ok; [|exact Hrows].
    intros row [Hnone Hyear]. unfold get.
    rewrite !Hnone by (repeat first [by apply elem_of_cons; left
                                    |apply elem_of_cons; right]).
    unfold labelable_row, get in Hyear.
    destruct (row !! "years_in_business") as [[| |q| |]|]; cbn in *;
      try destruct Hyear.
    - eexists. split; [reflexivity|]. eexists. split; [reflexivity|]. by left.
    - destruct (Qltb 5 q); eexists; (split; [reflexivity|]);
        eexists; (split; [reflexivity|]); [by right | by left].
    - eexists. split; [reflexivity|]. eexists. split; [reflexivity|]. by left. }
  destruct Hscores as (scores & Hs & Hall).
  rewrite Hs. cbn [mbind res_bind].
  assert (Hl : mapM risk_level_of_score scores
               = Ok (replicate (length scores) "MEDIUM")).
  { clear -Hall. induction Hall as [|row score rows' scores' (q & -> & Hq) _ IH];
      [done|].
    cbn [mapM length replicate]. rewrite IH.
    unfold risk_level_of_score, py_le. cbn [mbind res_bind].
    replace (Qle_bool q 0.3) with false
      by (symmetry; apply Qle_bool_false; destruct Hq as [-> | ->]; reflexivity).
    replace (Qle_bool q 0.7) with true
      by (symmetry; apply Qle_bool_iff; destruct Hq as [-> | ->]; discriminate).
    reflexivity. }
  rewrite Hl. cbn [mbind res_bind].
  exists scores. split.
  - by rewrite (Forall2_length _ _ _ Hall).
  - clear -Hall. induction Hall; constructor; auto.
Qed.

Lemma frames_without_feature_columns_are_labelled_medium_witness :
  ("risk_score" ∉ columns Scenarios.raw_frame)
  ∧ ∃ risk_scores,
      prepare_labels Scenarios.raw_frame
      = Ok (["MEDIUM"; "MEDIUM"], risk_scores)
      ∧ Forall (fun score => ∃ q, score = VNum q ∧ (q == 0.5 ∨ q == 0.4))
               risk_scores.
Proof.
  assert (Hc : "risk_score" ∉ columns Scenarios.raw_frame).
  { intros Hin.
    repeat (apply elem_of_cons in Hin as [Hin|Hin]; [discriminate Hin|]).
    by apply elem_of_nil in Hin. }
  split; [exact Hc|].
  apply (frames_without_feature_columns_are_labelled_medium
           Scenarios.raw_frame Hc).
  repeat constructor;
    try (intros k Hk;
         repeat (apply elem_of_cons in Hk as [->|Hk];
                 [vm_compute; reflexivity|]);
         by apply elem_of_nil in Hk);
    vm_compute; exact I.
Defined.

End SyntheticLabels.

Section FieldCheck.
Import Pandas Sklearn ClinicRiskModel ApiIntegration.

(** The status codes of [POST /assess-risk].  503 exactly when no model
    is loaded; otherwise 400 exactly when the body is empty or lacks the
    key [clinic_name] or [email] (a key holding null or an empty string
    passes), and then the missing keys are listed in that order;
    otherwise 200 with the assessment when [predict_risk] returns one
    and 500 when it returns nothing.  The model object is only touched
    when a prediction runs. *)
Theorem assess_risk_status_codes (E : environment) (model : t)
        (model_loaded : bool) (clinic_data : gmap string pyval) :
  let '(model', (answer, status)) :=
    assess_risk E model model_loaded clinic_data in
  let rejected :=
    clinic_data = ∅ ∨ clinic_data !! "clinic_name" = None
    ∨ clinic_data !! "email" = None in
  (status = 503%Z ↔ model_loaded = false)
  ∧ (status = 400%Z ↔ model_loaded = true ∧ rejected)
  ∧ (status = 503%Z ∨ status = 400%Z → model' = model)
  ∧ (∀ missing, answer = MissingFields missing →
                missing = List.filter
                            (fun field => negb (has_col clinic_data field))
                            ["clinic_name"; "email"])
  ∧ (model_loaded = true → ¬ rejected →
     (model', match answer with
              | Assessed data "1.0" => Some data
              | _ => None
              end)
     = predict_risk E model (JObject clinic_data)
     ∧ status = match snd (predict_risk E model (JObject clinic_data)) with
                | Some _ => 200%Z
                | None => 500%Z
                end).
Proof.
  unfold assess_risk.
  destruct model_loaded; cbn [negb].
  2:{ repeat split; try done; try discriminate; try tauto.
      by intros [? _]. }
  destruct (bool_decide_reflect (clinic_data = ∅)) as [Hempty|Hne].
  { repeat split; try done; try discriminate; try tauto. }
  cbn [List.filter]. unfold has_col.
  destruct (clinic_data !! "clinic_name") as [name|] eqn:Hn;
    destruct (clinic_data !! "email") as [email|] eqn:He;
    try (rewrite !bool_decide_eq_true_2 by done);
    try (rewrite !bool_decide_eq_false_2 by (by intros [? ?]));
    cbn [negb];
    try (repeat split; try done; try discriminate; try tauto;
         by intros ? [= <-]).
  destruct (predict_risk E model (JObject clinic_data)) as [model' [r|]];
    cbn [snd]; repeat split; try done; try discriminate;
    try (by intros [? [?|[?|?]]]); try (by intros [?|?]).
Qed.

End FieldCheck.
